(* ===== verification/_CoqProject ===== *)
-Q . S2P
Prelude.v
PyStr.v
PyFloat.v
PyValue.v
Calculator.v
Orchestrator.v
Pipeline.v
Bson.v
Mongo.v
Users.v
History.v
App.v
Scans.v
Integration.v
Cors.v
