(* ===== verification/Prelude.v ===== *)
(** * Verification of the drawing-to-weight system (src/)

    The repository estimates the weight of a drawn sheet-metal part from an
    engineering drawing.  Its core is [src/backend/core/analysis.py]:

    - [DrawnSteelCalculator] (lines 9-61): a pure function from a dictionary
      of dimensions (the JSON object returned by the vision model) to a
      weight in kg rounded to 3 decimals;
    - [extract_dimensions_with_gemini] (lines 64-139): tries four vision
      models in a fixed order, strips markdown fences from the first
      non-empty answer, parses it with [json.loads], and classifies failures
      by looking for "429" or "404" in the exception message;
    - [process_drawing_pipeline] (lines 142-200): converts a PDF to a
      temporary JPEG, calls the extractor, calls the calculator when the
      extraction is truthy, then deletes the temporary image;
    - the [__main__] block (lines 203-227) that picks a key and an image.

    Around it, a FastAPI backend stores users and scan records in MongoDB:
    [routers/users.py] (register, token, delete, me), [routers/scans.py]
    (history, and the analysis endpoint), [models.py]
    ([validate_object_id], [UserModel], [ScanHistoryModel]) and
    [database.py] (the [db] handle); [main.py] mounts the routers.  The
    pipeline and the backend do not call each other in the current code
    (the analysis endpoint that would, writing one history record per
    successful run, is commented out); the backend's handlers interact
    only through the database.  [test_backend.py] and
    [verify_integration.py] are scripts that exercise the backend and the
    import of the core.

    ** Files, in dependency order

    - [Prelude] (this file): the exception monad [exn] with its [let*]
      notation in [py_scope], the [py] and [pyrw] hint databases, the
      tactics [inv] and [exn_split], shared list lemmas.
    - [PyStr]: the string methods the code calls ([str.replace],
      [str.strip], [str.lower], [str.endswith], [in]) on ASCII strings.
    - [PyFloat]: the interface [PyFloat] of Python float arithmetic, with
      two instances: IEEE binary64 ([PrimFloat.float], what CPython
      computes, [round(x, 3)] as CPython's correctly rounded [double_round])
      and exact rationals ([Q], the mathematical formula).
    - [PyValue]: JSON values as [json.loads] returns them, Python numbers
      with int/float promotion, truthiness, [dict.get] and [d[k]].
    - [Calculator] (Module [Calculator], Section [Calc]): the class, its
      constants and both methods, written once against [PyFloat];
      Module [Calculator64] runs it in binary64.
    - [Orchestrator] (Module [Orchestrator]): [extract_dimensions_with_gemini]
      against the interfaces [VisionService] (the genai client) and
      [JsonLoads]; one loop iteration is [attempt], the loop [model_loop];
      [ostep] is the specification's state machine (section 4.2).
    - [Pipeline]: [process_drawing_pipeline] and [main_block] over a file
      system [gmap string FileData] (stdpp), with [PdfConverter] for
      pdf2image; temporary files are the keys the run inserts and deletes.
    - [Bson] (Module [Bson]): [ObjectId] as a 96-bit integer with [str]
      and [validate_object_id], BSON values and MongoDB's comparison.
    - [Mongo] (Module [Mongo]): the two collections as lists in natural
      order ([DB]); [find_one], [insert_one], [delete_one], and
      [find().sort().to_list()] with the sort as the interface [Cursor]
      and its contract [SortContract]; handlers are coroutines [Co], one
      [Yield] per [await], run alone ([run], with fuel) or interleaved
      under a schedule ([interleave]).
    - [Users] (Module [Users]): the four handlers of [routers/users.py],
      with [Auth] for the missing [auth.py].
    - [History] (Module [History]): [get_history].
    - [App] (Module [App]): the application of [main.py] (route table,
      Starlette's 404/405 matching, FastAPI's status codes, the
      [get_current_user] dependency as the interface [CurrentUser]) and
      the script [test_backend.py] as six requests with its assertions.
    - [Scans] (Module [Scans]): the commented-out [analyze_drawing] of
      [routers/scans.py] (lines 17-65), where the two halves meet: the
      upload written to a file of [Pipeline]'s file system,
      [process_drawing_pipeline], the [ScanHistoryModel] of [Bson] inserted
      into [Mongo]'s [history], the [except] and [finally] clauses.  The
      file system is local to the request, the database is the
      coroutine's; [analyze_try] is the synchronous part of the [try]
      block, returning the rest (from the insert's [await]) as a [Co].
    - [Integration] (Module [Integration]): [verify_integration.py]'s
      printed lines as a function of the import's outcome.
    - [Cors] (Module [Cors]): Starlette's [CORSMiddleware] for any
      configuration, instantiated with main.py's arguments (lines 12-18)
      and wrapped around [App.app_handle]: preflights answered by the
      middleware, other requests passed to the application with headers
      added.

    ** What is proved

    - Calculator (C1, C2, C4, C6, C7): the code refines the
      specification's formula (same operations in the same order, in any
      [PyFloat] instance, under the side conditions stated in
      [calculate_refines_spec]); in exact arithmetic the weight is
      monotone in depth; a missing [outer_width] raises [KeyError] and an
      unknown shape is computed as a rectangle; every returned weight is
      a rounded [float], in any instance.
    - Orchestrator (C8-C11, C13-C15): the loop reaches exactly the
      terminal state of the specification's machine [ostep]
      (refinement); the first success wins and later models are not
      called; all failures exhaust with every model tried once, in order;
      cleaning removes every fence; an empty parsed object still stops
      the loop; decoder messages are classified by substring.
    - Pipeline (C16-C19): no weight without truthy data; a normal return
      only removes the temporary file, and leaves a non-PDF input's disk
      as it was; a calculator exception leaks the temporary JPEG; an
      upper-case ".PDF" input is overwritten and deleted.
    - Users (C22, C23, C25-C27): concurrent registrations of one email
      both succeed (the check and the insert are separate awaits); run
      alone, register keeps emails unique and ids fresh; register then
      login round trip; the email lookup shadows the username lookup; a
      second delete answers 404.
    - History (C28-C30): only the user's records are returned, newest
      first, at most 100; legacy string-id records are hidden as soon as
      one ObjectId record exists.
    - App (C20): [test_backend.py] fails at its line-58 assertion, since
      [POST /analysis/analyze] answers 404 where it expects 422.
    - CORS (C3): with main.py's arguments every origin gets credentialed
      access (the origin is echoed with
      [Access-Control-Allow-Credentials: true], on preflights for any
      path and on cookie-carrying requests).
    - Analysis endpoint (C5, C12, C21, C24, C31): a missing key's 400 is
      turned into a 500 by the handler's own [except]; a calculator error
      on a PDF answers 500 and the pipeline's JPEG stays on disk after the
      [finally]; a successful run stores exactly one record and answers
      with the weight; every path keeps scan ids fresh (invariant); the
      stored record is read back by [get_history], through its fallback,
      since its [user_id] is a string (round trip).
    - ObjectId (C32): [validate_object_id (str oid) = oid].

    ** Bounds and fuel

    [run] takes one unit of fuel per [await]: [register] needs 3,
    [login_for_access_token] and [get_history] 2, [delete_user] and
    [analyze_drawing] 1; the theorems state these numbers, and [run_det]
    and [run_more_fuel] show more fuel changes nothing.  [send] gives a
    request 4, enough for the dependency's read plus any handler.
    [replace_fuel] in [PyStr] uses the length of the string, enough since
    each step consumes a character; [dec_digits] is given 10 digits, more
    than a status code has.  Integers are unbounded [Z] as in Python;
    ObjectIds are 96-bit ([oid_wf]); the fresh-id theorems of [Scans]
    assume the counter below [2^96].

    ** Not modelled

    The genai client, [json.loads], Pillow and pdf2image are interfaces
    with test doubles (I/O and external services); [auth.py] and
    [schemas.py] are absent from the repository, so hashing, tokens and
    [get_current_user] are the interfaces [Auth] and [CurrentUser] and the
    request/response models are records; pymongo's encoding of the
    weight and of the extracted dictionary is the interface [ScanEncoding]
    ([bval] has no arrays); [str(e)] of exceptions other than
    [HTTPException] is a parameter; the Motor connection, [get_database] and [load_dotenv] are
    I/O; whether [verify_integration.py]'s import succeeds depends on the
    environment and is its input.  The [analyze_drawing] route is not
    registered in [App.routes], as in the source.  Strings are ASCII;
    [x ** 2] is [x * x]; BSON's whitespace-skipping [bytes.fromhex] and
    the comparison of arrays are not modelled. *)

From Stdlib Require Import List String ZArith Lia Permutation Sorted.
Import ListNotations.

Declare Scope py_scope.
Delimit Scope py_scope with py.

(** ** The exception monad

    Python code that may raise is modelled as a function returning
    [exn E A]: [Ok a] for a normal return, [Raise e] for an exception. *)

Inductive exn (E A : Type) : Type :=
| Ok : A -> exn E A
| Raise : E -> exn E A.
Arguments Ok {E A} _.
Arguments Raise {E A} _.

Definition exn_bind {E A B} (m : exn E A) (k : A -> exn E B) : exn E B :=
  match m with
  | Ok a => k a
  | Raise e => Raise e
  end.

Definition exn_map {E A B} (f : A -> B) (m : exn E A) : exn E B :=
  exn_bind m (fun a => Ok (f a)).

Notation "'let*' x ':=' c 'in' k" := (exn_bind c (fun x => k))
  (at level 10, x name, c at level 100, k at level 200) : py_scope.

Create HintDb py.
Create Rewrite HintDb pyrw.

Lemma exn_bind_ok {E A B} (a : A) (k : A -> exn E B) :
  exn_bind (Ok a) k = k a.
Proof. reflexivity. Qed.

Lemma exn_bind_raise {E A B} (e : E) (k : A -> exn E B) :
  exn_bind (Raise e) k = Raise e.
Proof. reflexivity. Qed.

Lemma exn_bind_assoc {E A B C} (m : exn E A) (k : A -> exn E B) (h : B -> exn E C) :
  exn_bind (exn_bind m k) h = exn_bind m (fun a => exn_bind (k a) h).
Proof. destruct m; reflexivity. Qed.

Lemma exn_bind_ok_inv {E A B} (m : exn E A) (k : A -> exn E B) (b : B) :
  exn_bind m k = Ok b -> exists a, m = Ok a /\ k a = Ok b.
Proof. destruct m; simpl; [eauto | discriminate]. Qed.

#[export] Hint Rewrite @exn_bind_ok @exn_bind_raise @exn_bind_assoc : pyrw.

(** ** Generic list lemmas *)

Lemma Forall2_in_r {A B} (R : A -> B -> Prop) l r y :
  Forall2 R l r -> In y r -> exists x, In x l /\ R x y.
Proof.
  induction 1 as [|x y' l r Hxy _ IH]; simpl; [tauto|].
  intros [<-|Hy]; [eauto|]. destruct (IH Hy) as (x' & ? & ?). eauto.
Qed.

Lemma Forall2_in_l {A B} (R : A -> B -> Prop) l r x :
  Forall2 R l r -> In x l -> exists y, In y r /\ R x y.
Proof.
  induction 1 as [|x' y l r Hxy _ IH]; simpl; [tauto|].
  intros [<-|Hx]; [eauto|]. destruct (IH Hx) as (y' & ? & ?). eauto.
Qed.

(** ** Tactics *)

Ltac inv H := inversion H; subst; clear H.

(** Split every [exn_bind] whose scrutinee is a hypothesis-free match. *)
Ltac exn_split :=
  repeat match goal with
  | H : exn_bind ?m _ = Ok _ |- _ =>
      let a := fresh "a" in let Ha := fresh "Ha" in let Hk := fresh "Hk" in
      apply exn_bind_ok_inv in H; destruct H as (a & Ha & Hk)
  end.
