(* ===== verification/PyStr.v ===== *)
(** * The Python string methods the core calls

    Strings are [String.string] (ASCII characters).  The definitions follow
    CPython's [str] methods on ASCII text:
    - [str_replace old new s] is [s.replace(old, new)]: occurrences are
      found left to right and do not overlap; an empty [old] inserts [new]
      around every character;
    - [str_strip] is [s.strip()]: the whitespace removed is the ASCII
      characters [str.isspace] accepts (9-13, 28-31 and 32);
    - [str_lower] is [s.lower()] (only A-Z change in ASCII);
    - [str_endswith] is [s.endswith(suffix)];
    - [str_contains] is [needle in hay].

    The lemmas show that removing a fence with [replace] leaves no fence,
    and that [strip] yields a string with no surrounding whitespace that is
    a factor of its input. *)

From Stdlib Require Import String Ascii List Bool Lia Arith.
From S2P Require Import Prelude.
Local Open Scope string_scope.

Definition is_space (c : ascii) : bool :=
  let n := nat_of_ascii c in
  (Nat.leb 9 n && Nat.leb n 13) || (Nat.leb 28 n && Nat.leb n 32).

(** [needle in hay] *)
Fixpoint str_contains (needle hay : string) : bool :=
  match hay with
  | EmptyString => String.prefix needle hay
  | String _ rest => String.prefix needle hay || str_contains needle rest
  end.

(** [s.replace(old, new)] for a non-empty [old], with [fuel] steps. *)
Fixpoint replace_fuel (fuel : nat) (old new s : string) : string :=
  match fuel with
  | O => s
  | S fuel' =>
      match s with
      | EmptyString => EmptyString
      | String c rest =>
          if String.prefix old s
          then new ++ replace_fuel fuel' old new (substring (String.length old) (String.length s) s)
          else String c (replace_fuel fuel' old new rest)
      end
  end.

(** [s.replace("", new)] *)
Fixpoint replace_empty (new s : string) : string :=
  match s with
  | EmptyString => new
  | String c rest => new ++ String c (replace_empty new rest)
  end.

Definition str_replace (old new s : string) : string :=
  match old with
  | EmptyString => replace_empty new s
  | _ => replace_fuel (String.length s) old new s
  end.

Fixpoint str_lstrip (s : string) : string :=
  match s with
  | EmptyString => EmptyString
  | String c rest => if is_space c then str_lstrip rest else s
  end.

Fixpoint str_rstrip (s : string) : string :=
  match s with
  | EmptyString => EmptyString
  | String c rest =>
      let r := str_rstrip rest in
      match r with
      | EmptyString => if is_space c then EmptyString else String c EmptyString
      | _ => String c r
      end
  end.

Definition str_strip (s : string) : string := str_rstrip (str_lstrip s).

Definition lower_char (c : ascii) : ascii :=
  let n := nat_of_ascii c in
  if Nat.leb 65 n && Nat.leb n 90 then ascii_of_nat (n + 32) else c.

Fixpoint str_lower (s : string) : string :=
  match s with
  | EmptyString => EmptyString
  | String c rest => String (lower_char c) (str_lower rest)
  end.

(** [s.endswith(suffix)] *)
Definition str_endswith (s suffix : string) : bool :=
  Nat.leb (String.length suffix) (String.length s) &&
  String.eqb (substring (String.length s - String.length suffix) (String.length suffix) s) suffix.

(** Whether [s] starts or ends with whitespace. *)
Definition starts_with_space (s : string) : bool :=
  match s with
  | String c _ => is_space c
  | EmptyString => false
  end.

Fixpoint last_char (s : string) : option ascii :=
  match s with
  | EmptyString => None
  | String c EmptyString => Some c
  | String _ rest => last_char rest
  end.

Definition ends_with_space (s : string) : bool :=
  match last_char s with Some c => is_space c | None => false end.

(** The markdown fence. *)
Definition fence : string := "```".

(** ** Lemmas *)

Lemma string_app_assoc (a b c : string) : a ++ (b ++ c) = (a ++ b) ++ c.
Proof. induction a as [|x a IH]; simpl; congruence. Qed.

Lemma prefix_app_iff (p s : string) :
  String.prefix p s = true <-> exists b, s = p ++ b.
Proof.
  revert p. induction s as [|d s IH]; intros [|c p]; simpl.
  - split; [intros _; exists EmptyString; reflexivity | reflexivity].
  - split; [discriminate | intros [b Hb]; discriminate Hb].
  - split; [intros _; exists (String d s); reflexivity | reflexivity].
  - destruct (ascii_dec c d) as [->|Hne].
    + rewrite IH. split; intros [b Hb]; exists b; congruence.
    + split; [discriminate | intros [b Hb]; inversion Hb; congruence].
Qed.

Lemma contains_iff (p s : string) :
  str_contains p s = true <-> exists a b, s = a ++ p ++ b.
Proof.
  induction s as [|c s IH]; cbn [str_contains].
  - rewrite prefix_app_iff. split.
    + intros [b Hb]. exists EmptyString, b. exact Hb.
    + intros [a [b Hab]]. destruct a; [exists b; exact Hab | discriminate Hab].
  - rewrite orb_true_iff, prefix_app_iff, IH. split.
    + intros [[b Hb] | [a [b Hab]]].
      * exists EmptyString, b. exact Hb.
      * exists (String c a), b. rewrite Hab. reflexivity.
    + intros [[|c' a] [b Hab]]; [left; exists b; exact Hab|].
      right. inversion Hab; subst. eauto.
Qed.

(** A factor of a string without [p] has no [p]. *)
Lemma contains_factor (p x a b : string) :
  str_contains p (a ++ x ++ b) = false -> str_contains p x = false.
Proof.
  intros H. destruct (str_contains p x) eqn:E; [|reflexivity].
  apply contains_iff in E as (a' & b' & ->).
  rewrite <- H. symmetry. apply contains_iff.
  exists (a ++ a'), (b' ++ b). rewrite !string_app_assoc. reflexivity.
Qed.

Lemma lstrip_suffix (s : string) : exists a, s = a ++ str_lstrip s.
Proof.
  induction s as [|c s [a Ha]]; simpl; [exists EmptyString; reflexivity|].
  destruct (is_space c); [exists (String c a); simpl; congruence | exists EmptyString; reflexivity].
Qed.

Lemma rstrip_prefix (s : string) : exists b, s = str_rstrip s ++ b.
Proof.
  induction s as [|c s [b Hb]]; simpl; [exists EmptyString; reflexivity|].
  destruct (str_rstrip s) eqn:E.
  - destruct (is_space c); [exists (String c s) | exists s]; reflexivity.
  - exists b. simpl in *. rewrite Hb at 1. reflexivity.
Qed.

Lemma strip_factor (s : string) : exists a b, s = a ++ str_strip s ++ b.
Proof.
  destruct (lstrip_suffix s) as [a Ha]. destruct (rstrip_prefix (str_lstrip s)) as [b Hb].
  exists a, b. unfold str_strip. rewrite <- Hb. exact Ha.
Qed.

Lemma contains_strip (p s : string) :
  str_contains p s = false -> str_contains p (str_strip s) = false.
Proof.
  intros H. destruct (strip_factor s) as (a & b & E). rewrite E in H.
  exact (contains_factor p _ a b H).
Qed.

(** *** Removing a fence with [replace] *)

Lemma prefix_app_l (p q s : string) :
  String.prefix (p ++ q) s = true -> String.prefix p s = true.
Proof.
  rewrite !prefix_app_iff. intros [b ->]. exists (q ++ b).
  symmetry. apply string_app_assoc.
Qed.

Lemma substring_0_long (m : nat) (b : string) :
  String.length b <= m -> substring 0 m b = b.
Proof.
  revert m. induction b as [|c b IH]; intros [|m] Hm; simpl in *;
    [reflexivity | reflexivity | lia | f_equal; apply IH; lia].
Qed.

Lemma substring_drop (p b : string) :
  substring (String.length p) (String.length (p ++ b)) (p ++ b) = b.
Proof.
  assert (G : forall m, String.length b <= m ->
            substring (String.length p) m (p ++ b) = b).
  { induction p as [|c p IH]; intros m Hm; simpl.
    - now apply substring_0_long.
    - destruct m; [simpl in Hm |]; apply IH; lia. }
  apply G. clear G. induction p; simpl; lia.
Qed.

Lemma prefix_cons (c d : ascii) (p s : string) :
  String.prefix (String c p) (String d s) = if ascii_dec c d then String.prefix p s else false.
Proof. reflexivity. Qed.

Lemma prefix_nil (s : string) : String.prefix EmptyString s = true.
Proof. destruct s; reflexivity. Qed.

Lemma replace_fuel_empty n old new : replace_fuel n old new EmptyString = EmptyString.
Proof. destruct n; reflexivity. Qed.

(** After removing fences, a string that did not start with a backtick
    still does not. *)
Lemma replace_fence_head1 n s :
  String.prefix "`" s = false -> String.prefix "`" (replace_fuel n fence "" s) = false.
Proof.
  destruct n as [|n]; [tauto|]. destruct s as [|c t]; [reflexivity|].
  intros H. cbn [replace_fuel].
  destruct (String.prefix fence (String c t)) eqn:P.
  - apply (prefix_app_l "`" "``") in P. congruence.
  - rewrite prefix_cons in H |- *. destruct (ascii_dec "`" c); [|reflexivity].
    rewrite prefix_nil in H. discriminate H.
Qed.

Lemma replace_fence_head2 n s :
  String.length s <= n -> String.prefix "``" s = false ->
  String.prefix "``" (replace_fuel n fence "" s) = false.
Proof.
  destruct n as [|n]; [intros Hl; destruct s; simpl in Hl; [reflexivity | lia]|].
  destruct s as [|c t]; [reflexivity|]. intros _ H. cbn [replace_fuel].
  destruct (String.prefix fence (String c t)) eqn:P.
  - apply (prefix_app_l "``" "`") in P. congruence.
  - rewrite prefix_cons in H |- *. destruct (ascii_dec "`" c); [|reflexivity].
    apply replace_fence_head1. exact H.
Qed.

(** [s.replace("```", "")] contains no ["```"]. *)
Lemma replace_fence_nofence n s :
  String.length s <= n -> str_contains fence (replace_fuel n fence "" s) = false.
Proof.
  revert s. induction n as [|n IH]; intros s Hl.
  - destruct s; simpl in Hl; [reflexivity | lia].
  - destruct s as [|c t]; [reflexivity|]. cbn [replace_fuel].
    destruct (String.prefix fence (String c t)) eqn:P.
    + apply prefix_app_iff in P as [b Hb]. rewrite Hb.
      replace (substring (String.length fence) (String.length (fence ++ b)) (fence ++ b))
        with b by (symmetry; apply substring_drop).
      apply IH. rewrite Hb in Hl. simpl in Hl.
      enough (String.length b + 3 <= S n) by lia.
      replace (String.length b + 3) with (String.length ("```" ++ b)) by (simpl; lia).
      exact Hl.
    + cbn [str_contains]. rewrite IH by (simpl in Hl; lia).
      rewrite orb_false_r. unfold fence in P |- *. rewrite prefix_cons in P |- *.
      destruct (ascii_dec "`" c); [|reflexivity].
      apply replace_fence_head2; [simpl in Hl; lia | exact P].
Qed.

Lemma str_replace_fence_nofence s : str_contains fence (str_replace fence "" s) = false.
Proof. apply replace_fence_nofence. lia. Qed.

(** A string without [old] is left unchanged by [replace]. *)
Lemma replace_fuel_absent n old new s :
  str_contains old s = false -> replace_fuel n old new s = s.
Proof.
  revert s. induction n as [|n IH]; intros s H; [reflexivity|].
  destruct s as [|c t]; [reflexivity|]. cbn [str_contains] in H.
  apply orb_false_iff in H as [Hp Ht]. cbn [replace_fuel]. rewrite Hp, IH; auto.
Qed.

Lemma str_replace_absent old new s :
  old <> EmptyString -> str_contains old s = false -> str_replace old new s = s.
Proof. destruct old; [congruence|]. intros _. apply replace_fuel_absent. Qed.

(** *** [strip] *)

Lemma lstrip_head s : starts_with_space (str_lstrip s) = false.
Proof.
  induction s as [|c s IH]; simpl; [reflexivity|].
  destruct (is_space c) eqn:E; [exact IH | simpl; exact E].
Qed.

Lemma rstrip_head s : starts_with_space s = false -> starts_with_space (str_rstrip s) = false.
Proof.
  destruct s as [|c s]; simpl; [reflexivity|]. intros H.
  destruct (str_rstrip s); [|exact H]. destruct (is_space c) eqn:E; [reflexivity | exact E].
Qed.

Lemma last_char_cons c s : s <> EmptyString -> last_char (String c s) = last_char s.
Proof. destruct s; [congruence | reflexivity]. Qed.

Lemma rstrip_last s : ends_with_space (str_rstrip s) = false.
Proof.
  induction s as [|c s IH]; [reflexivity|]. cbn [str_rstrip].
  destruct (str_rstrip s) as [|d r] eqn:E.
  - destruct (is_space c) eqn:Es; [reflexivity|]. unfold ends_with_space. simpl. exact Es.
  - unfold ends_with_space in *. rewrite last_char_cons by discriminate. exact IH.
Qed.

Lemma lstrip_id s : starts_with_space s = false -> str_lstrip s = s.
Proof. destruct s as [|c s]; simpl; [reflexivity|]. intros H. now rewrite H. Qed.

Lemma rstrip_id s : ends_with_space s = false -> str_rstrip s = s.
Proof.
  induction s as [|c s IH]; intros H; [reflexivity|]. cbn [str_rstrip].
  destruct s as [|d r].
  - unfold ends_with_space in H. simpl in *. now rewrite H.
  - unfold ends_with_space in H. rewrite last_char_cons in H by discriminate.
    rewrite IH by exact H. reflexivity.
Qed.

Lemma strip_head s : starts_with_space (str_strip s) = false.
Proof. apply rstrip_head, lstrip_head. Qed.

Lemma strip_last s : ends_with_space (str_strip s) = false.
Proof. apply rstrip_last. Qed.

Lemma strip_idem s : str_strip (str_strip s) = str_strip s.
Proof.
  unfold str_strip at 1. rewrite lstrip_id by apply strip_head.
  apply rstrip_id, strip_last.
Qed.

(** A string containing ["```json"] contains ["```"]. *)
Lemma contains_fence_json s :
  str_contains "```json" s = true -> str_contains fence s = true.
Proof.
  rewrite !contains_iff. intros (a & b & ->). exists a, ("json" ++ b).
  reflexivity.
Qed.

#[export] Hint Resolve str_replace_fence_nofence strip_head strip_last strip_idem : py.
