(* ===== verification/PyFloat.v ===== *)
(** * Python float arithmetic, as an interface with two instances

    [DrawnSteelCalculator] computes with Python floats: [+], [-], [*], [/],
    [x ** 2], [math.pi], decimal literals, conversion of an [int] operand to
    [float], truthiness and [round(x, 3)].  The class [PyFloat] collects
    these operations; the calculator is written once against it.

    - [binary64] ([PrimFloat.float]) is what CPython computes: every
      operation is the IEEE-754 double operation, literals and [float(n)]
      are rounded to nearest-even, [x ** 2] raises [OverflowError] when the
      square of a finite number overflows (CPython's [float_pow] checks
      [errno == ERANGE]), and [round(x, 3)] rounds the exact binary value of
      [x] half-to-even at the third decimal and returns the double nearest
      to the decimal result (CPython's [double_round]: [_Py_dg_dtoa] mode 3
      then [_Py_dg_strtod]).  [x ** 2] is taken as the correctly rounded
      square [x * x].
    - [exact] ([Q]) is the same program in exact rational arithmetic, with
      [math.pi] the exact value of the double CPython uses; it is the
      mathematical formula the specification describes. *)

From Stdlib Require Import ZArith QArith Qround Qabs Lqa Lia.
From Stdlib Require Import PrimFloat FloatOps SpecFloat.
From S2P Require Import Prelude.

#[local] Set Warnings "-inexact-float".

Class PyFloat (F : Type) := {
  f_add : F -> F -> F;
  f_sub : F -> F -> F;
  f_mul : F -> F -> F;
  f_div : F -> F -> F;
  (** [float(n)] for an [int] operand; [None] is [OverflowError]. *)
  f_of_int : Z -> option F;
  (** the decimal literal [n / d] as the parser reads it *)
  f_lit : Z -> positive -> F;
  f_pi : F;
  (** [x ** 2]; [None] is [OverflowError] *)
  f_pow2 : F -> option F;
  (** [round(x, 3)] *)
  f_round3 : F -> F;
  (** [bool(x)] *)
  f_truthy : F -> bool
}.

(** ** Rounding an exact quotient half to even

    [Z_round_half_even a b] is the integer nearest to [a / b], ties to even.
    Both instances use it for [round(x, 3)]. *)

Definition Z_round_half_even (a : Z) (b : positive) : Z :=
  let q := (a / Zpos b)%Z in
  let r := (a mod Zpos b)%Z in
  match Z.compare (2 * r) (Zpos b) with
  | Lt => q
  | Gt => q + 1
  | Eq => if Z.even q then q else q + 1
  end%Z.

(** ** IEEE-754 binary64 *)

Module Binary64.
Local Open Scope float_scope.

(** [float(n)]: round-to-nearest-even conversion, [OverflowError] when the
    result is infinite (CPython's [PyLong_AsDouble]). *)
Definition of_int (z : Z) : option float :=
  match binary_normalize prec emax z 0 false with
  | S754_infinity _ => None
  | s => Some (SF2Prim s)
  end.

(** The double nearest to [k / d] (ties to even), with the sign [neg]
    when [k = 0].  A sticky bit below the 2^-s position keeps the single
    rounding of [binary_normalize] correct: [s] leaves at least 59
    significant bits in the quotient. *)
Definition quot_nearest (neg : bool) (k : Z) (d : positive) : float :=
  let s := (60 + Z.log2 (Zpos d))%Z in
  let num := Z.shiftl (Z.abs k) s in
  let q := (num / Zpos d)%Z in
  let sticky := if (num mod Zpos d =? 0)%Z then 0%Z else 1%Z in
  let m := (2 * q + sticky)%Z in
  SF2Prim (binary_normalize prec emax (if (k <? 0)%Z then (- m)%Z else m)
             (- s - 1) neg).

(** [round(x, 3)] for a double [x]: NaN and infinities round to
    themselves; otherwise the exact value [(-1)^s * m * 2^e] times 1000
    is rounded half to even and the quotient by 1000 is read back. *)
Definition round3 (x : float) : float :=
  match Prim2SF x with
  | S754_finite s m e =>
      let a := ((if s then Z.neg m else Z.pos m) * 1000)%Z in
      let k := match e with
               | Z0 => a
               | Zpos p => a * Z.pow 2 (Zpos p)
               | Zneg p => Z_round_half_even a (Pos.pow 2 p)
               end%Z in
      quot_nearest s k 1000
  | _ => x
  end.

Definition pow2 (x : float) : option float :=
  let y := x * x in
  if is_infinity y && is_finite x then None else Some y.

Definition truthy (x : float) : bool := negb (x =? 0).

Definition lit (n : Z) (d : positive) : float := quot_nearest false n d.

Definition pi : float := 3.141592653589793.
End Binary64.

#[export] Instance binary64 : PyFloat float := {
  f_add := PrimFloat.add;
  f_sub := PrimFloat.sub;
  f_mul := PrimFloat.mul;
  f_div := PrimFloat.div;
  f_of_int := Binary64.of_int;
  f_lit := Binary64.lit;
  f_pi := Binary64.pi;
  f_pow2 := Binary64.pow2;
  f_round3 := Binary64.round3;
  f_truthy := Binary64.truthy
}.

(** ** Exact rational arithmetic *)

Module Exact.
Local Open Scope Q_scope.

(** [math.pi] is the double 0x1.921fb54442d18p+1; this is its exact value. *)
Definition pi : Q := 884279719003555 # 281474976710656.

Definition round3 (x : Q) : Q :=
  Z_round_half_even (Qnum x * 1000) (Qden x) # 1000.

Definition truthy (x : Q) : bool := negb (Qeq_bool x 0).
End Exact.

#[export] Instance exact : PyFloat Q := {
  f_add := Qplus;
  f_sub := Qminus;
  f_mul := Qmult;
  f_div := Qdiv;
  f_of_int z := Some (inject_Z z);
  f_lit n d := n # d;
  f_pi := Exact.pi;
  f_pow2 x := Some (x * x)%Q;
  f_round3 := Exact.round3;
  f_truthy := Exact.truthy
}.

(** ** Facts about the exact instance

    [round(x, 3)] in exact arithmetic depends only on the rational value of
    [x] (not on its representation), is monotone, and moves [x] by at most
    half a unit in the third decimal. *)

Lemma Z_round_half_even_scale a b c :
  Z_round_half_even (a * Zpos c) (b * c) = Z_round_half_even a b.
Proof.
  unfold Z_round_half_even. rewrite Pos2Z.inj_mul.
  rewrite Z.div_mul_cancel_r by lia.
  rewrite Z.mul_mod_distr_r by lia.
  replace (2 * ((a mod Zpos b) * Zpos c))%Z with ((2 * (a mod Zpos b)) * Zpos c)%Z by ring.
  rewrite <- Zmult_compare_compat_r by lia. reflexivity.
Qed.

(** The result is within half a unit of the quotient. *)
Lemma Z_round_half_even_bounds a b :
  (2 * Z.abs (Z_round_half_even a b * Zpos b - a) <= Zpos b)%Z.
Proof.
  unfold Z_round_half_even.
  pose proof (Z.div_mod a (Zpos b) ltac:(lia)) as Hdm.
  pose proof (Z.mod_pos_bound a (Zpos b) ltac:(lia)) as Hr.
  set (q := (a / Zpos b)%Z) in *. set (r := (a mod Zpos b)%Z) in *.
  destruct (Z.compare_spec (2 * r) (Zpos b)); [destruct (Z.even q)|..]; nia.
Qed.

Lemma Z_round_half_even_value a b c d :
  (a * Zpos d = c * Zpos b)%Z -> Z_round_half_even a b = Z_round_half_even c d.
Proof.
  intros E.
  rewrite <- (Z_round_half_even_scale a b d), <- (Z_round_half_even_scale c d b).
  rewrite E, Pos.mul_comm. reflexivity.
Qed.

Lemma Z_round_half_even_mono a b c d :
  (a * Zpos d <= c * Zpos b)%Z -> (Z_round_half_even a b <= Z_round_half_even c d)%Z.
Proof.
  intros Hle.
  pose proof (Z_round_half_even_bounds a b) as Ha.
  pose proof (Z_round_half_even_bounds c d) as Hc.
  set (k := Z_round_half_even a b) in *. set (m := Z_round_half_even c d) in *.
  destruct (Z.le_gt_cases k m) as [|Hgt]; [assumption|].
  assert (Hb : (2 * a >= (2 * k - 1) * Zpos b)%Z) by lia.
  assert (Hd : (2 * c <= (2 * m + 1) * Zpos d)%Z) by lia.
  assert (H1 : (2 * a * Zpos d >= (2 * k - 1) * Zpos b * Zpos d)%Z) by nia.
  assert (H2 : (2 * c * Zpos b <= (2 * m + 1) * Zpos d * Zpos b)%Z) by nia.
  assert (H3 : ((2 * m + 1) * (Zpos b * Zpos d) <= (2 * k - 1) * (Zpos b * Zpos d))%Z) by nia.
  assert (E : (a * Zpos d = c * Zpos b)%Z) by nia.
  apply (Z_round_half_even_value a b c d) in E. lia.
Qed.

Section ExactFacts.
Local Open Scope Q_scope.

Lemma round3_Qeq x y : x == y -> Exact.round3 x = Exact.round3 y.
Proof.
  unfold Qeq, Exact.round3. intros E. f_equal.
  apply Z_round_half_even_value. nia.
Qed.

Lemma round3_mono x y : x <= y -> Exact.round3 x <= Exact.round3 y.
Proof.
  unfold Qle, Exact.round3. simpl. intros E.
  apply Zmult_le_compat_r; [|lia].
  apply Z_round_half_even_mono. nia.
Qed.

End ExactFacts.
