(* ===== verification/PyValue.v ===== *)
(** * Python values the core manipulates

    [json.loads] returns [None], [bool], [int] (arbitrary precision),
    [float], [str], [list] and [dict]; [json F] has one constructor per
    kind, objects as the list of their (key, value) pairs in text order.
    A key that appears twice keeps its last value, as [dict] built by
    [json.loads] does ([dict_lookup]).

    Arithmetic follows CPython's numeric tower for [int] and [float]:
    [int op int] is exact, a mixed operation converts the [int] operand to
    [float] (raising [OverflowError] when it is too large) and applies the
    float operation.  An operand that is not a number raises [TypeError].
    (CPython's [str * int] and [list * int] repeat a sequence; in the
    calculator every such product is then added to or subtracted from a
    number, which raises [TypeError], so the first error is the only one
    that differs, and the model reports [TypeError] at the product.) *)

From Stdlib Require Import List String ZArith Bool.
From S2P Require Import Prelude PyFloat.
Import ListNotations.
Local Open Scope py_scope.

(** The exceptions the core can raise. *)
Inductive PyExc : Type :=
| KeyError (key : string)
| TypeError
| AttributeError
| OverflowError.

Abbreviation pyres := (exn PyExc).

#[local] Set Warnings "-register-all".

Inductive json (F : Type) : Type :=
| JNull
| JBool (b : bool)
| JInt (z : Z)
| JFloat (x : F)
| JStr (s : string)
| JList (l : list (json F))
| JObj (kvs : list (string * json F)).
Arguments JNull {F}.
Arguments JBool {F} b.
Arguments JInt {F} z.
Arguments JFloat {F} x.
Arguments JStr {F} s.
Arguments JList {F} l.
Arguments JObj {F} kvs.

(** A Python number: [int] or [float]. *)
Inductive PyNum (F : Type) : Type :=
| PInt (z : Z)
| PFloat (x : F).
Arguments PInt {F} z.
Arguments PFloat {F} x.

Section Values.
Context {F : Type} `{PyFloat F}.

(** [bool(v)] *)
Definition truthy (v : json F) : bool :=
  match v with
  | JNull => false
  | JBool b => b
  | JInt z => negb (z =? 0)%Z
  | JFloat x => f_truthy x
  | JStr s => negb (String.eqb s EmptyString)
  | JList l => negb (List.length l =? 0)%nat
  | JObj kvs => negb (List.length kvs =? 0)%nat
  end.

(** [a or b] *)
Definition py_or (a b : json F) : json F := if truthy a then a else b.

(** [v == s] for a string literal [s] *)
Definition eq_str (v : json F) (s : string) : bool :=
  match v with
  | JStr s' => String.eqb s' s
  | _ => false
  end.

Definition is_none (v : json F) : bool :=
  match v with JNull => true | _ => false end.

(** The value of [key] in a dict built from [kvs]: the last binding. *)
Fixpoint dict_lookup (key : string) (kvs : list (string * json F)) : option (json F) :=
  match kvs with
  | [] => None
  | (k, v) :: rest =>
      match dict_lookup key rest with
      | Some w => Some w
      | None => if String.eqb k key then Some v else None
      end
  end.

(** [d.get(key, default)]: only dicts have [get]. *)
Definition dict_get (d : json F) (key : string) (default : json F) : pyres (json F) :=
  match d with
  | JObj kvs => Ok (match dict_lookup key kvs with Some v => v | None => default end)
  | _ => Raise AttributeError
  end.

(** [d[key]] *)
Definition dict_index (d : json F) (key : string) : pyres (json F) :=
  match d with
  | JObj kvs => match dict_lookup key kvs with
                | Some v => Ok v
                | None => Raise (KeyError key)
                end
  | _ => Raise TypeError
  end.

(** A JSON value used as an arithmetic operand ([bool] is an [int]). *)
Definition to_num (v : json F) : pyres (PyNum F) :=
  match v with
  | JBool b => Ok (PInt (if b then 1 else 0)%Z)
  | JInt z => Ok (PInt z)
  | JFloat x => Ok (PFloat x)
  | _ => Raise TypeError
  end.

(** [float(n)] applied to an operand of a mixed operation *)
Definition as_float (n : PyNum F) : pyres F :=
  match n with
  | PInt z => match f_of_int z with
              | Some x => Ok x
              | None => Raise OverflowError
              end
  | PFloat x => Ok x
  end.

Definition num_binop (zop : Z -> Z -> Z) (fop : F -> F -> F) (a b : PyNum F)
  : pyres (PyNum F) :=
  match a, b with
  | PInt x, PInt y => Ok (PInt (zop x y))
  | _, _ => let* x := as_float a in let* y := as_float b in Ok (PFloat (fop x y))
  end.

Definition py_add := num_binop Z.add f_add.
Definition py_sub := num_binop Z.sub f_sub.
Definition py_mul := num_binop Z.mul f_mul.

(** [a / d] for a float literal [d] (the only divisions of the code) *)
Definition py_div_float (a : PyNum F) (d : F) : pyres (PyNum F) :=
  let* x := as_float a in Ok (PFloat (f_div x d)).

(** [a ** 2] *)
Definition py_pow2 (a : PyNum F) : pyres (PyNum F) :=
  match a with
  | PInt z => Ok (PInt (z * z)%Z)
  | PFloat x => match f_pow2 x with
                | Some y => Ok (PFloat y)
                | None => Raise OverflowError
                end
  end.

(** [round(a, 3)]: an [int] is returned unchanged. *)
Definition py_round3 (a : PyNum F) : PyNum F :=
  match a with
  | PInt z => PInt z
  | PFloat x => PFloat (f_round3 x)
  end.

(** *** Lemmas *)

Lemma num_binop_float zop fop (x y : F) :
  num_binop zop fop (PFloat x) (PFloat y) = Ok (PFloat (fop x y)).
Proof. reflexivity. Qed.

Lemma dict_get_obj kvs key default :
  dict_get (JObj kvs) key default =
  Ok (match dict_lookup key kvs with Some v => v | None => default end).
Proof. reflexivity. Qed.

Lemma dict_lookup_app key l1 l2 :
  dict_lookup key (l1 ++ l2) =
  match dict_lookup key l2 with Some w => Some w | None => dict_lookup key l1 end.
Proof.
  induction l1 as [|[k v] l1 IH]; simpl.
  - destruct (dict_lookup key l2); reflexivity.
  - rewrite IH. destruct (dict_lookup key l2); reflexivity.
Qed.

(** Appending a binding overrides the key. *)
Lemma dict_lookup_snoc_eq key v kvs :
  dict_lookup key (kvs ++ [(key, v)]) = Some v.
Proof. rewrite dict_lookup_app. simpl. rewrite String.eqb_refl. reflexivity. Qed.

Lemma dict_lookup_snoc_ne key k v kvs :
  k <> key -> dict_lookup key (kvs ++ [(k, v)]) = dict_lookup key kvs.
Proof.
  intros Hne. rewrite dict_lookup_app. simpl.
  apply String.eqb_neq in Hne. rewrite Hne. reflexivity.
Qed.

Lemma dict_lookup_not_in key kvs :
  ~ In key (map fst kvs) -> dict_lookup key kvs = None.
Proof.
  induction kvs as [|[k v] kvs IH]; simpl; intros Hn; [reflexivity|].
  rewrite IH by tauto. destruct (String.eqb_spec k key); [tauto | reflexivity].
Qed.
End Values.

#[export] Hint Rewrite @num_binop_float @dict_get_obj @dict_lookup_snoc_eq : pyrw.
