(* ===== verification/Calculator.v ===== *)
(** * [DrawnSteelCalculator] (src/backend/core/analysis.py, lines 9-61)

    The calculator is written once over the float interface [PyFloat]
    (Section [Calc]).  [calculate_from_dimensions] takes the dictionary the
    extractor returned ([json F]) and follows the source statement by
    statement, with the same evaluation order, so that its exceptions are
    the ones CPython raises first.

    Theorems:
    - the specification's formula ([spec_weight], section 4.1 of the
      specification) is refined by the code on every dictionary that
      encodes a dimension set ([calculate_refines_spec]);
    - the two scenarios of the specification evaluate, in binary64, to
      the weights the specification gives;
    - in exact arithmetic the weight is monotone in [draw_depth] and a flat
      blank has the closed-form weight;
    - the error paths: missing keys, non-dict input, and an unknown
      [shape_type] that the code silently treats as rectangular. *)

From Stdlib Require Import List String ZArith QArith Qround Qabs Lqa Bool.
From Stdlib Require Import PrimFloat.
From S2P Require Import Prelude PyFloat PyValue.
Import ListNotations.
Local Open Scope py_scope.
Local Open Scope string_scope.

#[local] Set Warnings "-inexact-float".

Module Calculator.
Section Calc.
Context {F : Type} `{PyFloat F}.

(** [__init__]: the two constants of the instance. *)
Record DrawnSteelCalculator := {
  DENSITY_G_CM3 : F;
  EFFECTIVE_THICKNESS_MM : F
}.

Definition init : DrawnSteelCalculator := {|
  DENSITY_G_CM3 := f_lit 785 100;
  EFFECTIVE_THICKNESS_MM := f_lit 150 100
|}.

Definition calculate_weight (self : DrawnSteelCalculator) (surface_area_mm2 : PyNum F)
  : pyres (PyNum F) :=
  let* volume_mm3 := py_mul surface_area_mm2 (PFloat (EFFECTIVE_THICKNESS_MM self)) in
  let* volume_cm3 := py_div_float volume_mm3 (f_lit 1000 1) in
  let* weight_grams := py_mul volume_cm3 (PFloat (DENSITY_G_CM3 self)) in
  let* weight_kg := py_div_float weight_grams (f_lit 1000 1) in
  Ok (py_round3 weight_kg).

(** [a * b] and [a + b] on two values read from the dictionary *)
Definition json_mul (a b : json F) : pyres (PyNum F) :=
  let* x := to_num a in let* y := to_num b in py_mul x y.

Definition json_add (a b : json F) : pyres (PyNum F) :=
  let* x := to_num a in let* y := to_num b in py_add x y.

(** [dims.get(key) or 0.0] *)
Definition get_or_zero (dims : json F) (key : string) : pyres (json F) :=
  let* v := dict_get dims key JNull in Ok (py_or v (JFloat (f_lit 0 1))).

Definition calculate_from_dimensions (self : DrawnSteelCalculator) (dims : json F)
  : pyres (PyNum F) :=
  let* shape_type := dict_get dims "shape_type" (JStr "rectangular") in
  (* 1. Gross Area *)
  let* ow := dict_index dims "outer_width" in
  let* oh := dict_index dims "outer_height" in
  let* gross_area := json_mul ow oh in
  (* 2. Cutout *)
  let* cutout_area :=
    if eq_str shape_type "round" then
      let* c := dict_get dims "cutout_diameter" JNull in
      let c_dia := if is_none c then JFloat (f_lit 0 1) else c in
      let* c_num := to_num c_dia in
      let* radius := py_div_float c_num (f_lit 2 1) in
      let* r2 := py_pow2 radius in
      py_mul (PFloat f_pi) r2
    else
      let* dw := get_or_zero dims "draw_width" in
      let* dh := get_or_zero dims "draw_height" in
      json_mul dw dh in
  (* 3. Walls *)
  let* wall_area :=
    if eq_str shape_type "round" then
      let* dd := dict_index dims "draw_diameter" in
      let* circ := (let* d := to_num dd in py_mul (PFloat f_pi) d) in
      let* depth := dict_index dims "draw_depth" in
      let* dn := to_num depth in
      py_mul circ dn
    else
      let* dw := get_or_zero dims "draw_width" in
      let* dh := get_or_zero dims "draw_height" in
      let* s := json_add dw dh in
      let* perimeter := py_mul (PInt 2%Z) s in
      let* depth := dict_index dims "draw_depth" in
      let* dn := to_num depth in
      py_mul perimeter dn in
  (* 4. Overhead and net area *)
  let overhead := f_lit 350 1 in
  let* n1 := py_sub gross_area cutout_area in
  let* n2 := py_add n1 wall_area in
  let* net_area := py_sub n2 (PFloat overhead) in
  calculate_weight self net_area.

(** ** The specification's formula (section 4.1)

    [DimensionSet] is the normalized record of the specification; the
    optional fields are [None] when the model answered [null]. *)

Inductive Shape := Rectangular | Round.

Record DimensionSet := {
  ds_shape : Shape;
  ds_outer_width : F;
  ds_outer_height : F;
  ds_draw_depth : F;
  ds_draw_width : option F;
  ds_draw_height : option F;
  ds_draw_diameter : F;
  ds_cutout_diameter : option F
}.

Definition dflt (o : option F) : F :=
  match o with Some x => x | None => f_lit 0 1 end.

Definition spec_cutout (ds : DimensionSet) : F :=
  match ds_shape ds with
  | Round => let r := f_div (dflt (ds_cutout_diameter ds)) (f_lit 2 1) in
             f_mul f_pi (f_mul r r)
  | Rectangular => f_mul (dflt (ds_draw_width ds)) (dflt (ds_draw_height ds))
  end.

Definition spec_wall (ds : DimensionSet) : F :=
  match ds_shape ds with
  | Round => f_mul (f_mul f_pi (ds_draw_diameter ds)) (ds_draw_depth ds)
  | Rectangular =>
      f_mul (f_mul (f_lit 2 1) (f_add (dflt (ds_draw_width ds)) (dflt (ds_draw_height ds))))
            (ds_draw_depth ds)
  end.

Definition spec_net_area (ds : DimensionSet) : F :=
  f_sub (f_add (f_sub (f_mul (ds_outer_width ds) (ds_outer_height ds)) (spec_cutout ds))
               (spec_wall ds))
        (f_lit 350 1).

Definition spec_weight (ds : DimensionSet) : F :=
  f_round3 (f_div (f_mul (f_div (f_mul (spec_net_area ds) (f_lit 150 100)) (f_lit 1000 1))
                         (f_lit 785 100))
                  (f_lit 1000 1)).

(** The dictionary the extractor returns for a dimension set. *)
Definition shape_str (s : Shape) : string :=
  match s with Rectangular => "rectangular" | Round => "round" end.

Definition opt_json (o : option F) : json F :=
  match o with Some x => JFloat x | None => JNull end.

Definition to_dict (ds : DimensionSet) : json F :=
  JObj [("shape_type", JStr (shape_str (ds_shape ds)));
        ("outer_width", JFloat (ds_outer_width ds));
        ("outer_height", JFloat (ds_outer_height ds));
        ("draw_depth", JFloat (ds_draw_depth ds));
        ("draw_width", opt_json (ds_draw_width ds));
        ("draw_height", opt_json (ds_draw_height ds));
        ("draw_diameter", JFloat (ds_draw_diameter ds));
        ("cutout_diameter", opt_json (ds_cutout_diameter ds))].

(** [x or 0.0] agrees with the specification's default unless [x] is a
    zero other than the literal [0.0] (in binary64: [-0.0]). *)
Definition or_zero_agrees (o : option F) : Prop :=
  match o with
  | None => True
  | Some x => f_truthy x = true \/ x = f_lit 0 1
  end.

End Calc.

(** ** Inputs of the theorems

  The two scenarios of section 8 of the specification, as [json.loads]
  returns them (the numbers are JSON integers), and the dimension set with
  its depth replaced. *)

Definition rect_scenario {F : Type} : json F :=
JObj [("outer_width", JInt 100); ("outer_height", JInt 80);
      ("shape_type", JStr "rectangular"); ("draw_width", JInt 60);
      ("draw_height", JInt 40); ("draw_depth", JInt 10)]%Z.

Definition round_scenario {F : Type} : json F :=
JObj [("shape_type", JStr "round"); ("outer_width", JInt 150);
      ("outer_height", JInt 150); ("draw_diameter", JInt 80);
      ("draw_depth", JInt 20); ("cutout_diameter", JInt 30)]%Z.

Definition set_depth {F : Type} (ds : DimensionSet (F:=F)) (d : F) : DimensionSet :=
{| ds_shape := ds_shape ds; ds_outer_width := ds_outer_width ds;
   ds_outer_height := ds_outer_height ds; ds_draw_depth := d;
   ds_draw_width := ds_draw_width ds; ds_draw_height := ds_draw_height ds;
   ds_draw_diameter := ds_draw_diameter ds; ds_cutout_diameter := ds_cutout_diameter ds |}.

(** [d] without the key [k] *)
Definition remove_key {F : Type} (k : string) (d : json F) : json F :=
match d with
| JObj kvs => JObj (filter (fun kv => negb (String.eqb (fst kv) k)) kvs)
| _ => d
end.

(** The rectangular scenario with the shape written ["square"]. *)
Definition square_scenario_kvs {F : Type} : list (string * json F) :=
[("outer_width", JInt 100); ("outer_height", JInt 80);
 ("shape_type", JStr "square"); ("draw_width", JInt 60);
 ("draw_height", JInt 40); ("draw_depth", JInt 10)]%Z.

(** The rectangular scenario with every field a float, for binary64. *)
Definition rect_ds64 : DimensionSet (F:=float) :=
{| ds_shape := Rectangular; ds_outer_width := 100; ds_outer_height := 80;
   ds_draw_depth := 10; ds_draw_width := Some 60; ds_draw_height := Some 40;
   ds_draw_diameter := 0; ds_cutout_diameter := None |}%float.

(** The rectangular scenario in exact arithmetic. *)
Definition rect_dsQ : DimensionSet (F:=Q) :=
{| ds_shape := Rectangular; ds_outer_width := 100; ds_outer_height := 80;
   ds_draw_depth := 10; ds_draw_width := Some 60; ds_draw_height := Some 40;
   ds_draw_diameter := 0; ds_cutout_diameter := None |}%Q.

(** The coefficient of [draw_depth] in the wall area is non-negative. *)
Definition depth_coeff_nonneg (ds : DimensionSet (F:=Q)) : Prop :=
match ds_shape ds with
| Rectangular => (0 <= dflt (ds_draw_width ds) + dflt (ds_draw_height ds))%Q
| Round => (0 <= ds_draw_diameter ds)%Q
end.

Section CalcProofs.
Context {F : Type} `{PyFloat F}.

Lemma py_or_opt_json o :
  or_zero_agrees o -> py_or (opt_json o) (JFloat (f_lit 0 1)) = JFloat (dflt o).
Proof.
  destruct o as [x|]; simpl; [|reflexivity].
  unfold py_or; simpl. intros [Ht | ->]; [now rewrite Ht|].
  now destruct (f_truthy (f_lit 0 1)).
Qed.

(** [C1] On a dictionary that encodes a dimension set, the code computes
    exactly the specification's weight (same operations, same order, same
    float type), when [float(2)] is the literal [2.0], the optional
    rectangular fields are not a negative zero, and the square of the
    cutout radius does not overflow. *)
Theorem calculate_refines_spec (ds : DimensionSet) :
  f_of_int 2 = Some (f_lit 2 1) ->
  (ds_shape ds = Rectangular ->
     or_zero_agrees (ds_draw_width ds) /\ or_zero_agrees (ds_draw_height ds)) ->
  (ds_shape ds = Round ->
     let r := f_div (dflt (ds_cutout_diameter ds)) (f_lit 2 1) in
     f_pow2 r = Some (f_mul r r)) ->
  calculate_from_dimensions init (to_dict ds) = Ok (PFloat (spec_weight ds)).
Proof.
  destruct ds as [[|] ow oh dd dw dh ddia cd]; simpl; intros H2 Hrect Hround.
  - destruct (Hrect eq_refl) as [Hw Hh].
    unfold calculate_from_dimensions, get_or_zero, to_dict.
    cbn -[py_or opt_json]. rewrite !py_or_opt_json by assumption.
    cbn. rewrite H2. reflexivity.
  - specialize (Hround eq_refl). simpl in Hround.
    unfold calculate_from_dimensions, to_dict.
    destruct cd as [c|]; cbn in *; rewrite Hround; reflexivity.
Qed.

(** [C4] A dictionary without ["outer_width"] raises [KeyError], whatever
    else it holds (the specification's [MissingRequiredField]). *)
Theorem missing_outer_width_raises (self : DrawnSteelCalculator) kvs :
  dict_lookup "outer_width" kvs = None ->
  calculate_from_dimensions self (JObj kvs) = Raise (KeyError "outer_width").
Proof. intros Hk. unfold calculate_from_dimensions. simpl. now rewrite Hk. Qed.

(** A dimension set whose ["draw_depth"] is missing raises
    [KeyError "draw_depth"] for both shapes, after the cutout has been
    computed (which needs [float(2)] and, for a round part, a square that
    does not overflow). *)
Theorem missing_draw_depth_raises (ds : DimensionSet) :
  f_of_int 2 <> None ->
  (ds_shape ds = Round ->
     f_pow2 (f_div (dflt (ds_cutout_diameter ds)) (f_lit 2 1)) <> None) ->
  calculate_from_dimensions init (remove_key "draw_depth" (to_dict ds))
  = Raise (KeyError "draw_depth").
Proof.
  destruct ds as [[|] ow oh dd dw dh ddia cd]; simpl; intros H2 Hr;
    unfold calculate_from_dimensions, get_or_zero; simpl.
  - destruct (f_of_int 2) eqn:E2; [|congruence].
    unfold py_or. destruct dw, dh; cbn; repeat destruct (f_truthy _); cbn;
      try rewrite E2; reflexivity.
  - specialize (Hr eq_refl).
    destruct cd; cbn in *; destruct (f_pow2 _); cbn; congruence.
Qed.

(** [C6] A [shape_type] other than ["round"] (["square"], [null], a
    number, ...) is computed as a rectangular part; the specification asks
    for an [UnknownShapeType] failure. *)
Theorem unknown_shape_is_rectangular (self : DrawnSteelCalculator) kvs v :
  dict_lookup "shape_type" kvs = Some v -> eq_str v "round" = false ->
  calculate_from_dimensions self (JObj kvs) =
  calculate_from_dimensions self (JObj (kvs ++ [("shape_type", JStr "rectangular")])).
Proof.
  intros Hv Hr. unfold calculate_from_dimensions, get_or_zero. simpl.
  rewrite !dict_lookup_snoc_ne by discriminate.
  rewrite dict_lookup_snoc_eq, Hv, Hr.
  change (eq_str (F:=F) (JStr "rectangular") "round") with false.
  rewrite !dict_lookup_snoc_ne by discriminate. reflexivity.
Qed.

Lemma py_div_float_float a d w : py_div_float a d = Ok w -> exists x, w = PFloat x.
Proof. unfold py_div_float. intros E. exn_split. inv Hk. eauto. Qed.

Lemma calculate_weight_float self a w :
  calculate_weight self a = Ok w -> exists x, w = PFloat (f_round3 x).
Proof.
  unfold calculate_weight. intros E. exn_split.
  match goal with H : Ok _ = Ok _ |- _ => inv H end.
  match goal with H : py_div_float _ _ = Ok ?v |- context [?v] =>
    destruct (py_div_float_float _ _ _ H) as [x ->] end.
  exists x. reflexivity.
Qed.

(** [C7] Whatever the dictionary, a weight that [calculate_from_dimensions]
    returns is a Python [float], the result of [round(x, 3)] on a float:
    never an [int], even when every dimension is an [int]. *)
Theorem calculate_returns_rounded_float self dims w :
  calculate_from_dimensions self dims = Ok w -> exists x, w = PFloat (f_round3 x).
Proof.
  unfold calculate_from_dimensions. intros E. exn_split.
  match goal with H : calculate_weight _ _ = Ok _ |- _ => exact (calculate_weight_float _ _ _ H) end.
Qed.

End CalcProofs.

(** ** Exact arithmetic *)

Section ExactProofs.
Local Open Scope Q_scope.

Lemma or_zero_exact (o : option Q) :
  exists x, py_or (opt_json o) (JFloat (f_lit 0 1)) = JFloat x /\ x == dflt o.
Proof.
  destruct o as [q|]; unfold py_or; simpl; [|eauto with qarith].
  destruct (Exact.truthy q) eqn:E; [eauto with qarith|].
  exists (0 # 1). split; [reflexivity|].
  unfold Exact.truthy in E. apply negb_false_iff, Qeq_bool_iff in E.
  now rewrite E.
Qed.

(** In exact arithmetic the code computes the specification's weight on
    every encoded dimension set, with no side condition. *)
Lemma calc_exact_spec (ds : DimensionSet (F:=Q)) :
  calculate_from_dimensions init (to_dict ds) = Ok (PFloat (spec_weight ds)).
Proof.
  destruct ds as [[|] ow oh dd dw dh ddia cd].
  - destruct (or_zero_exact dw) as (x & Hx & Ex).
    destruct (or_zero_exact dh) as (y & Hy & Ey).
    unfold calculate_from_dimensions, get_or_zero, to_dict.
    cbn -[py_or opt_json] in *. rewrite Hx, Hy. cbn -[Exact.round3 Qmult Qplus Qminus Qdiv].
    do 2 f_equal. apply round3_Qeq. unfold spec_net_area, spec_cutout, spec_wall.
    cbn -[Qmult Qplus Qminus Qdiv]. rewrite Ex, Ey. reflexivity.
  - unfold calculate_from_dimensions, to_dict. destruct cd; reflexivity.
Qed.

(** The conversion from area to mass is monotone. *)
Lemma mass_mono x y :
  x <= y -> x * (150 # 100) / (1000 # 1) * (785 # 100) / (1000 # 1) <=
            y * (150 # 100) / (1000 # 1) * (785 # 100) / (1000 # 1).
Proof. intros Hxy. unfold Qdiv. repeat (apply Qmult_le_compat_r; [|easy]). exact Hxy. Qed.

Lemma spec_net_area_mono_depth (ds : DimensionSet (F:=Q)) d1 d2 :
  depth_coeff_nonneg ds -> d1 <= d2 ->
  spec_net_area (set_depth ds d1) <= spec_net_area (set_depth ds d2).
Proof.
  unfold depth_coeff_nonneg, spec_net_area, spec_cutout, spec_wall, set_depth.
  destruct ds as [[|] ow oh dd dw dh ddia cd]; cbn -[Qmult Qplus Qminus Qdiv];
    unfold Exact.pi; intros; nra.
Qed.

(** [C2] In exact arithmetic the weight is monotone in [draw_depth]: when
    the wall coefficient ([2 * (draw_width + draw_height)] for a
    rectangular part, [draw_diameter] for a round one) is non-negative, a
    deeper part is computed at least as heavy, and both runs return. *)
Theorem weight_monotone_in_depth (ds : DimensionSet (F:=Q)) (d1 d2 : Q) :
  depth_coeff_nonneg ds -> d1 <= d2 ->
  exists w1 w2,
    calculate_from_dimensions init (to_dict (set_depth ds d1)) = Ok (PFloat w1) /\
    calculate_from_dimensions init (to_dict (set_depth ds d2)) = Ok (PFloat w2) /\
    w1 <= w2.
Proof.
  intros Hc Hd. do 2 eexists. rewrite !calc_exact_spec.
  split; [reflexivity | split; [reflexivity|]].
  apply round3_mono. apply mass_mono, spec_net_area_mono_depth; assumption.
Qed.

(** A flat blank (rectangular, depth 0, no inner draw) weighs
    [round((outer_width * outer_height - 350) * 1.5 / 1000 * 7.85 / 1000, 3)]. *)
Theorem flat_blank_weight (ow oh : Q) :
  calculate_from_dimensions init
    (to_dict {| ds_shape := Rectangular; ds_outer_width := ow; ds_outer_height := oh;
                ds_draw_depth := 0; ds_draw_width := None; ds_draw_height := None;
                ds_draw_diameter := 0; ds_cutout_diameter := None |})
  = Ok (PFloat (Exact.round3 ((ow * oh - 350) * (3 # 2) / 1000 * (157 # 20) / 1000))).
Proof.
  rewrite calc_exact_spec. do 2 f_equal. apply round3_Qeq.
  cbn -[Qmult Qplus Qminus Qdiv]. field.
Qed.

Lemma weight_monotone_in_depth_witness :
  depth_coeff_nonneg rect_dsQ /\ 10 <= 20 /\
  exists w1 w2,
    calculate_from_dimensions init (to_dict (set_depth rect_dsQ 10)) = Ok (PFloat w1) /\
    calculate_from_dimensions init (to_dict (set_depth rect_dsQ 20)) = Ok (PFloat w2) /\
    w1 <= w2.
Proof.
  assert (Hc : depth_coeff_nonneg rect_dsQ) by (vm_compute; discriminate).
  assert (Hd : 10 <= 20) by (vm_compute; discriminate).
  split; [exact Hc | split; [exact Hd|]].
  exact (weight_monotone_in_depth rect_dsQ 10 20 Hc Hd).
Defined.
End ExactProofs.
End Calculator.

(** ** Binary64: what CPython computes *)

Module Calculator64.
Import Calculator.
Local Open Scope float_scope.

Lemma calculate_refines_spec_witness :
  f_of_int 2 = Some (f_lit 2 1) /\
  or_zero_agrees (ds_draw_width rect_ds64) /\ or_zero_agrees (ds_draw_height rect_ds64) /\
  calculate_from_dimensions init (to_dict rect_ds64) = Ok (PFloat (spec_weight rect_ds64)).
Proof.
  split; [vm_compute; reflexivity|].
  split; [left; vm_compute; reflexivity|].
  split; [left; vm_compute; reflexivity|].
  apply calculate_refines_spec.
  - vm_compute. reflexivity.
  - intros _. split; left; vm_compute; reflexivity.
  - intros E. discriminate E.
Defined.

Lemma missing_outer_width_raises_witness :
  dict_lookup "outer_width" (F:=float) [("outer_height", JInt 80%Z)] = None /\
  calculate_from_dimensions init (JObj [("outer_height", JInt 80%Z)])
  = Raise (KeyError "outer_width").
Proof. split; [reflexivity|]. apply missing_outer_width_raises. reflexivity. Defined.

Lemma unknown_shape_is_rectangular_witness :
  dict_lookup (F:=float) "shape_type" square_scenario_kvs = Some (JStr "square") /\
  eq_str (F:=float) (JStr "square") "round" = false /\
  calculate_from_dimensions init (JObj square_scenario_kvs) =
  calculate_from_dimensions init
    (JObj (square_scenario_kvs ++ [("shape_type", JStr "rectangular")])).
Proof.
  split; [reflexivity | split; [reflexivity|]].
  apply unknown_shape_is_rectangular with (v := JStr "square"); reflexivity.
Defined.

Lemma calculate_returns_rounded_float_witness :
  calculate_from_dimensions init round_scenario = Ok (PFloat 0.312) /\
  exists x, PFloat 0.312 = PFloat (f_round3 x).
Proof.
  assert (E : calculate_from_dimensions init round_scenario = Ok (PFloat 0.312))
    by (vm_compute; reflexivity).
  split; [exact E | exact (calculate_returns_rounded_float _ _ _ E)].
Defined.

End Calculator64.
