(* ===== verification/Orchestrator.v ===== *)
(** * [extract_dimensions_with_gemini] (src/backend/core/analysis.py, lines 64-139)

    The two external capabilities are interfaces:
    - [VisionService]: [genai.Client(api_key=...)] (which may raise) and
      [client.models.generate_content(model, [prompt, image])], whose
      result is an exception message or a response whose [.text] is [None],
      empty or a string;
    - [JsonLoads]: [json.loads], which returns a value or raises a
      [JSONDecodeError] with a message.
    [Image.open] is passed by the caller ([image_open]) because it reads the
    file system that the pipeline owns.

    The loop over [models_to_try] is [model_loop]; one iteration is
    [attempt], which returns [AReturn v] when the iteration executes
    [return json.loads(clean_text)] and [AContinue] when it falls through to
    the next model.  The diagnostic [print]s are the log ([Diag]).

    The specification describes the orchestrator as a state machine
    [Pending -> TryModel_i* -> Succeeded | Exhausted]; [ostep] is that
    machine, and the loop is shown to reach exactly its terminal state. *)

From Stdlib Require Import List String ZArith Bool Relations.
From S2P Require Import Prelude PyStr PyFloat PyValue.
Import ListNotations.
Local Open Scope py_scope.
Local Open Scope string_scope.

Module Orchestrator.

(** The result of [generate_content] followed by [response.text]. *)
Inductive Response :=
| RRaise (msg : string)
| RText (text : option string).

Class VisionService := {
(** [genai.Client(api_key=api_key)] does not raise *)
client_init : option string -> bool;
(** [client.models.generate_content(model=model_name, contents=[prompt, image])] *)
generate_content : string -> string -> Response
}.

Class JsonLoads (F : Type) := {
(** [json.loads(s)]: [inl msg] is a raised [JSONDecodeError] *)
json_loads : string -> string + json F
}.

(** The diagnostic lines the function prints. *)
Inductive Diag :=
| DInitError
| DImageError (path : string)
| DTrying (model : string)
| DEmptyText (model : string)
| DQuota (model : string)
| DNotFound (model : string)
| DError (model msg : string)
| DAllFailed.

Definition models_to_try : list string :=
["gemini-2.0-flash"; "gemini-2.0-flash-lite-preview-02-05";
 "gemini-2.5-flash"; "gemini-flash-latest"].

(** [if api_key: api_key = api_key.strip()] *)
Definition clean_key (api_key : option string) : option string :=
match api_key with
| Some k => if String.eqb k "" then Some k else Some (str_strip k)
| None => None
end.

(** [response.text.replace('```json', '').replace('```', '').strip()] *)
Definition clean_text (t : string) : string :=
str_strip (str_replace fence "" (str_replace "```json" "" t)).

(** The [except Exception as e] branch: classification by substring. *)
Definition classify (model msg : string) : Diag :=
if str_contains "429" msg then DQuota model
else if str_contains "404" msg then DNotFound model
else DError model msg.

(** [if response.text:] *)
Definition text_truthy (t : option string) : bool :=
match t with
| Some s => negb (String.eqb s "")
| None => false
end.

Section Orch.
Context {F : Type} {VS : VisionService} {JL : JsonLoads F}.

Inductive Attempt := AReturn (v : json F) | AContinue.

(** One iteration of [for model_name in models_to_try]. *)
Definition attempt (image : string) (model : string) : Attempt * list Diag :=
  match generate_content model image with
  | RRaise msg => (AContinue, [classify model msg])
  | RText t =>
      if text_truthy t then
        match json_loads (clean_text (match t with Some s => s | None => "" end)) with
        | inr v => (AReturn v, [])
        | inl msg => (AContinue, [classify model msg])
        end
      else (AContinue, [DEmptyText model])
  end.

(** The loop: [Some v] is [return v] from inside the loop, [None] is
    falling out of it. *)
Fixpoint model_loop (image : string) (models : list string) : option (json F) * list Diag :=
  match models with
  | [] => (None, [])
  | m :: rest =>
      let (a, d) := attempt image m in
      match a with
      | AReturn v => (Some v, DTrying m :: d)
      | AContinue =>
          let (r, d') := model_loop image rest in (r, DTrying m :: (d ++ d')%list)
      end
  end.

Definition extract_dimensions_with_gemini (image_open : string -> bool)
    (image_path : string) (api_key : option string) : json F * list Diag :=
  let api_key := clean_key api_key in
  if negb (client_init api_key) then (JObj [], [DInitError])
  else if negb (image_open image_path) then (JObj [], [DImageError image_path])
  else match model_loop image_path models_to_try with
       | (Some v, log) => (v, log)
       | (None, log) => (JObj [], (log ++ [DAllFailed])%list)
       end.

(** ** The specification's state machine (section 4.2) *)

Inductive OState :=
| Pending (remaining : list string)
| Succeeded (v : json F)
| Exhausted.

Inductive ostep (image : string) : OState -> OState -> Prop :=
| os_win m ms v :
    fst (attempt image m) = AReturn v -> ostep image (Pending (m :: ms)) (Succeeded v)
| os_next m ms :
    fst (attempt image m) = AContinue -> ostep image (Pending (m :: ms)) (Pending ms)
| os_exhaust : ostep image (Pending []) Exhausted.

Definition terminal (s : OState) : Prop :=
  match s with Pending _ => False | _ => True end.

Definition terminal_of (r : option (json F)) : OState :=
  match r with Some v => Succeeded v | None => Exhausted end.

(** The models the log says were tried, in order. *)
Fixpoint tried (log : list Diag) : list string :=
  match log with
  | [] => []
  | DTrying m :: rest => m :: tried rest
  | _ :: rest => tried rest
  end.
End Orch.

Arguments OState F : clear implicits.

(** ** Test doubles (specification, section 9)

  A service answering from a table (a model missing from the table raises
  a 404), and a decoder answering from a table of texts (any other text
  raises the [JSONDecodeError] CPython gives for an empty document). *)

Definition scripted_service (ok_key : bool) (answers : list (string * Response)) : VisionService := {|
client_init _ := ok_key;
generate_content m _ :=
  match find (fun p => String.eqb (fst p) m) answers with
  | Some (_, r) => r
  | None => RRaise "404 NOT_FOUND: model is not found"
  end
|}.

Definition table_loads {F : Type} (table : list (string * json F)) : JsonLoads F := {|
json_loads s :=
  match find (fun p => String.eqb (fst p) s) table with
  | Some (_, v) => inr v
  | None => inl "Expecting value: line 1 column 1 (char 0)"
  end
|}.

(** The first three models fail (malformed answer, quota, unknown model)
  and the fourth answers a fenced JSON object. *)
Definition fallback_answers : list (string * Response) :=
[("gemini-2.0-flash", RText (Some "```json {outer_width: 100,} ```"));
 ("gemini-2.0-flash-lite-preview-02-05", RRaise "429 RESOURCE_EXHAUSTED");
 ("gemini-2.5-flash", RRaise "404 NOT_FOUND");
 ("gemini-flash-latest", RText (Some "```json
{rect}
```"))].

Definition fallback_table {F : Type} (v : json F) : list (string * json F) :=
[("{rect}", v)].

(** A dictionary the decoder doubles return. *)
Definition sample_dims {F : Type} : json F := JObj [("outer_width", JInt 100%Z)].

(** A first model that answers an empty JSON object. *)
Definition empty_first_answers : list (string * Response) :=
[("gemini-2.0-flash", RText (Some "```json {} ```"));
 ("gemini-2.0-flash-lite-preview-02-05", RText (Some "{rect}"))].

(** A decoder error whose message mentions column 429. *)
Definition col429_table {F : Type} : JsonLoads F := {|
json_loads _ := inl "Expecting property name: line 1 column 429 (char 428)"
|}.

Definition fb_service : VisionService := scripted_service true fallback_answers.
Definition fb_loads : JsonLoads nat := table_loads (fallback_table sample_dims).
Definition none_service : VisionService := scripted_service true [].
Definition none_loads : JsonLoads nat := table_loads [].
Definition ef_service : VisionService := scripted_service true empty_first_answers.
Definition ef_loads : JsonLoads nat := table_loads [("{}", JObj []); ("{rect}", sample_dims)].

Section OrchProofs.
Context {F : Type} {VS : VisionService} {JL : JsonLoads F}.
Local Open Scope list_scope.

Abbreviation ostar img := (clos_refl_trans_1n _ (ostep img)).

Lemma tried_classify m msg : tried [classify m msg] = [].
Proof. unfold classify. destruct (str_contains "429" msg), (str_contains "404" msg); reflexivity. Qed.

Lemma attempt_no_trying img m : tried (snd (attempt img m)) = [].
Proof.
  unfold attempt. destruct (generate_content m img) as [msg|t]; [apply tried_classify|].
  destruct (text_truthy t); [|reflexivity].
  destruct (json_loads _); [apply tried_classify | reflexivity].
Qed.

Lemma tried_app l1 l2 : tried (l1 ++ l2) = tried l1 ++ tried l2.
Proof. induction l1 as [|[] l1 IH]; simpl; rewrite ?IH; reflexivity. Qed.

Lemma model_loop_cons img m ms :
  model_loop img (m :: ms) =
  match fst (attempt img m) with
  | AReturn v => (Some v, DTrying m :: snd (attempt img m))
  | AContinue => (fst (model_loop img ms),
                  DTrying m :: snd (attempt img m) ++ snd (model_loop img ms))
  end.
Proof.
  simpl. destruct (attempt img m) as [[v|] d]; [reflexivity|].
  destruct (model_loop img ms); reflexivity.
Qed.

Lemma ostep_terminal_stuck img s s' : terminal s -> ~ ostep img s s'.
Proof. intros Ht Hs. inversion Hs; subst; exact Ht. Qed.

(** [C8] Refinement of the specification's state machine: from
    [Pending models], the terminal states the machine can reach are
    exactly the one the loop returns ([Succeeded v] for [return v],
    [Exhausted] when the loop falls through). *)
Theorem model_loop_refines_ostep img ms t :
  terminal t ->
  (ostar img (Pending ms) t <-> t = terminal_of (fst (model_loop img ms))).
Proof.
  intros Ht. revert t Ht. induction ms as [|m ms IH]; intros t Ht; split.
  - intros Hs. inversion Hs as [|y z Hxy Hyz]; subst; [contradiction|].
    inversion Hxy; subst. inversion Hyz as [|y' z' Hs' _]; subst; [reflexivity|].
    exfalso. exact (ostep_terminal_stuck img Exhausted _ I Hs').
  - intros ->. econstructor 2; [constructor | constructor].
  - intros Hs. rewrite model_loop_cons.
    inversion Hs as [|y z Hxy Hyz]; subst; [contradiction|].
    inversion Hxy as [m' ms' v Ha| m' ms' Ha|]; subst; rewrite Ha.
    + inversion Hyz as [|y' z' Hs' _]; subst; [reflexivity|].
      exfalso. exact (ostep_terminal_stuck img (Succeeded v) _ I Hs').
    + apply IH; assumption.
  - rewrite model_loop_cons. intros ->.
    destruct (fst (attempt img m)) as [v|] eqn:Ha.
    + econstructor 2; [constructor; exact Ha | constructor].
    + econstructor 2; [apply os_next; exact Ha|]. apply IH; [|reflexivity].
      destruct (fst (model_loop img ms)); exact I.
Qed.

(** [C9] First success wins: when every model before [m] falls through
    and [m] returns [v], the loop returns [v], and the log shows exactly
    the models up to [m] tried once each, in order; later models are not
    called. *)
Theorem first_success_wins img pre m post v :
  Forall (fun m' => fst (attempt img m') = AContinue) pre ->
  fst (attempt img m) = AReturn v ->
  fst (model_loop img (pre ++ m :: post)) = Some v /\
  tried (snd (model_loop img (pre ++ m :: post))) = pre ++ [m].
Proof.
  intros Hpre Hm. induction Hpre as [|m' pre Hm' _ IH]; simpl app;
    rewrite model_loop_cons.
  - rewrite Hm. simpl. now rewrite attempt_no_trying.
  - rewrite Hm'. simpl. rewrite tried_app, attempt_no_trying.
    destruct IH as [-> ->]. split; reflexivity.
Qed.

(** [C10] When every model falls through, the loop falls out with every
    model tried exactly once, in order. *)
Theorem all_fail_exhausts img ms :
  Forall (fun m => fst (attempt img m) = AContinue) ms ->
  fst (model_loop img ms) = None /\ tried (snd (model_loop img ms)) = ms.
Proof.
  induction 1 as [|m ms Hm _ IH]; [split; reflexivity|].
  rewrite model_loop_cons, Hm. simpl. rewrite tried_app, attempt_no_trying.
  destruct IH as [-> ->]. split; reflexivity.
Qed.

(** Whatever the answers, the models the log shows as tried are a
    prefix of the configured list: each model at most once, in list
    order, and none after a success. *)
Theorem tried_is_prefix img ms :
  exists rest, ms = tried (snd (model_loop img ms)) ++ rest.
Proof.
  induction ms as [|m ms [rest IH]]; [exists []; reflexivity|].
  rewrite model_loop_cons.
  destruct (fst (attempt img m)); simpl; rewrite ?tried_app, attempt_no_trying.
  - exists ms. reflexivity.
  - exists rest. simpl. congruence.
Qed.

(** [C11] After cleaning, a model's answer contains no markdown fence
    ["```"], whatever the text (removal never creates a new fence). *)
Theorem clean_text_no_fence t : str_contains fence (clean_text t) = false.
Proof. unfold clean_text. apply contains_strip, str_replace_fence_nofence. Qed.

(** Cleaning is idempotent: a cleaned text is its own cleaning. *)
Theorem clean_text_idempotent t : clean_text (clean_text t) = clean_text t.
Proof.
  pose proof (clean_text_no_fence t) as Hf.
  assert (Hj : str_contains "```json" (clean_text t) = false).
  { destruct (str_contains "```json" (clean_text t)) eqn:E; [|reflexivity].
    apply contains_fence_json in E. congruence. }
  unfold clean_text at 1.
  rewrite (str_replace_absent "```json") by (discriminate || exact Hj).
  rewrite str_replace_absent by (discriminate || exact Hf).
  unfold clean_text. apply strip_idem.
Qed.

(** [C13] When the client and the image open and all four models fail,
    the function returns the empty dict after trying the four models once
    each, in the configured order, and prints the final error. *)
Theorem extract_exhausted image_open img key :
  client_init (clean_key key) = true -> image_open img = true ->
  Forall (fun m => fst (attempt img m) = AContinue) models_to_try ->
  exists log, extract_dimensions_with_gemini image_open img key = (JObj [], log ++ [DAllFailed])
    /\ tried log = models_to_try.
Proof.
  intros Hc Hi Hall. destruct (all_fail_exhausts img _ Hall) as [Hn Ht].
  unfold extract_dimensions_with_gemini. rewrite Hc, Hi. simpl negb. cbv iota.
  destruct (model_loop img models_to_try) as [r log]. simpl in Hn, Ht. subst r.
  exists log. split; [reflexivity | exact Ht].
Qed.

(** [C14] The first model whose non-empty answer parses wins even when
    the parsed value is empty ([{}], [null], [[]]): the function returns
    it without calling the other models.  The specification asks for a
    non-empty answer; the pipeline then reports no weight although later
    models might have answered. *)
Theorem parsed_answer_stops_loop image_open img key t v :
  client_init (clean_key key) = true -> image_open img = true ->
  generate_content "gemini-2.0-flash" img = RText (Some t) -> t <> "" ->
  json_loads (clean_text t) = inr v ->
  extract_dimensions_with_gemini image_open img key = (v, [DTrying "gemini-2.0-flash"]).
Proof.
  intros Hc Hi Hg Ht Hl. unfold extract_dimensions_with_gemini. rewrite Hc, Hi.
  simpl negb. cbv iota. unfold models_to_try. rewrite model_loop_cons.
  unfold attempt. rewrite Hg. unfold text_truthy.
  apply String.eqb_neq in Ht. rewrite Ht. simpl negb. cbv iota. rewrite Hl. reflexivity.
Qed.

(** [C15] A decoding error whose message contains "429" (a column or
    character position) is logged as a quota error: the classification
    reads the exception text, not its kind, and the specification's
    [malformed-response] class does not exist in the code. *)
Theorem parse_error_logged_as_quota img m t msg :
  generate_content m img = RText (Some t) -> t <> "" ->
  json_loads (clean_text t) = inl msg -> str_contains "429" msg = true ->
  attempt img m = (AContinue, [DQuota m]).
Proof.
  intros Hg Ht Hl H4. unfold attempt. rewrite Hg. unfold text_truthy.
  apply String.eqb_neq in Ht. rewrite Ht. simpl negb. cbv iota. rewrite Hl.
  unfold classify. rewrite H4. reflexivity.
Qed.

End OrchProofs.

(** ** Witnesses, on the test doubles *)

Section FallbackWitnesses.
#[local] Existing Instances fb_service fb_loads.

Lemma model_loop_refines_ostep_witness :
  terminal (Succeeded (F:=nat) sample_dims) /\
  clos_refl_trans_1n _ (ostep "drawing.png") (Pending models_to_try) (Succeeded sample_dims).
Proof.
  split; [exact I|]. apply model_loop_refines_ostep; [exact I|]. reflexivity.
Defined.

Lemma first_success_wins_witness :
  Forall (fun m' => fst (attempt "drawing.png" m') = AContinue)
    ["gemini-2.0-flash"; "gemini-2.0-flash-lite-preview-02-05"; "gemini-2.5-flash"] /\
  fst (attempt "drawing.png" "gemini-flash-latest") = AReturn sample_dims /\
  fst (model_loop "drawing.png" models_to_try) = Some sample_dims /\
  tried (snd (model_loop "drawing.png" models_to_try)) = models_to_try.
Proof.
  assert (Hpre : Forall (fun m' => fst (attempt "drawing.png" m') = AContinue)
    ["gemini-2.0-flash"; "gemini-2.0-flash-lite-preview-02-05"; "gemini-2.5-flash"])
    by (repeat constructor).
  assert (Hm : fst (attempt "drawing.png" "gemini-flash-latest") = AReturn sample_dims)
    by reflexivity.
  split; [exact Hpre | split; [exact Hm|]].
  exact (first_success_wins "drawing.png" _ "gemini-flash-latest" [] sample_dims Hpre Hm).
Defined.
End FallbackWitnesses.

Section ExhaustedWitnesses.
#[local] Existing Instances none_service none_loads.

Lemma all_fail_exhausts_witness :
  Forall (fun m => fst (attempt "drawing.png" m) = AContinue) models_to_try /\
  fst (model_loop "drawing.png" models_to_try) = None /\
  tried (snd (model_loop "drawing.png" models_to_try)) = models_to_try.
Proof.
  assert (H : Forall (fun m => fst (attempt "drawing.png" m) = AContinue) models_to_try)
    by (repeat constructor).
  split; [exact H | apply all_fail_exhausts; exact H].
Defined.

Lemma extract_exhausted_witness :
  client_init (clean_key (Some " key ")) = true /\
  exists log, extract_dimensions_with_gemini (fun _ => true) "drawing.png" (Some " key ")
              = (JObj [], log ++ [DAllFailed])%list /\ tried log = models_to_try.
Proof.
  split; [reflexivity|].
  apply extract_exhausted; [reflexivity | reflexivity | repeat constructor].
Defined.

End ExhaustedWitnesses.

Section FindingWitnesses.
#[local] Existing Instances ef_service ef_loads.

Lemma parsed_answer_stops_loop_witness :
  generate_content "gemini-2.0-flash" "drawing.png" = RText (Some "```json {} ```") /\
  json_loads (clean_text "```json {} ```") = inr (JObj []) /\
  extract_dimensions_with_gemini (fun _ => true) "drawing.png" (Some "key")
  = (JObj [], [DTrying "gemini-2.0-flash"]).
Proof.
  split; [reflexivity | split; [reflexivity|]].
  apply parsed_answer_stops_loop with (t := "```json {} ```");
    [reflexivity | reflexivity | reflexivity | discriminate | reflexivity].
Defined.

Lemma parse_error_logged_as_quota_witness :
  json_loads (JsonLoads:=col429_table (F:=nat)) (clean_text "```json {} ```")
    = inl "Expecting property name: line 1 column 429 (char 428)" /\
  attempt (JL:=col429_table (F:=nat)) "drawing.png" "gemini-2.0-flash"
    = (AContinue, [DQuota "gemini-2.0-flash"]).
Proof.
  split; [reflexivity|].
  apply (parse_error_logged_as_quota (JL:=col429_table (F:=nat))) with
    (t := "```json {} ```") (msg := "Expecting property name: line 1 column 429 (char 428)");
    [reflexivity | discriminate | reflexivity | reflexivity].
Defined.
End FindingWitnesses.
End Orchestrator.
