(* ===== verification/Pipeline.v ===== *)
(** * [process_drawing_pipeline] (src/backend/core/analysis.py, lines 142-200)

    The pipeline owns the file system: the state is a [gmap] from paths to
    file contents ([FileData]).  A PDF input is converted with
    [pdf2image.convert_from_path] (interface [PdfConverter]); the first page
    is saved as a JPEG at [input_path.replace('.pdf', '_temp.jpg')] and
    recorded in [temp_images]; the loop over [image_paths_to_process] calls
    the extractor and, when its result is truthy, the calculator; the temp
    images are deleted at the end.

    The result is [(exn PyExc (weight * extracted_data), file system)]:
    [Raise e] is an exception escaping the function (the calculator's
    [KeyError], [TypeError], [AttributeError] or [OverflowError]), in which
    case the cleanup loop is not reached.

    [main_block] is the [__main__] block (lines 203-227): the API key from
    the environment or the embedded literal, the first existing candidate
    image, and the three branches. *)

From stdpp Require Import base gmap strings.
From Stdlib Require Import String List Bool PrimFloat.
From S2P Require Import Prelude PyStr PyFloat PyValue Calculator Orchestrator.
Import ListNotations.
Import Calculator Orchestrator.
Local Open Scope py_scope.

(** A file on disk: the uploaded input, or a JPEG rendering of page 1 of a
    PDF. *)
Inductive FileData := Upload | Jpeg (src : string).

Abbreviation FS := (gmap string FileData).

(** [convert_from_path(input_path)]: [ImportError], another exception, or
    the number of pages. *)
Inductive Conversion :=
| ConvImportError
| ConvError (msg : string)
| Pages (n : nat).

Class PdfConverter := {
  convert_from_path : string -> Conversion;
  (** [images[0].save(path, 'JPEG')] does not raise *)
  save_ok : string -> bool
}.

(** [weight, extracted_data] as returned *)
Abbreviation PipelineResult F := (option (PyNum F) * option (json F))%type.

Section Pipeline.
Context {F : Type} `{PyFloat F} {VS : VisionService} {JL : JsonLoads F} {PC : PdfConverter}.

(** [Image.open(path)] succeeds on an existing file. *)
Definition image_open (fs : FS) (p : string) : bool :=
  match fs !! p with Some _ => true | None => false end.

(** [for img_path in image_paths_to_process:] with its [continue] and
    [break]; the state is [(final_weight, extracted_data)]. *)
Fixpoint process_images (fs : FS) (api_key : option string) (imgs : list string)
    (acc : PipelineResult F) : pyres (PipelineResult F) :=
  match imgs with
  | [] => Ok acc
  | img :: rest =>
      let extracted_data := fst (extract_dimensions_with_gemini (image_open fs) img api_key) in
      if negb (truthy extracted_data) then
        process_images fs api_key rest (fst acc, Some extracted_data)
      else
        let* w := calculate_from_dimensions init extracted_data in
        (* [if final_weight is not None: break] *)
        Ok (Some w, Some extracted_data)
  end.

(** [for tmp in temp_images: if os.path.exists(tmp): os.remove(tmp)] *)
Definition cleanup (temps : list string) (fs : FS) : FS :=
  fold_left (fun fs tmp => delete tmp fs) temps fs.

(** The part after the input has been turned into image paths. *)
Definition run_images (fs : FS) (api_key : option string) (imgs temps : list string)
  : pyres (PipelineResult F) * FS :=
  match process_images fs api_key imgs (None, None) with
  | Raise e => (Raise e, fs)
  | Ok r => (Ok r, cleanup temps fs)
  end.

Definition temp_path (input_path : string) : string :=
  str_replace ".pdf" "_temp.jpg" input_path.

Definition process_drawing_pipeline (fs : FS) (input_path : string) (api_key : option string)
  : pyres (PipelineResult F) * FS :=
  if str_endswith (str_lower input_path) ".pdf" then
    match convert_from_path input_path with
    | ConvImportError | ConvError _ | Pages 0 => (Ok (None, None), fs)
    | Pages (S _) =>
        let tmp := temp_path input_path in
        if save_ok tmp then
          run_images (<[tmp := Jpeg input_path]> fs) api_key [tmp] [tmp]
        else (Ok (None, None), fs)
    end
  else run_images fs api_key [input_path] [].

(** What the [__main__] block (lines 203-227) ends in. *)
Inductive MainOutcome :=
| MissingImage
| PlaceholderKey (image_file : string)
| Ran (r : pyres (PipelineResult F) * FS).

(** The [__main__] block: [env_key] is [os.environ.get("GOOGLE_API_KEY")]
    and [embedded_key] the literal assigned when it is unset or empty
    (the literal itself is not reproduced here).  [os.path.exists] is
    [image_open] on the file system. *)
Definition main_block (embedded_key : string) (env_key : option string) (fs : FS) : MainOutcome :=
  let api_key :=
    match env_key with
    | Some k => if String.eqb k "" then embedded_key else k
    | None => embedded_key
    end in
  match find (image_open fs) ["AMR1224TG_OUTER.png"] with
  | None => MissingImage
  | Some image_file =>
      if String.eqb api_key "YOUR_GOOGLE_API_KEY" then PlaceholderKey image_file
      else Ran (process_drawing_pipeline fs image_file (Some api_key))
  end.
End Pipeline.
Arguments MainOutcome F : clear implicits.

(** ** Scenario inputs

    The first model answers the rectangular scenario of the specification
    inside a fenced block; the converter yields one page. *)

Definition e2e_service : VisionService :=
  scripted_service true [("gemini-2.0-flash", RText (Some "```json
{rect}
```"))].

Definition e2e_loads (d : json float) : JsonLoads float := table_loads [("{rect}", d)].

Definition one_page : PdfConverter := {| convert_from_path _ := Pages 1; save_ok _ := true |}.

Definition disk (input : string) : FS := {[ input := Upload ]}.

(** A round part without ["outer_width"]: the calculator raises. *)
Definition bad_dims : json float := JObj [("shape_type", JStr "round")].

Definition e2e_jl : JsonLoads float := e2e_loads rect_scenario.
Definition bad_jl : JsonLoads float := e2e_loads bad_dims.

Section PipelineProofs.
Context {F : Type} `{PyFloat F} {VS : VisionService} {JL : JsonLoads F} {PC : PdfConverter}.

Lemma process_images_weight fs k imgs acc w ed :
  process_images fs k imgs acc = Ok (Some w, ed) ->
  fst acc = Some w \/
  exists d, ed = Some d /\ truthy d = true /\ calculate_from_dimensions init d = Ok w.
Proof.
  revert acc. induction imgs as [|img rest IH]; simpl; intros acc Hp.
  - inv Hp. left. reflexivity.
  - destruct (truthy _) eqn:Ht; simpl in Hp.
    + destruct (calculate_from_dimensions init _) eqn:Hc; inv Hp. right. eauto.
    + destruct (IH _ Hp) as [Hw | Hd]; [left; exact Hw | right; exact Hd].
Qed.

Lemma run_images_ok fs k imgs temps r fs' :
  run_images fs k imgs temps = (Ok r, fs') ->
  process_images fs k imgs (None, None) = Ok r /\ fs' = cleanup temps fs.
Proof. unfold run_images. destruct process_images; intros E; inv E; auto. Qed.

Lemma run_images_raise fs k imgs temps e fs' :
  run_images fs k imgs temps = (Raise e, fs') -> fs' = fs.
Proof. unfold run_images. destruct process_images; intros E; inv E; auto. Qed.

Lemma cleanup_one tmp fs : cleanup [tmp] fs = delete tmp fs.
Proof. reflexivity. Qed.

(** [C16] No weight is reported without data: a returned weight is the
    calculator's result on the extracted dictionary, which was truthy. *)
Theorem weight_requires_data fs input k w ed fs' :
  process_drawing_pipeline fs input k = (Ok (Some w, ed), fs') ->
  exists d, ed = Some d /\ truthy d = true /\ calculate_from_dimensions init d = Ok w.
Proof.
  unfold process_drawing_pipeline. intros Hp.
  destruct (str_endswith _ _).
  - destruct convert_from_path as [| |[|n]]; try (inv Hp; fail).
    destruct save_ok; [|inv Hp].
    apply run_images_ok in Hp as [Hp _].
    destruct (process_images_weight _ _ _ _ _ _ Hp) as [Hw|Hd]; [discriminate Hw | exact Hd].
  - apply run_images_ok in Hp as [Hp _].
    destruct (process_images_weight _ _ _ _ _ _ Hp) as [Hw|Hd]; [discriminate Hw | exact Hd].
Qed.

(** [C17] On a normal return the only change to the file system is that
    the temporary path is deleted: the file system is the initial one, or
    the initial one without [temp_path input]; and for an input that is
    not a PDF it is the initial one. *)
Theorem normal_return_cleans_up fs input k r fs' :
  process_drawing_pipeline fs input k = (Ok r, fs') ->
  (fs' = fs \/ fs' = delete (temp_path input) fs) /\
  (str_endswith (str_lower input) ".pdf" = false -> fs' = fs).
Proof.
  unfold process_drawing_pipeline. intros Hp.
  destruct (str_endswith _ _); [split; [|discriminate] | apply run_images_ok in Hp as [_ ->]; auto].
  destruct convert_from_path as [| |[|n]]; try (inv Hp; left; reflexivity).
  destruct save_ok; [|inv Hp; left; reflexivity].
  apply run_images_ok in Hp as [_ ->]. right.
  rewrite cleanup_one. apply delete_insert_eq.
Qed.

(** [C18] When the calculator raises on the extracted data of a PDF, the
    exception escapes before the cleanup loop and the temporary JPEG is
    left on disk (the specification requires its deletion on every
    path). *)
Theorem calculator_error_leaks_temp fs input k n e :
  str_endswith (str_lower input) ".pdf" = true ->
  convert_from_path input = Pages (S n) -> save_ok (temp_path input) = true ->
  let fs1 := <[temp_path input := Jpeg input]> fs in
  let d := fst (extract_dimensions_with_gemini (image_open fs1) (temp_path input) k) in
  truthy d = true -> calculate_from_dimensions init d = Raise e ->
  process_drawing_pipeline fs input k = (Raise e, fs1) /\
  fs1 !! temp_path input = Some (Jpeg input).
Proof.
  intros Hpdf Hc Hs fs1 d Ht He. split; [|apply lookup_insert_eq].
  unfold process_drawing_pipeline. rewrite Hpdf, Hc, Hs.
  unfold run_images. simpl. fold fs1. fold d. rewrite Ht. simpl. rewrite He. reflexivity.
Qed.

(** [C19] An input named with an upper-case [.PDF] extension (and no
    lower-case ".pdf" in its name) passes the [.lower().endswith('.pdf')]
    test, but [replace('.pdf', '_temp.jpg')] leaves its name unchanged:
    the first page is saved over the input file, and a normal return
    deletes the input. *)
Theorem uppercase_pdf_deletes_input fs input k n r fs' :
  str_endswith (str_lower input) ".pdf" = true ->
  str_contains ".pdf" input = false ->
  convert_from_path input = Pages (S n) -> save_ok input = true ->
  process_drawing_pipeline fs input k = (Ok r, fs') ->
  temp_path input = input /\ fs' !! input = None.
Proof.
  intros Hpdf Hno Hc Hs Hp.
  assert (Ht : temp_path input = input)
    by (apply str_replace_absent; [discriminate | exact Hno]).
  split; [exact Ht|].
  unfold process_drawing_pipeline in Hp. rewrite Hpdf, Hc, Ht, Hs in Hp.
  apply run_images_ok in Hp as [_ ->]. rewrite cleanup_one. apply lookup_delete_eq.
Qed.

(** With [GOOGLE_API_KEY] unset the embedded key is used, so the
    placeholder branch of the [__main__] block cannot be reached unless
    the embedded literal is the placeholder. *)
Lemma main_placeholder_unreachable key fs img :
  key <> "YOUR_GOOGLE_API_KEY" -> main_block key None fs <> PlaceholderKey img.
Proof.
  intros Hk. unfold main_block. destruct (find _ _); [|discriminate].
  apply String.eqb_neq in Hk. rewrite Hk. discriminate.
Qed.
End PipelineProofs.

(** ** End to end, in binary64 *)

Section EndToEnd.
#[local] Existing Instances e2e_service e2e_jl one_page.
Local Open Scope float_scope.

(** A PNG drawing whose first model answers the specification's
    rectangular scenario yields 0.085 kg and the dictionary, and leaves
    the disk as it was. *)
Theorem png_scenario_end_to_end :
  process_drawing_pipeline (disk "drawing.png") "drawing.png" (Some "key")
  = (Ok (Some (PFloat 0.085), Some rect_scenario), disk "drawing.png").
Proof. vm_compute. reflexivity. Qed.

Lemma weight_requires_data_witness :
  process_drawing_pipeline (disk "drawing.pdf") "drawing.pdf" (Some "key")
    = (Ok (Some (PFloat 0.085), Some rect_scenario), disk "drawing.pdf") /\
  exists d, Some rect_scenario = Some d /\ truthy d = true /\
            calculate_from_dimensions init d = Ok (PFloat 0.085).
Proof.
  assert (E : process_drawing_pipeline (disk "drawing.pdf") "drawing.pdf" (Some "key")
    = (Ok (Some (PFloat 0.085), Some rect_scenario), disk "drawing.pdf"))
    by (vm_compute; reflexivity).
  split; [exact E | exact (weight_requires_data _ _ _ _ _ _ E)].
Defined.

Lemma normal_return_cleans_up_witness :
  process_drawing_pipeline (disk "drawing.pdf") "drawing.pdf" (Some "key")
    = (Ok (Some (PFloat 0.085), Some rect_scenario), disk "drawing.pdf") /\
  (disk "drawing.pdf" = disk "drawing.pdf" \/
   disk "drawing.pdf" = delete (temp_path "drawing.pdf") (disk "drawing.pdf")) /\
  (str_endswith (str_lower "drawing.pdf") ".pdf" = false -> disk "drawing.pdf" = disk "drawing.pdf").
Proof.
  assert (E : process_drawing_pipeline (disk "drawing.pdf") "drawing.pdf" (Some "key")
    = (Ok (Some (PFloat 0.085), Some rect_scenario), disk "drawing.pdf"))
    by (vm_compute; reflexivity).
  split; [exact E | exact (normal_return_cleans_up _ _ _ _ _ E)].
Defined.

Lemma uppercase_pdf_deletes_input_witness :
  str_contains ".pdf" "DRAWING.PDF" = false /\
  temp_path "DRAWING.PDF" = "DRAWING.PDF" /\
  snd (process_drawing_pipeline (disk "DRAWING.PDF") "DRAWING.PDF" (Some "key"))
    !! "DRAWING.PDF" = None.
Proof.
  split; [reflexivity|].
  destruct (process_drawing_pipeline (disk "DRAWING.PDF") "DRAWING.PDF" (Some "key"))
    as [r fs'] eqn:E.
  assert (Hr : r = Ok (Some (PFloat 0.085), Some rect_scenario)).
  { vm_compute in E. injection E as <- _. reflexivity. }
  subst r. simpl.
  refine (uppercase_pdf_deletes_input (disk "DRAWING.PDF") "DRAWING.PDF" (Some "key") 0
            _ fs' _ _ _ _ E); reflexivity.
Defined.
End EndToEnd.

Section Failures.
#[local] Existing Instances e2e_service bad_jl.

Lemma calculator_error_leaks_temp_witness :
  process_drawing_pipeline (PC:=one_page) (disk "drawing.pdf") "drawing.pdf" (Some "key")
    = (Raise (KeyError "outer_width"),
       <[temp_path "drawing.pdf" := Jpeg "drawing.pdf"]> (disk "drawing.pdf")) /\
  (<[temp_path "drawing.pdf" := Jpeg "drawing.pdf"]> (disk "drawing.pdf"))
    !! temp_path "drawing.pdf" = Some (Jpeg "drawing.pdf").
Proof.
  apply (calculator_error_leaks_temp (PC:=one_page) _ _ _ 0);
    vm_compute; reflexivity.
Defined.

End Failures.
