(* ===== verification/Bson.v ===== *)
(** * ObjectId and BSON documents (src/backend/models.py)

    The routers store and read MongoDB documents.  A document is the list
    of its (field, value) pairs in stored order ([doc]); a value is a
    [bval], with numbers held at their exact value ([Q]: a stored [int]
    or [double] is a rational) and [ObjectId]s as the 96-bit big-endian
    integer of their 12 bytes.

    [bson_cmp] is MongoDB's comparison of BSON values: first by the
    canonical type order (null < numbers < strings < objects < ObjectId
    < booleans), then by value; strings are compared bytewise (the default
    "simple" collation), objects field by field (type of the value, field
    name, value), a shorter object being smaller.  Equality queries
    ([{"user_id": x}]) match when the comparison answers [Eq].

    [validate_object_id] (models.py, lines 5-10) is modelled with the
    [bson] library's [ObjectId(v)] and [ObjectId.is_valid(v)]: an
    [ObjectId] is kept, 12 bytes or a string of 24 hexadecimal digits
    (either case) are converted, anything else is rejected.  ([bytes.fromhex]
    also skips ASCII whitespace inside a 24-character string; such strings
    are not modelled.)  [str(oid)] is 24 lowercase hexadecimal digits. *)

From Stdlib Require Import List String Ascii ZArith QArith Bool Lia.
From S2P Require Import Prelude.
Import ListNotations.
Local Open Scope string_scope.
#[local] Set Warnings "-register-all".

Module Bson.

(** ** ObjectId *)

Definition ObjectId := Z.

(** The 12 bytes of an ObjectId, as an integer. *)
Definition oid_wf (o : ObjectId) : Prop := (0 <= o < 2 ^ 96)%Z.

Definition hex_digit (d : Z) : ascii :=
  ascii_of_nat (Z.to_nat (if (d <? 10)%Z then 48 + d else 87 + d)%Z).

(** [n] lowercase hexadecimal digits of [z], prepended to [acc]. *)
Fixpoint hex_of (n : nat) (z : Z) (acc : string) : string :=
  match n with
  | O => acc
  | S n' => hex_of n' (Z.shiftr z 4) (String (hex_digit (Z.land z 15)) acc)
  end.

(** [str(oid)]: [binascii.hexlify(self.__id).decode()] *)
Definition oid_str (o : ObjectId) : string := hex_of 24 o EmptyString.

(** One digit of [bytes.fromhex]. *)
Definition hex_val (c : ascii) : option Z :=
  let n := Z.of_nat (nat_of_ascii c) in
  (if (48 <=? n) && (n <=? 57) then Some (n - 48)
  else if (97 <=? n) && (n <=? 102) then Some (n - 87)
  else if (65 <=? n) && (n <=? 70) then Some (n - 55)
  else None)%Z.

Fixpoint parse_hex (s : string) (acc : Z) : option Z :=
  match s with
  | EmptyString => Some acc
  | String c rest =>
      match hex_val c with
      | Some d => parse_hex rest (acc * 16 + d)
      | None => None
      end
  end.

(** 12 bytes read big-endian. *)
Definition bytes_be (bs : list Byte.byte) : Z :=
  fold_left (fun acc b => acc * 256 + Z.of_N (Byte.to_N b))%Z bs 0%Z.

(** The Python values [validate_object_id] may be given. *)
Inductive PyAny :=
| AOid (o : ObjectId)
| AStr (s : string)
| ABytes (bs : list Byte.byte)
| ANone
| AOther.

Inductive OidError := InvalidId | OidTypeError | ValueError (msg : string).

(** [ObjectId(v)] *)
Definition ObjectId_new (v : PyAny) : exn OidError ObjectId :=
  match v with
  | AOid o => Ok o
  | ABytes bs => if Nat.eqb (List.length bs) 12 then Ok (bytes_be bs) else Raise OidTypeError
  | AStr s =>
      if Nat.eqb (String.length s) 24 then
        match parse_hex s 0 with Some o => Ok o | None => Raise InvalidId end
      else Raise InvalidId
  | ANone | AOther => Raise OidTypeError
  end.

(** [bool(v)] for the values above ([AOther] may be falsy or not). *)
Definition any_falsy (v : PyAny) : bool :=
  match v with
  | ANone => true
  | AStr s => String.eqb s EmptyString
  | ABytes bs => Nat.eqb (List.length bs) 0
  | _ => false
  end.

(** [ObjectId.is_valid(oid)] *)
Definition is_valid (v : PyAny) : bool :=
  if any_falsy v then false
  else match ObjectId_new v with Ok _ => true | Raise _ => false end.

(** [validate_object_id] (models.py, lines 5-10) *)
Definition validate_object_id (v : PyAny) : exn OidError ObjectId :=
  match v with
  | AOid o => Ok o
  | _ => if is_valid v then ObjectId_new v else Raise (ValueError "Invalid ObjectId")
  end.

(** ** BSON values and documents *)

Inductive bval :=
| BNull
| BBool (b : bool)
| BNum (q : Q)
| BStr (s : string)
| BOid (o : ObjectId)
| BDoc (d : list (string * bval)).

Definition doc := list (string * bval).

(** MongoDB's canonical order of BSON types. *)
Definition rank (v : bval) : nat :=
  match v with
  | BNull => 1
  | BNum _ => 2
  | BStr _ => 3
  | BDoc _ => 4
  | BOid _ => 7
  | BBool _ => 8
  end.

Definition bool_cmp (a b : bool) : comparison :=
  match a, b with
  | false, true => Lt
  | true, false => Gt
  | _, _ => Eq
  end.

Fixpoint bson_cmp (a b : bval) : comparison :=
  match a, b with
  | BNull, BNull => Eq
  | BBool x, BBool y => bool_cmp x y
  | BNum x, BNum y => Qcompare x y
  | BStr x, BStr y => String.compare x y
  | BOid x, BOid y => Z.compare x y
  | BDoc x, BDoc y =>
      (fix go (x y : doc) : comparison :=
         match x, y with
         | [], [] => Eq
         | [], _ :: _ => Lt
         | _ :: _, [] => Gt
         | (k1, v1) :: x', (k2, v2) :: y' =>
             match Nat.compare (rank v1) (rank v2) with
             | Eq =>
                 match String.compare k1 k2 with
                 | Eq => match bson_cmp v1 v2 with Eq => go x' y' | c => c end
                 | c => c
                 end
             | c => c
             end
         end) x y
  | _, _ => Nat.compare (rank a) (rank b)
  end.

(** [doc[k]] on a stored document: fields are unique, the first is read. *)
Fixpoint doc_get (k : string) (d : doc) : option bval :=
  match d with
  | [] => None
  | (k', v) :: rest => if String.eqb k k' then Some v else doc_get k rest
  end.

(** [item[k] = v] on the dict a cursor returns: an existing key keeps its
    position, a new key is appended. *)
Fixpoint doc_set (k : string) (v : bval) (d : doc) : doc :=
  match d with
  | [] => [(k, v)]
  | (k', v') :: rest =>
      if String.eqb k k' then (k', v) :: rest else (k', v') :: doc_set k v rest
  end.

(** The value a sort sees for a field: a missing field sorts as null. *)
Definition sort_key (k : string) (d : doc) : bval :=
  match doc_get k d with Some v => v | None => BNull end.

(** [{k: v}] matches a document whose field [k] compares equal to [v]. *)
Definition field_eq (k : string) (v : bval) (d : doc) : bool :=
  match doc_get k d with
  | Some v' => match bson_cmp v' v with Eq => true | _ => false end
  | None => false
  end.

(** ** [UserModel] (models.py, lines 19-28) *)

Record UserModel := {
  um_id : ObjectId;
  um_username : string;
  um_email : string;
  um_hashed_password : string
}.

(** [user_model.model_dump(by_alias=True, exclude=["id"])]: the list is
    accepted as the set of excluded fields (see [Users]), so [id] is left
    out. *)
Definition user_dump (u : UserModel) : doc :=
  [("username", BStr (um_username u)); ("email", BStr (um_email u));
   ("hashed_password", BStr (um_hashed_password u))].

(** ** [ScanHistoryModel] (models.py, lines 33-45) *)

Record ScanHistoryModel := {
  sh_id : ObjectId;
  sh_user_id : ObjectId;
  sh_filename : string;
  (** a [float]: its exact value *)
  sh_calculated_weight_kg : Q;
  sh_extracted_data : doc;
  sh_timestamp : string
}.

(** [history_entry.model_dump(by_alias=True)]: the [PlainSerializer] of
    [PyObjectId] applies in every mode ([when_used] defaults to
    ["always"]), so both ids are dumped as strings. *)
Definition scan_dump (h : ScanHistoryModel) : doc :=
  [("_id", BStr (oid_str (sh_id h))); ("user_id", BStr (oid_str (sh_user_id h)));
   ("filename", BStr (sh_filename h)); ("calculated_weight_kg", BNum (sh_calculated_weight_kg h));
   ("extracted_data", BDoc (sh_extracted_data h)); ("timestamp", BStr (sh_timestamp h))].

(** Induction on values, with the hypothesis for every field of an
    embedded document. *)
Definition bval_ind' (P : bval -> Prop) (HN : P BNull) (HB : forall b, P (BBool b))
    (HQ : forall q, P (BNum q)) (HS : forall s, P (BStr s)) (HO : forall o, P (BOid o))
    (HD : forall d, Forall (fun kv => P (snd kv)) d -> P (BDoc d)) : forall v, P v :=
  fix F v :=
    match v with
    | BNull => HN
    | BBool b => HB b
    | BNum q => HQ q
    | BStr s => HS s
    | BOid o => HO o
    | BDoc d =>
        HD d ((fix G (d : doc) : Forall (fun kv => P (snd kv)) d :=
                 match d with
                 | [] => Forall_nil _
                 | kv :: r => Forall_cons _ (F (snd kv)) (G r)
                 end) d)
    end.

(** ** Lemmas *)

Lemma hex_digit_val d : (0 <= d < 16)%Z -> hex_val (hex_digit d) = Some d.
Proof.
  intros Hd.
  assert (d = 0 \/ d = 1 \/ d = 2 \/ d = 3 \/ d = 4 \/ d = 5 \/ d = 6 \/ d = 7 \/
          d = 8 \/ d = 9 \/ d = 10 \/ d = 11 \/ d = 12 \/ d = 13 \/ d = 14 \/ d = 15)%Z
    as E by lia.
  repeat destruct E as [-> | E]; try reflexivity. subst. reflexivity.
Qed.

Lemma hex_of_length n z acc :
  String.length (hex_of n z acc) = (n + String.length acc)%nat.
Proof. revert z acc. induction n as [|n IH]; intros z acc; simpl; [reflexivity|]. rewrite IH. simpl. lia. Qed.

(** Reading back [n] digits gives [z] modulo [16^n]. *)
Lemma parse_hex_of n z acc a :
  parse_hex (hex_of n z acc) a = parse_hex acc (a * 16 ^ Z.of_nat n + z mod 16 ^ Z.of_nat n)%Z.
Proof.
  revert z acc a. induction n as [|n IH]; intros z acc a; simpl hex_of.
  - f_equal. rewrite Z.mod_1_r. lia.
  - assert (L : (Z.land z 15 = z mod 16)%Z) by (apply (Z.land_ones z 4); lia).
    rewrite IH. simpl. rewrite L, hex_digit_val by (apply Z.mod_pos_bound; lia).
    f_equal. rewrite Z.shiftr_div_pow2 by lia. change (2 ^ 4)%Z with 16%Z.
    change (Z.pow_pos 16 (Pos.of_succ_nat n)) with (16 ^ Z.of_nat (S n))%Z.
    rewrite Nat2Z.inj_succ, Z.pow_succ_r by lia.
    rewrite Z.rem_mul_r by (try apply Z.pow_pos_nonneg; lia).
    ring.
Qed.

Lemma bool_cmp_antisym a b : bool_cmp b a = CompOpp (bool_cmp a b).
Proof. destruct a, b; reflexivity. Qed.

Lemma rank_cmp_antisym a b : Nat.compare (rank b) (rank a) = CompOpp (Nat.compare (rank a) (rank b)).
Proof. apply Nat.compare_antisym. Qed.

Lemma CompOpp_eq_inv c : CompOpp c = Eq -> c = Eq.
Proof. destruct c; easy. Qed.

(** The comparison is antisymmetric, hence a total preorder's [<=] is
    total. *)
Lemma bson_cmp_antisym a b : bson_cmp b a = CompOpp (bson_cmp a b).
Proof.
  revert b. induction a as [| x | x | x | x | d Hd] using bval_ind'; intros [| y | y | y | y | e];
    cbn [bson_cmp];
    first [ reflexivity | apply rank_cmp_antisym | apply bool_cmp_antisym
          | apply Qcompare_antisym | apply String.compare_antisym | apply Z.compare_antisym | idtac ].
  revert e. induction Hd as [|[k1 v1] x Hv Hx IH]; intros [|[k2 v2] y]; try reflexivity.
  cbn [snd] in Hv. rewrite (rank_cmp_antisym v1 v2), (String.compare_antisym k2 k1), (Hv v2).
  destruct (Nat.compare _ _); try reflexivity. cbn.
  destruct (String.compare k1 k2); try reflexivity. cbn.
  destruct (bson_cmp v1 v2); try reflexivity. apply IH.
Qed.

Lemma string_compare_refl s : String.compare s s = Eq.
Proof. induction s as [|c s IH]; simpl; [reflexivity|]. unfold Ascii.compare. now rewrite N.compare_refl. Qed.

(** A model dump stores the user's id as a string. *)
Lemma scan_dump_user_id h : doc_get "user_id" (scan_dump h) = Some (BStr (oid_str (sh_user_id h))).
Proof. reflexivity. Qed.

Lemma bson_cmp_str_eq v s : bson_cmp v (BStr s) = Eq <-> v = BStr s.
Proof.
  destruct v; cbn [bson_cmp]; split; try discriminate; try (intros E; inv E; fail).
  - intros E. apply String.compare_eq_iff in E. now subst.
  - intros E. inv E. apply string_compare_refl.
Qed.

Lemma bson_cmp_oid_eq v o : bson_cmp v (BOid o) = Eq <-> v = BOid o.
Proof.
  destruct v; cbn [bson_cmp]; split; try discriminate; try (intros E; inv E; fail).
  - intros E. apply Z.compare_eq_iff in E. now subst.
  - intros E. inv E. apply Z.compare_refl.
Qed.

(** A query on a string or an [ObjectId] matches exactly the documents
    holding that value. *)
Lemma field_eq_str k s d : field_eq k (BStr s) d = true <-> doc_get k d = Some (BStr s).
Proof.
  unfold field_eq. destruct (doc_get k d) as [v|]; [|split; discriminate].
  split; intros E.
  - destruct (bson_cmp v (BStr s)) eqn:C; try discriminate. apply bson_cmp_str_eq in C. congruence.
  - inv E. now rewrite (proj2 (bson_cmp_str_eq _ _) eq_refl).
Qed.

Lemma field_eq_oid k o d : field_eq k (BOid o) d = true <-> doc_get k d = Some (BOid o).
Proof.
  unfold field_eq. destruct (doc_get k d) as [v|]; [|split; discriminate].
  split; intros E.
  - destruct (bson_cmp v (BOid o)) eqn:C; try discriminate. apply bson_cmp_oid_eq in C. congruence.
  - inv E. now rewrite (proj2 (bson_cmp_oid_eq _ _) eq_refl).
Qed.

Lemma field_eq_some k v d : field_eq k v d = true -> exists v', doc_get k d = Some v'.
Proof. unfold field_eq. destruct (doc_get k d); [eauto | discriminate]. Qed.

Lemma doc_get_set_eq k v d : doc_get k (doc_set k v d) = Some v.
Proof.
  induction d as [|[k' v'] d IH]; simpl; [now rewrite String.eqb_refl|].
  destruct (String.eqb k k') eqn:E; simpl; rewrite ?E; [reflexivity | exact IH].
Qed.

Lemma doc_get_set_ne k k' v d : k <> k' -> doc_get k (doc_set k' v d) = doc_get k d.
Proof.
  intros Hne. induction d as [|[j w] d IH]; simpl.
  - apply String.eqb_neq in Hne. now rewrite Hne.
  - destruct (String.eqb k' j) eqn:E; simpl.
    + apply String.eqb_eq in E. subst j. apply String.eqb_neq in Hne. now rewrite Hne.
    + now rewrite IH.
Qed.

#[export] Hint Rewrite doc_get_set_eq : pyrw.

Lemma oid_str_length o : String.length (oid_str o) = 24%nat.
Proof. unfold oid_str. now rewrite hex_of_length. Qed.

(** [C32] Round trip: an [ObjectId] written as [str(oid)] is read back by
    [validate_object_id] as the same [ObjectId]. *)
Theorem validate_oid_str_roundtrip o :
  oid_wf o -> validate_object_id (AStr (oid_str o)) = Ok o.
Proof.
  intros Hwf. unfold validate_object_id, is_valid, any_falsy, ObjectId_new.
  rewrite oid_str_length. cbn [Nat.eqb].
  destruct (String.eqb (oid_str o) "") eqn:E.
  - apply String.eqb_eq in E. pose proof (oid_str_length o) as L. rewrite E in L. discriminate L.
  - unfold oid_str. rewrite parse_hex_of. cbn [parse_hex].
    change (16 ^ Z.of_nat 24)%Z with (2 ^ 96)%Z. rewrite Z.mod_small by exact Hwf. reflexivity.
Qed.

Lemma validate_oid_str_roundtrip_witness :
  oid_wf 31415926535897932384626433%Z /\
  validate_object_id (AStr (oid_str 31415926535897932384626433%Z)) = Ok 31415926535897932384626433%Z.
Proof.
  assert (H : oid_wf 31415926535897932384626433%Z) by (unfold oid_wf; lia).
  split; [exact H | exact (validate_oid_str_roundtrip _ H)].
Defined.

End Bson.
