(* ===== verification/Mongo.v ===== *)
(** * The MongoDB collections the routers use (src/backend/database.py)

    [db = client["ocr_system"]] holds two collections, [users] and
    [history]; [DB] is their contents in natural (insertion) order, with
    the counter from which [ObjectId()] draws fresh identifiers.

    The operations are Motor's, each one atomic on the server:
    - [find_one(filter)]: the first document in natural order matching
      every field of the filter ([find_one]);
    - [insert_one(doc)]: pymongo adds ["_id"] (a fresh [ObjectId]) in
      front of a document that has none; the unique index on ["_id"]
      rejects a duplicate with [DuplicateKeyError] ([insert_one]);
    - [delete_one(filter)]: removes the first matching document and
      reports [deleted_count] ([delete_one]);
    - [find(filter).sort(key, -1).to_list(n)]: the matching documents,
      sorted by [key] descending, the first [n] ([find_sort_list]).
      MongoDB does not fix the order of documents with equal keys; the sort
      is the [Cursor] interface, and [SortContract] is all a client may
      assume of it (a permutation, ordered by the key).  [insertion_cursor]
      is one implementation.

    A request handler is a coroutine ([Co]): [Ret r] has finished with
    [r], [Yield k] is suspended at an [await] whose operation [k] performs
    on the database.  [run] executes one handler alone; [interleave] runs
    two under a schedule that says which one advances at each [await], as
    the asyncio event loop may. *)

From Stdlib Require Import List String ZArith QArith Bool Lia Permutation Sorted.
From S2P Require Import Prelude Bson.
Import ListNotations Bson.
Local Open Scope string_scope.
#[local] Set Warnings "-register-all".

Module Mongo.

Definition collection := list doc.

(** A filter [{k1: v1, ...}]. *)
Definition filter := list (string * bval).

Definition matches (f : filter) (d : doc) : bool :=
  forallb (fun kv => field_eq (fst kv) (snd kv) d) f.

Fixpoint find_one (f : filter) (c : collection) : option doc :=
  match c with
  | [] => None
  | d :: rest => if matches f d then Some d else find_one f rest
  end.

Inductive MErr :=
| HTTPException (status : Z) (detail : string)
| DuplicateKeyError
| KeyError (key : string)
| ValidationError (field : string)
(** [None[k]], and a password hash that is not a string *)
| TypeError
(** [str(v)] of a value other than a string or an [ObjectId] *)
| ReprNotModelled.

Record DB := {
  users : collection;
  history : collection;
  next_oid : Z
}.

(** [ObjectId()] *)
Definition fresh_oid (db : DB) : ObjectId * DB :=
  (next_oid db, {| users := users db; history := history db; next_oid := next_oid db + 1 |}%Z).

Definition set_users (c : collection) (db : DB) : DB :=
  {| users := c; history := history db; next_oid := next_oid db |}.

(** [insert_one(d)] on [c]: the inserted id and the new collection. *)
Definition insert_one (d : doc) (c : collection) (db : DB) : exn MErr (bval * collection) * DB :=
  let '(id, d', db') :=
    match doc_get "_id" d with
    | Some v => (v, d, db)
    | None => let (o, db') := fresh_oid db in (BOid o, ("_id", BOid o) :: d, db')
    end in
  match find_one [("_id", id)] c with
  | Some _ => (Raise DuplicateKeyError, db')
  | None => (Ok (id, (c ++ [d'])%list), db')
  end.

(** [delete_one(f)]: the new collection and [deleted_count]. *)
Fixpoint delete_one (f : filter) (c : collection) : collection * nat :=
  match c with
  | [] => ([], 0%nat)
  | d :: rest =>
      if matches f d then (rest, 1%nat)
      else let (c', n) := delete_one f rest in (d :: c', n)
  end.

(** ** Sorting a cursor *)

Class Cursor := {
  (** [.sort(key, -1)] *)
  sort_desc : string -> list doc -> list doc
}.

(** [a] may precede [b] in a sort on [key] descending. *)
Definition key_ge (key : string) (a b : doc) : Prop :=
  bson_cmp (sort_key key a) (sort_key key b) <> Lt.

Definition SortContract (srt : string -> list doc -> list doc) : Prop :=
  forall key l, Permutation (srt key l) l /\ Sorted (key_ge key) (srt key l).

(** [find(f).sort(key, -1).to_list(n)] *)
Definition find_sort_list `{Cursor} (f : filter) (key : string) (n : nat) (c : collection)
  : list doc :=
  firstn n (sort_desc key (List.filter (matches f) c)).

(** A stable insertion sort. *)
Fixpoint insert_desc (key : string) (x : doc) (l : list doc) : list doc :=
  match l with
  | [] => [x]
  | y :: r =>
      match bson_cmp (sort_key key x) (sort_key key y) with
      | Lt => y :: insert_desc key x r
      | _ => x :: y :: r
      end
  end.

Fixpoint insertion_sort_desc (key : string) (l : list doc) : list doc :=
  match l with
  | [] => []
  | x :: r => insert_desc key x (insertion_sort_desc key r)
  end.

Definition insertion_cursor : Cursor := {| sort_desc := insertion_sort_desc |}.

(** ** Handlers as coroutines *)

Inductive Co (A : Type) :=
| Ret (r : exn MErr A)
| Yield (k : DB -> Co A * DB).
Arguments Ret {A} r.
Arguments Yield {A} k.

(** [x = await op; k x] *)
Definition await {A B} (op : DB -> B * DB) (k : B -> Co A) : Co A :=
  Yield (fun db => let (b, db') := op db in (k b, db')).

(** A read that does not change the database. *)
Definition read {B} (f : DB -> B) (db : DB) : B * DB := (f db, db).

(** Run one handler alone, one [await] per unit of fuel. *)
Fixpoint run {A} (fuel : nat) (p : Co A) (db : DB) : option (exn MErr A * DB) :=
  match p with
  | Ret r => Some (r, db)
  | Yield k =>
      match fuel with
      | O => None
      | S fuel' => let (p', db') := k db in run fuel' p' db'
      end
  end.

(** Two handlers under a schedule: [true] advances the first, [false] the
    second; a finished handler's turn is skipped.  The results once both
    have finished. *)
Fixpoint interleave {A B} (sched : list bool) (p : Co A) (q : Co B) (db : DB)
  : option (exn MErr A * exn MErr B * DB) :=
  match p, q with
  | Ret r1, Ret r2 => Some (r1, r2, db)
  | _, _ =>
      match sched with
      | [] => None
      | true :: s =>
          match p with
          | Yield k => let (p', db') := k db in interleave s p' q db'
          | Ret _ => interleave s p q db
          end
      | false :: s =>
          match q with
          | Yield k => let (q', db') := k db in interleave s p q' db'
          | Ret _ => interleave s p q db
          end
      end
  end.

(** ** Lemmas *)

Lemma find_one_some f c d : find_one f c = Some d -> In d c /\ matches f d = true.
Proof.
  induction c as [|d' c IH]; simpl; [discriminate|].
  destruct (matches f d') eqn:M; [intros E; inv E; auto | intros E; destruct (IH E); auto].
Qed.

Lemma find_one_none f c : find_one f c = None -> forall d, In d c -> matches f d = false.
Proof.
  induction c as [|d' c IH]; simpl; [tauto|].
  destruct (matches f d') eqn:M; [discriminate|]. intros E d [<-|Hd]; auto.
Qed.

Lemma find_one_none_intro f c : (forall d, In d c -> matches f d = false) -> find_one f c = None.
Proof.
  induction c as [|d c IH]; simpl; intros H; [reflexivity|].
  rewrite H by (left; reflexivity). apply IH. intros d' Hd'. apply H. now right.
Qed.

Lemma delete_one_none f c : (forall d, In d c -> matches f d = false) -> delete_one f c = (c, 0%nat).
Proof.
  induction c as [|d c IH]; simpl; intros H; [reflexivity|].
  rewrite H by (left; reflexivity). rewrite IH; [reflexivity|]. intros d' Hd'. apply H. now right.
Qed.

(** [delete_one] removes nothing, or exactly the first match. *)
Lemma delete_one_cases f c c' n :
  delete_one f c = (c', n) ->
  (n = 0%nat /\ c' = c /\ forall d, In d c -> matches f d = false) \/
  (n = 1%nat /\ exists pre d post, c = (pre ++ d :: post)%list /\ c' = (pre ++ post)%list /\
     matches f d = true /\ forall x, In x pre -> matches f x = false).
Proof.
  revert c' n. induction c as [|d c IH]; intros c' n; simpl.
  - intros E. inv E. left. split; [reflexivity | split; [reflexivity | tauto]].
  - destruct (matches f d) eqn:M.
    + intros E. injection E as <- <-. right. split; [reflexivity|]. exists [], d, c. simpl. tauto.
    + destruct (delete_one f c) as [c0 n0] eqn:D. intros E. injection E as <- <-.
      destruct (IH _ _ eq_refl) as [(-> & -> & H) | (-> & pre & x & post & -> & -> & Mx & Hpre)].
      * left. split; [reflexivity | split; [reflexivity|]]. intros d' [<-|Hd']; auto.
      * right. split; [reflexivity|]. exists (d :: pre), x, post. simpl.
        split; [reflexivity | split; [reflexivity | split; [exact Mx|]]].
        intros y [<-|Hy]; auto.
Qed.

Lemma find_one_app_none f c1 c2 : find_one f c1 = None -> find_one f (c1 ++ c2)%list = find_one f c2.
Proof. induction c1 as [|d c1 IH]; simpl; [auto|]. destruct (matches f d); [discriminate | auto]. Qed.

Lemma matches_single k v d : matches [(k, v)] d = field_eq k v d.
Proof. unfold matches. simpl. apply andb_true_r. Qed.

Lemma key_ge_flip key a b :
  bson_cmp (sort_key key a) (sort_key key b) = Lt -> key_ge key b a.
Proof. unfold key_ge. intros E. rewrite bson_cmp_antisym, E. discriminate. Qed.

Lemma insert_desc_perm key x l : Permutation (insert_desc key x l) (x :: l).
Proof.
  induction l as [|y l IH]; simpl; [reflexivity|].
  destruct (bson_cmp _ _); try reflexivity.
  rewrite IH. apply perm_swap.
Qed.

Lemma insert_desc_hdrel key x y l :
  HdRel (key_ge key) y l -> key_ge key y x -> HdRel (key_ge key) y (insert_desc key x l).
Proof.
  destruct l as [|z l]; simpl; intros H Hyx; [constructor; exact Hyx|].
  destruct (bson_cmp _ _); constructor; try exact Hyx. now inversion H.
Qed.

Lemma insert_desc_sorted key x l :
  Sorted (key_ge key) l -> Sorted (key_ge key) (insert_desc key x l).
Proof.
  induction 1 as [|y l Hl IH Hy]; simpl; [repeat constructor|].
  destruct (bson_cmp _ _) eqn:E.
  - constructor; [constructor; assumption | constructor; unfold key_ge; congruence].
  - constructor; [exact IH | apply insert_desc_hdrel; [exact Hy | apply key_ge_flip, E]].
  - constructor; [constructor; assumption | constructor; unfold key_ge; congruence].
Qed.

Lemma insertion_sort_contract : SortContract insertion_sort_desc.
Proof.
  intros key l. induction l as [|x l [IHp IHs]]; simpl; [split; constructor|].
  split.
  - rewrite insert_desc_perm. constructor. exact IHp.
  - apply insert_desc_sorted. exact IHs.
Qed.

(** A handler that finishes with some fuel finishes with the same result
    with any other fuel that suffices. *)
Lemma run_det {A} n m (p : Co A) db x y : run n p db = Some x -> run m p db = Some y -> x = y.
Proof.
  revert m p db. induction n as [|n IH]; intros m [r|k] db; destruct m; simpl; try congruence.
  destruct (k db). apply IH.
Qed.

Section FindSort.
Context `{Cursor} (Hsort : SortContract sort_desc).

Lemma find_sort_list_in f key n c d :
  In d (find_sort_list f key n c) -> In d c /\ matches f d = true.
Proof.
  unfold find_sort_list. intros Hd.
  assert (Hd' : In d (sort_desc key (List.filter (matches f) c))).
  { rewrite <- (firstn_skipn n (sort_desc _ _)). apply in_or_app. now left. }
  clear Hd. rename Hd' into Hd.
  apply (Permutation_in _ (proj1 (Hsort key _))), filter_In in Hd. exact Hd.
Qed.

Lemma find_sort_list_sorted f key n c : Sorted (key_ge key) (find_sort_list f key n c).
Proof.
  unfold find_sort_list. destruct (Hsort key (List.filter (matches f) c)) as [_ Hs].
  revert Hs. generalize (sort_desc key (List.filter (matches f) c)). intros l Hs.
  revert n. induction Hs as [|x l Hl IH Hx]; intros [|n]; simpl; try constructor.
  - apply IH.
  - destruct Hx as [|y l' Hxy]; destruct n; simpl; constructor; exact Hxy.
Qed.

Lemma find_sort_list_length f key n c : (List.length (find_sort_list f key n c) <= n)%nat.
Proof. unfold find_sort_list. rewrite length_firstn. lia. Qed.

(** Nothing is returned exactly when nothing matches. *)
Lemma find_sort_list_nil f key n c :
  (0 < n)%nat -> find_sort_list f key n c = [] <-> List.filter (matches f) c = [].
Proof.
  unfold find_sort_list. intros Hn. destruct (Hsort key (List.filter (matches f) c)) as [Hp _].
  split; intros E.
  - destruct (sort_desc key _) eqn:S; [apply Permutation_nil, Hp|].
    destruct n; [lia | discriminate E].
  - rewrite E in Hp |- *. apply Permutation_sym, Permutation_nil in Hp. rewrite Hp. apply firstn_nil.
Qed.

(** Under the limit, the answer is every matching document. *)
Lemma find_sort_list_perm f key n c :
  (List.length (List.filter (matches f) c) <= n)%nat ->
  Permutation (find_sort_list f key n c) (List.filter (matches f) c).
Proof.
  unfold find_sort_list. intros Hle. destruct (Hsort key (List.filter (matches f) c)) as [Hp _].
  rewrite firstn_all2 by (rewrite (Permutation_length Hp); exact Hle). exact Hp.
Qed.
End FindSort.

End Mongo.
