(* ===== verification/Users.v ===== *)
(** * The users router (src/backend/routers/users.py)

    Four handlers over the [users] collection: [register] (lines 11-31),
    [login_for_access_token] (lines 33-52), [delete_user] (lines 54-59)
    and [read_users_me] (lines 61-67).  Each is a coroutine of [Mongo.Co]
    with one [Yield] per [await db.users....], so that two requests can be
    interleaved the way the event loop interleaves them.

    The router imports [..auth] and [..schemas], which the repository
    does not contain; password hashing and token creation are the [Auth]
    interface, and the request and response models are records with the
    fields the handlers use.  [get_current_user] is a dependency the
    handlers receive as the user's document.

    [register] dumps the model with [exclude=["id"]], a list where
    pydantic's annotation ([IncEx]) names a set or a dict.  At run time
    pydantic-core accepts any iterable of field names there and raises
    [TypeError("`exclude` argument must be a set or dict.")] only for a
    value that is not one (checked with pydantic 2.13.4 and pydantic-core
    2.46.4: [exclude=["id"]], [("id",)] and [{"id"}] all drop the field,
    [exclude=5] raises).  So the dump succeeds and [insert_one] runs, as
    [insert_user] models it. *)

From Stdlib Require Import List String ZArith QArith Bool Lia.
From S2P Require Import Prelude Bson Mongo.
Import ListNotations Bson Mongo.
Local Open Scope string_scope.
Local Open Scope py_scope.

Module Users.

(** [from ..auth import get_password_hash, verify_password, create_access_token] *)
Class Auth := {
  get_password_hash : string -> string;
  (** [verify_password(plain, hashed)] *)
  verify_password : string -> string -> bool;
  (** [create_access_token(data={"sub": sub}, expires_delta=...)] *)
  create_access_token : bval -> string
}.

(** [schemas.UserCreate] *)
Record UserCreate := { uc_username : string; uc_email : string; uc_password : string }.

(** [schemas.UserResponse] *)
Record UserResponse := { ur_id : string; ur_username : string; ur_email : string }.

(** [{"access_token": ..., "token_type": "bearer"}] *)
Record Token := { access_token : string; token_type : string }.

(** [str(v)] *)
Definition py_str (v : bval) : exn MErr string :=
  match v with
  | BOid o => Ok (oid_str o)
  | BStr s => Ok s
  | _ => Raise ReprNotModelled
  end.

(** [d[k]] *)
Definition doc_index (k : string) (d : doc) : exn MErr bval :=
  match doc_get k d with Some v => Ok v | None => Raise (KeyError k) end.

(** [d[k]] passed to a [str] field of a response model *)
Definition str_field (k : string) (d : doc) : exn MErr string :=
  let* v := doc_index k d in
  match v with BStr s => Ok s | _ => Raise (ValidationError k) end.

(** [if doc:] on the result of [find_one] *)
Definition found (r : option doc) : option doc :=
  match r with Some (_ :: _) => r | _ => None end.

(** [UserResponse(id=str(d["_id"]), username=d["username"], email=d["email"])] *)
Definition user_response (d : doc) : exn MErr UserResponse :=
  let* i := doc_index "_id" d in
  let* i := py_str i in
  let* u := str_field "username" d in
  let* e := str_field "email" d in
  Ok {| ur_id := i; ur_username := u; ur_email := e |}.

Definition find_user (f : filter) : DB -> option doc * DB :=
  read (fun db => find_one f (users db)).

(** [UserModel(...)] draws an [ObjectId] for its [id] (excluded from the
    dump), then [insert_one] draws the stored ["_id"]. *)
Definition insert_user (um : ObjectId -> UserModel) (db : DB) : exn MErr bval * DB :=
  let (model_id, db1) := fresh_oid db in
  match insert_one (user_dump (um model_id)) (users db1) db1 with
  | (Ok (id, c), db2) => (Ok id, set_users c db2)
  | (Raise e, db2) => (Raise e, db2)
  end.

Section Handlers.
Context {AU : Auth}.

(** [register] (lines 11-31) *)
Definition register (user : UserCreate) : Co UserResponse :=
  await (find_user [("email", BStr (uc_email user))]) (fun existing_user =>
  match found existing_user with
  | Some _ => Ret (Raise (HTTPException 400 "Email already registered"))
  | None =>
      let hashed_password := get_password_hash (uc_password user) in
      await (insert_user (fun id => {| um_id := id; um_username := uc_username user;
                                       um_email := uc_email user;
                                       um_hashed_password := hashed_password |}))
        (fun new_user =>
         match new_user with
         | Raise e => Ret (Raise e)
         | Ok inserted_id =>
             await (find_user [("_id", inserted_id)]) (fun created_user =>
             match created_user with
             | None => Ret (Raise TypeError)
             | Some d => Ret (user_response d)
             end)
         end)
  end).

(** The check after the lookups: [if not user or not verify_password(...)]. *)
Definition check_password (password : string) (user : option doc) : exn MErr Token :=
  match found user with
  | None => Raise (HTTPException 401 "Incorrect username or password")
  | Some d =>
      let* h := doc_index "hashed_password" d in
      match h with
      | BStr h =>
          if verify_password password h then
            let* sub := doc_index "email" d in
            Ok {| access_token := create_access_token sub; token_type := "bearer" |}
          else Raise (HTTPException 401 "Incorrect username or password")
      | _ => Raise TypeError
      end
  end.

(** [login_for_access_token] (lines 33-52): the form's [username] is
    looked up as an email first, then as a username. *)
Definition login_for_access_token (username password : string) : Co Token :=
  await (find_user [("email", BStr username)]) (fun user =>
  match found user with
  | Some _ => Ret (check_password password user)
  | None =>
      await (find_user [("username", BStr username)]) (fun user =>
      Ret (check_password password user))
  end).

Definition delete_users (f : filter) (db : DB) : nat * DB :=
  let (c, n) := delete_one f (users db) in (n, set_users c db).

(** [delete_user] (lines 54-59) *)
Definition delete_user (current_user : doc) : Co string :=
  match doc_index "_id" current_user with
  | Raise e => Ret (Raise e)
  | Ok id =>
      await (delete_users [("_id", id)]) (fun deleted_count =>
      if Nat.eqb deleted_count 1 then Ret (Ok "User deleted successfully")
      else Ret (Raise (HTTPException 404 "User not found")))
  end.

(** [read_users_me] (lines 61-67) *)
Definition read_users_me (current_user : doc) : Co UserResponse :=
  Ret (user_response current_user).
End Handlers.

(** ** Invariants of the collection *)

(** The email of a stored user. *)
Definition email_of (d : doc) : option bval := doc_get "email" d.

Definition emails_unique (db : DB) : Prop := NoDup (map email_of (users db)).

(** Every stored ["_id"] is an [ObjectId] below the counter. *)
Definition ids_below (db : DB) : Prop :=
  forall d, In d (users db) -> exists o, doc_get "_id" d = Some (BOid o) /\ (o < next_oid db)%Z.

(** No two stored users share an ["_id"] (the unique index on ["_id"]). *)
Definition ids_unique (db : DB) : Prop := NoDup (map (doc_get "_id") (users db)).

Section Registered.
Context {AU : Auth}.

(** The document [register] stores on a fresh email: [UserModel] took
    [next_oid], [insert_one] took [next_oid + 1]. *)
Definition new_user_doc (user : UserCreate) (db : DB) : doc :=
  ("_id", BOid (next_oid db + 1)%Z) ::
  user_dump {| um_id := next_oid db; um_username := uc_username user; um_email := uc_email user;
               um_hashed_password := get_password_hash (uc_password user) |}.

Definition after_register (user : UserCreate) (db : DB) : DB :=
  {| users := users db ++ [new_user_doc user db]; history := history db;
     next_oid := next_oid db + 1 + 1 |}%list%Z.
End Registered.

(** ** Scenario inputs

    A password "hash" that prefixes ["h$"], and a collection holding
    [alice] (id 3) and [bob] (id 4), whose username is [alice]'s email. *)
Definition plain_auth : Auth := {|
  get_password_hash p := "h$" ++ p;
  verify_password p h := String.eqb ("h$" ++ p) h;
  create_access_token sub := match sub with BStr s => "tok:" ++ s | _ => "tok" end
|}.

Definition alice_doc : doc :=
  [("_id", BOid 3%Z); ("username", BStr "alice"); ("email", BStr "bob");
   ("hashed_password", BStr "h$a")].

Definition bob_doc : doc :=
  [("_id", BOid 4%Z); ("username", BStr "bob"); ("email", BStr "b@example.com");
   ("hashed_password", BStr "h$b")].

Definition db0 : DB := {| users := [alice_doc; bob_doc]; history := []; next_oid := 10%Z |}.

Definition carol : UserCreate :=
  {| uc_username := "carol"; uc_email := "carol@example.com"; uc_password := "c" |}.
Definition carol2 : UserCreate :=
  {| uc_username := "carol2"; uc_email := "carol@example.com"; uc_password := "d" |}.

(** ** Lemmas *)

Lemma matches_single_nonempty k v d : matches [(k, v)] d = true -> d <> [].
Proof. rewrite matches_single. intros H ->. discriminate H. Qed.

(** A document found by a field is never the empty dict. *)
Lemma found_find_one k v c : found (find_one [(k, v)] c) = find_one [(k, v)] c.
Proof.
  destruct (find_one _ c) as [d|] eqn:E; [|reflexivity].
  apply find_one_some in E as [_ M]. apply matches_single_nonempty in M.
  destruct d; [contradiction | reflexivity].
Qed.

Lemma ids_find_fresh db o :
  ids_below db -> (next_oid db <= o)%Z -> find_one [("_id", BOid o)] (users db) = None.
Proof.
  intros Hid Ho. apply find_one_none_intro. intros d Hd. rewrite matches_single.
  destruct (field_eq _ _ d) eqn:E; [|reflexivity]. apply field_eq_oid in E.
  destruct (Hid d Hd) as (o' & Hg & Hlt). rewrite Hg in E. inv E. lia.
Qed.

Lemma oid_match_eq i o d :
  doc_get "_id" d = Some (BOid o) -> matches [("_id", i)] d = true -> i = BOid o.
Proof.
  intros Hg M. rewrite matches_single in M. unfold field_eq in M. rewrite Hg in M.
  destruct (bson_cmp (BOid o) i) eqn:C; try discriminate.
  rewrite bson_cmp_antisym in C. apply CompOpp_eq_inv, bson_cmp_oid_eq in C. exact C.
Qed.

(** Once the document with a unique [ObjectId] is removed, nothing else
    matches it. *)
Lemma no_match_after_delete pre d post i :
  NoDup (map (doc_get "_id") (pre ++ d :: post)) ->
  (forall x, In x (pre ++ d :: post) -> exists o, doc_get "_id" x = Some (BOid o)) ->
  matches [("_id", i)] d = true ->
  forall x, In x (pre ++ post) -> matches [("_id", i)] x = false.
Proof.
  intros Hn Hb Md x Hx. destruct (matches _ x) eqn:Mx; [|reflexivity]. exfalso.
  destruct (Hb d) as (o & Ho); [apply in_or_app; right; now left|].
  destruct (Hb x) as (o' & Ho'); [apply in_app_or in Hx as [H|H]; apply in_or_app; [left|right; right]; exact H|].
  pose proof (oid_match_eq _ _ _ Ho Md) as ->. pose proof (oid_match_eq _ _ _ Ho' Mx) as E. inv E.
  rewrite map_app in Hn. cbn [map] in Hn. apply NoDup_remove_2 in Hn. apply Hn.
  rewrite <- map_app, Ho, <- Ho'. apply in_map. exact Hx.
Qed.

Section UserProofs.
Context {AU : Auth}.

Lemma insert_user_fresh user db :
  ids_below db ->
  insert_user (fun id => {| um_id := id; um_username := uc_username user; um_email := uc_email user;
                            um_hashed_password := get_password_hash (uc_password user) |}) db
  = (Ok (BOid (next_oid db + 1)%Z), after_register user db).
Proof.
  intros Hid. unfold insert_user, insert_one, fresh_oid. cbn -[find_one].
  rewrite (ids_find_fresh db) by (assumption || lia). reflexivity.
Qed.

Lemma find_new_user user db rest :
  ids_below db ->
  find_one [("_id", BOid (next_oid db + 1)%Z)] (users db ++ new_user_doc user db :: rest)%list
  = Some (new_user_doc user db).
Proof.
  intros Hid. rewrite find_one_app_none by (apply ids_find_fresh; [assumption | lia]).
  simpl. unfold matches, field_eq. simpl. now rewrite Z.compare_refl.
Qed.

Lemma email_absent e c :
  find_one [("email", BStr e)] c = None -> ~ In (Some (BStr e)) (map email_of c).
Proof.
  intros Hf Hin. apply in_map_iff in Hin as (d & He & Hd).
  pose proof (find_one_none _ _ Hf d Hd) as M. rewrite matches_single in M.
  apply (proj2 (field_eq_str "email" e d)) in He. congruence.
Qed.
Lemma find_new_user_email user db :
  find_one [("email", BStr (uc_email user))] (users db) = None ->
  find_one [("email", BStr (uc_email user))] (users db ++ [new_user_doc user db])%list
  = Some (new_user_doc user db).
Proof.
  intros Hf. rewrite find_one_app_none by exact Hf.
  simpl. unfold matches, field_eq. simpl. now rewrite string_compare_refl.
Qed.

Lemma emails_unique_snoc c d e :
  NoDup (map email_of c) -> find_one [("email", BStr e)] c = None -> email_of d = Some (BStr e) ->
  NoDup (map email_of (c ++ [d])).
Proof.
  intros Hn Hf He. rewrite map_app. simpl.
  apply (Permutation.Permutation_NoDup (Permutation.Permutation_cons_append _ _)).
  constructor; [rewrite He; exact (email_absent e c Hf) | exact Hn].
Qed.

Lemma ids_below_register user db : ids_below db -> ids_below (after_register user db).
Proof.
  intros Hid d Hd. cbn [users after_register next_oid] in *.
  apply in_app_or in Hd as [Hd | [<- | []]].
  - destruct (Hid d Hd) as (o & Hg & Ho). exists o. split; [exact Hg | lia].
  - eexists. split; [reflexivity | lia].
Qed.

(** The run of [register] on a fresh email. *)
Lemma register_fresh_run user db :
  ids_below db -> find_one [("email", BStr (uc_email user))] (users db) = None ->
  run 3 (register user) db =
  Some (Ok {| ur_id := oid_str (next_oid db + 1)%Z; ur_username := uc_username user;
              ur_email := uc_email user |}, after_register user db).
Proof.
  intros Hid Hf. unfold register, await, find_user, read. cbn [run]. rewrite Hf.
  cbn [found]. rewrite insert_user_fresh by exact Hid. cbn [run users after_register].
  rewrite find_new_user by exact Hid. reflexivity.
Qed.

(** The run of [register] on a stored email. *)
Lemma register_dup_run user db d :
  find_one [("email", BStr (uc_email user))] (users db) = Some d ->
  run 1 (register user) db = Some (Raise (HTTPException 400 "Email already registered"), db).
Proof.
  intros Hf. unfold register, await, find_user, read. cbn [run].
  pose proof (found_find_one "email" (BStr (uc_email user)) (users db)) as Fd.
  rewrite Hf in Fd. rewrite Hf, Fd. reflexivity.
Qed.

(** [C23] Run alone, [register] keeps the two invariants of the [users]
    collection: emails are unique and every ["_id"] is an [ObjectId]
    below the counter. *)
Theorem register_preserves_invariants user db fuel r db' :
  emails_unique db -> ids_below db -> run fuel (register user) db = Some (r, db') ->
  emails_unique db' /\ ids_below db'.
Proof.
  intros Hu Hid Hr.
  destruct (find_one [("email", BStr (uc_email user))] (users db)) as [d|] eqn:Hf.
  - pose proof (run_det _ _ _ _ _ _ Hr (register_dup_run user db d Hf)) as E.
    inv E. split; assumption.
  - pose proof (run_det _ _ _ _ _ _ Hr (register_fresh_run user db Hid Hf)) as E.
    inv E. split; [|apply ids_below_register, Hid].
    apply (emails_unique_snoc _ _ (uc_email user)); [exact Hu | exact Hf | reflexivity].
Qed.

(** [C22] Registration is not atomic: two requests for the same fresh
    email, interleaved at their [await]s (both lookups before either
    insert), both succeed and leave two users with that email. *)
Theorem concurrent_register_duplicates u1 u2 db :
  uc_email u1 = uc_email u2 -> ids_below db ->
  find_one [("email", BStr (uc_email u1))] (users db) = None ->
  exists r1 r2 db',
    interleave [true; false; true; false; true; false] (register u1) (register u2) db
    = Some (Ok r1, Ok r2, db') /\ ~ emails_unique db'.
Proof.
  intros He Hid Hf. pose proof (ids_below_register u1 db Hid) as Hid1.
  pose proof Hf as Hf2. rewrite He in Hf2.
  unfold register at 1 2, await, find_user, read. cbn [interleave].
  rewrite Hf, Hf2. cbn [found interleave].
  rewrite insert_user_fresh by exact Hid. cbn [interleave].
  rewrite insert_user_fresh by exact Hid1. cbn [interleave users after_register].
  assert (F2 : find_one [("_id", BOid (next_oid (after_register u1 db) + 1)%Z)]
                 ((users db ++ [new_user_doc u1 db]) ++ [new_user_doc u2 (after_register u1 db)])%list
               = Some (new_user_doc u2 (after_register u1 db)))
    by exact (find_new_user u2 (after_register u1 db) [] Hid1).
  assert (F1 : find_one [("_id", BOid (next_oid db + 1)%Z)]
                 ((users db ++ [new_user_doc u1 db]) ++ [new_user_doc u2 (after_register u1 db)])%list
               = Some (new_user_doc u1 db))
    by (rewrite <- app_assoc; exact (find_new_user u1 db _ Hid)).
  rewrite F1, F2. cbn [interleave].
  do 3 eexists. split; [reflexivity|].
  unfold emails_unique. cbn [users after_register]. rewrite <- app_assoc, !map_app.
  cbn [map]. unfold email_of at 2 3. cbn. rewrite He.
  intros Hn. apply NoDup_remove_2 in Hn. apply Hn, in_or_app. right. now left.
Qed.

(** [C26] The form's [username] is looked up as an email first: when some
    user has that email, only that user's password is checked, and a
    wrong one answers 401 without the username lookup, even if another
    user has that username. *)
Theorem login_email_shadows_username x p db dA hA :
  find_one [("email", BStr x)] (users db) = Some dA ->
  doc_get "hashed_password" dA = Some (BStr hA) -> verify_password p hA = false ->
  run 1 (login_for_access_token x p) db =
  Some (Raise (HTTPException 401 "Incorrect username or password"), db).
Proof.
  intros Hf Hh Hv. pose proof (found_find_one "email" (BStr x) (users db)) as Fd.
  rewrite Hf in Fd. unfold login_for_access_token, await, find_user, read. cbn [run].
  rewrite Hf, Fd. unfold check_password. rewrite Fd. unfold doc_index. rewrite Hh.
  cbn. now rewrite Hv.
Qed.

(** [C27] Deleting the current user twice: when stored ids are unique
    [ObjectId]s, the second [DELETE /users/me] answers 404, whatever the
    first one answered. *)
Theorem delete_user_twice cur i db r db' :
  ids_below db -> ids_unique db -> doc_get "_id" cur = Some i ->
  run 1 (delete_user cur) db = Some (r, db') ->
  run 1 (delete_user cur) db' = Some (Raise (HTTPException 404 "User not found"), db').
Proof.
  intros Hid Hu Hi. unfold delete_user, doc_index, await, delete_users. rewrite Hi. cbn [run].
  destruct (delete_one [("_id", i)] (users db)) as [c n] eqn:D. cbn [run].
  intros E. assert (db' = set_users c db) as -> by (destruct (Nat.eqb n 1); congruence).
  cbn [users set_users]. rewrite delete_one_none; [reflexivity|].
  destruct (delete_one_cases _ _ _ _ D) as [(_ & -> & H) | (_ & pre & d & post & Hc & -> & Md & _)];
    [exact H|].
  unfold ids_unique in Hu. rewrite Hc in Hu.
  apply (no_match_after_delete pre d post i Hu); [|exact Md].
  intros x Hx. rewrite <- Hc in Hx. destruct (Hid x Hx) as (o & Ho & _). eauto.
Qed.

Section VerifiedHash.
Hypothesis verify_hash : forall p, verify_password p (get_password_hash p) = true.

(** Logging in right after registering a fresh email. *)
Lemma login_registered user db :
  find_one [("email", BStr (uc_email user))] (users db) = None ->
  run 1 (login_for_access_token (uc_email user) (uc_password user)) (after_register user db) =
  Some (Ok {| access_token := create_access_token (BStr (uc_email user));
              token_type := "bearer" |}, after_register user db).
Proof.
  intros Hf. unfold login_for_access_token, await, find_user, read. cbn [run users after_register].
  rewrite find_new_user_email by exact Hf. cbn [found new_user_doc user_dump].
  unfold check_password. cbn. now rewrite verify_hash.
Qed.

(** [C25] Round trip: after registering a fresh email, logging in with that
    email and password returns a bearer token for the email. *)
Theorem register_then_login user db :
  ids_below db -> find_one [("email", BStr (uc_email user))] (users db) = None ->
  exists r db', run 3 (register user) db = Some (Ok r, db') /\
    run 1 (login_for_access_token (uc_email user) (uc_password user)) db' =
    Some (Ok {| access_token := create_access_token (BStr (uc_email user));
                token_type := "bearer" |}, db').
Proof.
  intros Hid Hf. do 2 eexists. split; [exact (register_fresh_run user db Hid Hf)|].
  exact (login_registered user db Hf).
Qed.
End VerifiedHash.

End UserProofs.

Lemma ids_below_db0 : ids_below db0.
Proof. intros d [<-|[<-|[]]]; eexists; (split; [reflexivity | simpl; lia]). Qed.

Section UserWitnesses.
#[local] Existing Instance plain_auth.

Lemma register_preserves_invariants_witness :
  emails_unique db0 /\ ids_below db0 /\
  emails_unique (after_register carol db0) /\ ids_below (after_register carol db0).
Proof.
  assert (Hu : emails_unique db0).
  { unfold emails_unique. simpl. repeat constructor; simpl; intuition discriminate. }
  split; [exact Hu | split; [exact ids_below_db0|]].
  exact (register_preserves_invariants carol db0 3 _ _ Hu ids_below_db0
           (register_fresh_run carol db0 ids_below_db0 eq_refl)).
Defined.

Lemma register_then_login_witness :
  (forall p, verify_password p (get_password_hash p) = true) /\
  exists r db', run 3 (register carol) db0 = Some (Ok r, db') /\
    run 1 (login_for_access_token "carol@example.com" "c") db' =
    Some (Ok {| access_token := "tok:carol@example.com"; token_type := "bearer" |}, db').
Proof.
  assert (Hv : forall p, verify_password p (get_password_hash p) = true)
    by (intros p; apply String.eqb_refl).
  split; [exact Hv|].
  exact (register_then_login Hv carol db0 ids_below_db0 eq_refl).
Defined.

Lemma concurrent_register_duplicates_witness :
  uc_email carol = uc_email carol2 /\
  exists r1 r2 db',
    interleave [true; false; true; false; true; false] (register carol) (register carol2) db0
    = Some (Ok r1, Ok r2, db') /\ ~ emails_unique db'.
Proof.
  split; [reflexivity|].
  exact (concurrent_register_duplicates carol carol2 db0 eq_refl ids_below_db0 eq_refl).
Defined.

(** [bob] cannot log in with his username and his own password. *)
Lemma login_email_shadows_username_witness :
  verify_password "b" "h$b" = true /\ find_one [("username", BStr "bob")] (users db0) = Some bob_doc /\
  run 1 (login_for_access_token "bob" "b") db0 =
  Some (Raise (HTTPException 401 "Incorrect username or password"), db0).
Proof.
  split; [reflexivity | split; [reflexivity|]].
  exact (login_email_shadows_username "bob" "b" db0 alice_doc "h$a" eq_refl eq_refl eq_refl).
Defined.

Lemma delete_user_twice_witness :
  ids_unique db0 /\
  run 1 (delete_user alice_doc) (set_users [bob_doc] db0) =
  Some (Raise (HTTPException 404 "User not found"), set_users [bob_doc] db0).
Proof.
  assert (Hu : ids_unique db0) by (unfold ids_unique; simpl; repeat constructor; simpl; intuition discriminate).
  split; [exact Hu|].
  exact (delete_user_twice alice_doc (BOid 3%Z) db0 _ _ ids_below_db0 Hu eq_refl eq_refl).
Defined.
End UserWitnesses.

End Users.
