(* ===== verification/History.v ===== *)
(** * The history router (src/backend/routers/scans.py, lines 67-88)

    [get_history] reads the current user's scan records: the records whose
    ["user_id"] is the user's ["_id"] (an [ObjectId]), newest first by
    ["timestamp"], at most 100; when there are none, the same query with
    the id's string form (records written by older code).  Each record
    gets an ["id"] field holding [str(record["_id"])].

    The handler is a coroutine over [Mongo.DB] with one [Yield] per
    [await ... .to_list(100)]; [await get_database()] returns the global
    handle without suspending and the [print]s are diagnostics, so neither
    is a step.  The sort is the [Cursor] interface: the theorems hold for
    every sort that meets [SortContract], whatever order MongoDB gives to
    records with equal timestamps.  The [analyze_drawing] handler of the
    same file (lines 17-65) is commented out. *)

From Stdlib Require Import List String ZArith QArith Bool Lia Permutation Sorted.
From S2P Require Import Prelude Bson Mongo Users.
Import ListNotations Bson Mongo Users.
Local Open Scope string_scope.
Local Open Scope py_scope.

Module History.

(** [item["id"] = str(item["_id"])] *)
Definition add_id (item : doc) : exn MErr doc :=
  let* i := doc_index "_id" item in
  let* s := py_str i in
  Ok (doc_set "id" (BStr s) item).

(** [for item in history: ...; results.append(item)] *)
Fixpoint add_ids (history : list doc) : exn MErr (list doc) :=
  match history with
  | [] => Ok []
  | item :: rest =>
      let* item' := add_id item in
      let* rest' := add_ids rest in
      Ok (item' :: rest')
  end.

(** [find({"user_id": uid}).sort("timestamp", -1).to_list(100)] *)
Definition find_history `{Cursor} (uid : bval) (db : DB) : list doc * DB :=
  read (fun db => find_sort_list [("user_id", uid)] "timestamp" 100 (history db)) db.

Section Handler.
Context `{Cursor}.

(** [get_history] (lines 67-88) *)
Definition get_history (current_user : doc) : Co (list doc) :=
  match doc_index "_id" current_user with
  | Raise e => Ret (Raise e)
  | Ok uid =>
      await (find_history uid) (fun history =>
      match history with
      | _ :: _ => Ret (add_ids history)
      | [] =>
          match py_str uid with
          | Raise e => Ret (Raise e)
          | Ok s => await (find_history (BStr s)) (fun history => Ret (add_ids history))
          end
      end)
  end.
End Handler.

(** A record belongs to the user with id [uid]: its ["user_id"] is [uid]
    or the string form of [uid]. *)
Definition owned (uid : bval) (d : doc) : bool :=
  field_eq "user_id" uid d ||
  match py_str uid with Ok s => field_eq "user_id" (BStr s) d | Raise _ => false end.

(** The record [d] as returned, with its ["id"]. *)
Definition returned_as (d r : doc) : Prop :=
  exists i s, doc_get "_id" d = Some i /\ py_str i = Ok s /\ r = doc_set "id" (BStr s) d.

(** ** Scenario inputs

    [alice] (id 3) has two records stored with her [ObjectId] and one
    legacy record stored with its string form; [bob] (id 4) has one. *)
Definition scan (i : Z) (uid : bval) (ts : string) : doc :=
  [("_id", BOid i); ("user_id", uid); ("filename", BStr "part.png");
   ("calculated_weight_kg", BNum (85 # 1000)); ("extracted_data", BDoc []);
   ("timestamp", BStr ts)].

Definition hdb : DB := {|
  users := [alice_doc; bob_doc];
  history := [scan 20 (BOid 3) "2025-01-02T10:00:00+00:00";
              scan 21 (BStr (oid_str 3)) "2024-12-31T09:00:00+00:00";
              scan 22 (BOid 4) "2025-02-01T08:00:00+00:00";
              scan 23 (BOid 3) "2025-03-01T12:00:00+00:00"];
  next_oid := 30 |}%Z.

(** The same database before any record used an [ObjectId]. *)
Definition legacy_db : DB := {|
  users := [alice_doc; bob_doc];
  history := [scan 21 (BStr (oid_str 3)) "2024-12-31T09:00:00+00:00"];
  next_oid := 30 |}%Z.

(** What [alice] is shown, with the insertion sort. *)
Definition answer_of (db : DB) : list doc :=
  match run 2 (get_history (H := insertion_cursor) alice_doc) db with
  | Some (Ok r, _) => r
  | _ => []
  end.

(** ** Lemmas *)

Lemma add_ids_spec l r : add_ids l = Ok r -> Forall2 returned_as l r.
Proof.
  revert r. induction l as [|d l IH]; simpl; intros r E; [inv E; constructor|].
  exn_split. inv Hk0. constructor; [|apply IH, Ha0].
  unfold add_id, doc_index in Ha. destruct (doc_get "_id" d) as [i|] eqn:Hi; [|discriminate].
  simpl in Ha. exn_split. inv Hk. exists i, a1. auto.
Qed.

Lemma returned_as_get d r k : returned_as d r -> k <> "id" -> doc_get k r = doc_get k d.
Proof. intros (i & s & _ & _ & ->) Hk. now apply doc_get_set_ne. Qed.

Lemma returned_as_key d r : returned_as d r -> sort_key "timestamp" r = sort_key "timestamp" d.
Proof. intros Hr. unfold sort_key. now rewrite (returned_as_get d r) by (exact Hr || (intros E; inversion E)). Qed.

Lemma returned_as_field d r v : returned_as d r -> field_eq "user_id" v r = field_eq "user_id" v d.
Proof. intros Hr. unfold field_eq. now rewrite (returned_as_get d r) by (exact Hr || (intros E; inversion E)). Qed.

Lemma returned_sorted l r :
  Forall2 returned_as l r -> Sorted (key_ge "timestamp") l -> Sorted (key_ge "timestamp") r.
Proof.
  induction 1 as [|d x l r Hx Hlr IH]; intros Hs; [constructor|].
  apply Sorted_inv in Hs as [Hs Hh]. constructor; [exact (IH Hs)|].
  destruct Hlr as [|d' x' l' r' Hx']; constructor. inversion Hh; subst.
  unfold key_ge in *. now rewrite (returned_as_key _ _ Hx), (returned_as_key _ _ Hx').
Qed.

Section HistoryProofs.
Context `{Cursor} (Hsort : SortContract sort_desc).

(** What a finished run did: one query, or the fallback query after an
    empty first answer; the database is unchanged. *)
Lemma get_history_run n cur db r db' uid :
  doc_get "_id" cur = Some uid -> run n (get_history cur) db = Some (Ok r, db') ->
  db' = db /\
  ((find_sort_list [("user_id", uid)] "timestamp" 100 (history db) <> [] /\
    add_ids (find_sort_list [("user_id", uid)] "timestamp" 100 (history db)) = Ok r) \/
   (find_sort_list [("user_id", uid)] "timestamp" 100 (history db) = [] /\
    exists s, py_str uid = Ok s /\
    add_ids (find_sort_list [("user_id", BStr s)] "timestamp" 100 (history db)) = Ok r)).
Proof.
  intros Hi. unfold get_history, doc_index. rewrite Hi. unfold await, find_history, read.
  destruct n as [|n]; [discriminate|]. cbn [run].
  destruct (find_sort_list [("user_id", uid)] "timestamp" 100 (history db)) as [|d l] eqn:F.
  - destruct (py_str uid) as [s|e] eqn:Hs; cbn [run].
    + destruct n as [|[|n]]; cbn [run]; intros E; inv E;
        (split; [reflexivity | right; split; eauto]).
    + destruct n; intros E; inv E.
  - destruct n; cbn [run]; intros E; inv E; (split; [reflexivity | left; split; [discriminate | reflexivity]]).
Qed.

Lemma returned_from f db r :
  add_ids (find_sort_list f "timestamp" 100 (history db)) = Ok r ->
  forall x, In x r -> exists d, In d (history db) /\ matches f d = true /\ returned_as d x.
Proof.
  intros E x Hx. apply add_ids_spec in E.
  destruct (Forall2_in_r _ _ _ _ E Hx) as (d & Hd & Hdx).
  destruct (find_sort_list_in Hsort _ _ _ _ _ Hd) as [Hin M]. eauto.
Qed.

Lemma firstn_short {A} (l : list A) n : (List.length l <= n)%nat -> firstn n l = l.
Proof. apply firstn_all2. Qed.

(** [C28] Every record returned belongs to the current user (its
    ["user_id"] is the user's id or its string form), comes from the
    [history] collection, and carries ["id"] = [str(_id)]. *)
Theorem history_owned n cur uid db res db' :
  doc_get "_id" cur = Some uid -> run n (get_history cur) db = Some (Ok res, db') ->
  forall r, In r res -> exists d, In d (history db) /\ owned uid d = true /\ returned_as d r.
Proof.
  intros Hi Hr r Hin.
  destruct (get_history_run n cur db res db' uid Hi Hr) as [_ [[_ E] | (_ & s & Hs & E)]];
    destruct (returned_from _ _ _ E r Hin) as (d & Hd & M & Hdr);
    rewrite matches_single in M; exists d; (split; [exact Hd | split; [|exact Hdr]]);
    unfold owned; [now rewrite M | now rewrite Hs, M, orb_true_r].
Qed.

(** [C30] The answer is newest first by ["timestamp"] and holds at most
    100 records. *)
Theorem history_sorted_bounded n cur uid db res db' :
  doc_get "_id" cur = Some uid -> run n (get_history cur) db = Some (Ok res, db') ->
  Sorted (key_ge "timestamp") res /\ (List.length res <= 100)%nat.
Proof.
  intros Hi Hr.
  destruct (get_history_run n cur db res db' uid Hi Hr) as [_ [[_ E] | (_ & s & Hs & E)]];
    apply add_ids_spec in E; rewrite <- (Forall2_length E);
    (split; [eapply returned_sorted; [exact E | apply find_sort_list_sorted, Hsort]
            | apply find_sort_list_length]).
Qed.

(** [C29] As soon as one record is stored with the user's [ObjectId],
    records stored with the string form are never returned: the string
    query is only a fallback for an empty first answer. *)
Theorem strict_match_hides_legacy n cur uid db res db' :
  doc_get "_id" cur = Some uid ->
  List.filter (matches [("user_id", uid)]) (history db) <> [] ->
  run n (get_history cur) db = Some (Ok res, db') ->
  forall r, In r res -> field_eq "user_id" uid r = true.
Proof.
  intros Hi Hne Hr r Hin.
  destruct (get_history_run n cur db res db' uid Hi Hr) as [_ [[_ E] | (F & _)]].
  - destruct (returned_from _ _ _ E r Hin) as (d & _ & M & Hdr).
    rewrite (returned_as_field _ _ _ Hdr). now rewrite matches_single in M.
  - apply (find_sort_list_nil Hsort _ _ 100 _ ltac:(lia)) in F. contradiction.
Qed.

(** Under the limit nothing is lost: when 1 to 100 records carry
    the user's [ObjectId], the answer is exactly those records (in some
    order), each with its ["id"]. *)
Theorem history_complete_under_limit n cur uid db res db' :
  doc_get "_id" cur = Some uid ->
  List.filter (matches [("user_id", uid)]) (history db) <> [] ->
  (List.length (List.filter (matches [("user_id", uid)]) (history db)) <= 100)%nat ->
  run n (get_history cur) db = Some (Ok res, db') ->
  exists l, Permutation l (List.filter (matches [("user_id", uid)]) (history db)) /\
    Forall2 returned_as l res.
Proof.
  intros Hi Hne Hle Hr.
  destruct (get_history_run n cur db res db' uid Hi Hr) as [_ [[_ E] | (F & _)]].
  - apply add_ids_spec in E. unfold find_sort_list in E.
    destruct (Hsort "timestamp" (List.filter (matches [("user_id", uid)]) (history db))) as [Hp _].
    rewrite firstn_short in E by (rewrite (Permutation_length Hp); exact Hle).
    eauto.
  - apply (find_sort_list_nil Hsort _ _ 100 _ ltac:(lia)) in F. contradiction.
Qed.

End HistoryProofs.

Section HistoryWitnesses.
#[local] Existing Instance insertion_cursor.

Lemma run_hdb : run 2 (get_history alice_doc) hdb = Some (Ok (answer_of hdb), hdb).
Proof. vm_compute. reflexivity. Qed.

Lemma run_legacy_db : run 2 (get_history alice_doc) legacy_db = Some (Ok (answer_of legacy_db), legacy_db).
Proof. vm_compute. reflexivity. Qed.

Lemma history_owned_witness :
  run 2 (get_history alice_doc) hdb = Some (Ok (answer_of hdb), hdb) /\
  doc_get "_id" alice_doc = Some (BOid 3%Z) /\
  forall r, In r (answer_of hdb) ->
    exists d, In d (history hdb) /\ owned (BOid 3%Z) d = true /\ returned_as d r.
Proof.
  split; [exact run_hdb|].
  split; [reflexivity|].
  exact (history_owned insertion_sort_contract 2 alice_doc (BOid 3%Z) hdb _ hdb eq_refl run_hdb).
Defined.

Lemma history_sorted_bounded_witness :
  run 2 (get_history alice_doc) legacy_db = Some (Ok (answer_of legacy_db), legacy_db) /\
  doc_get "_id" alice_doc = Some (BOid 3%Z) /\
  Sorted (key_ge "timestamp") (answer_of legacy_db) /\ (List.length (answer_of legacy_db) <= 100)%nat.
Proof.
  split; [exact run_legacy_db|].
  split; [reflexivity|].
  exact (history_sorted_bounded insertion_sort_contract 2 alice_doc (BOid 3%Z) legacy_db _ legacy_db
           eq_refl run_legacy_db).
Defined.

(** The legacy record 21 is not shown once records 20 and 23 exist. *)
Lemma strict_match_hides_legacy_witness :
  run 2 (get_history alice_doc) hdb = Some (Ok (answer_of hdb), hdb) /\
  List.filter (matches [("user_id", BOid 3%Z)]) (history hdb) <> [] /\
  (forall r, In r (answer_of hdb) -> field_eq "user_id" (BOid 3%Z) r = true) /\
  List.length (List.filter (owned (BOid 3%Z)) (history hdb)) = 3%nat /\
  List.length (answer_of hdb) = 2%nat.
Proof.
  split; [exact run_hdb|].
  assert (Hne : List.filter (matches [("user_id", BOid 3%Z)]) (history hdb) <> [])
    by (vm_compute; discriminate).
  split; [exact Hne | split; [|split; vm_compute; reflexivity]].
  exact (strict_match_hides_legacy insertion_sort_contract 2 alice_doc (BOid 3%Z) hdb _ hdb
           eq_refl Hne run_hdb).
Defined.

End HistoryWitnesses.

End History.
