(* ===== verification/App.v ===== *)
(** * The FastAPI application (src/backend/main.py) and its test script
      (src/test_backend.py)

    [main.py] mounts the users router under ["/users"] and the scans router
    under ["/analysis"] (lines 20-21) and serves ["/"] itself (lines
    23-25).  [routes] is the route table in registration order and
    [lookup_route] Starlette's matching: the first route whose path and
    method match; a path that matches only with another method answers
    405, no path 404.  [app_handle] runs the matched handler of [Users] or
    [History] and turns its result into a [Response] the way FastAPI
    does: [HTTPException(status, detail)] gives that status, any other
    exception 500, a missing body or form 422.  The CORS middleware
    (lines 12-18) around [app_handle] is the file [Cors].

    [get_current_user] comes from the missing [auth.py]: it is the
    interface [CurrentUser], a dependency that reads the database.

    [test_backend] is the script of [src/test_backend.py] (lines 7-66): six
    requests sent one after the other, each run to completion, with the
    script's assertions; [Outcome] says which assertion (by line) failed. *)

From Stdlib Require Import List String ZArith QArith Bool Lia.
From S2P Require Import Prelude PyStr Bson Mongo Users History.
Import ListNotations Bson Mongo Users History.
Local Open Scope string_scope.
Local Open Scope py_scope.

Module App.

Inductive Method := GET | POST | DELETE | OPTIONS.

Definition method_eqb (a b : Method) : bool :=
  match a, b with
  | GET, GET | POST, POST | DELETE, DELETE | OPTIONS, OPTIONS => true
  | _, _ => false
  end.

(** What a request carries: a JSON [UserCreate], the OAuth2 form, or
    nothing; [rq_auth] is the token of an [Authorization: Bearer] header. *)
Inductive Body := NoBody | JsonUser (u : UserCreate) | Form (username password : string).

Record Request := {
  rq_method : Method;
  rq_path : string;
  rq_auth : option string;
  rq_body : Body
}.

(** The JSON a response carries. *)
Inductive Reply :=
| JMessage (key msg : string)
| JUser (u : UserResponse)
| JToken (t : Token)
| JHistory (records : list doc)
| JDetail (detail : string).

Record Response := { status : Z; reply : Reply }.

(** [get_current_user] ([auth.py], not in the repository) *)
Class CurrentUser := { get_current_user : option string -> DB -> exn MErr doc }.

Inductive Route := RootRoute | RegisterRoute | TokenRoute | DeleteMeRoute | ReadMeRoute | HistoryRoute.

(** [app.include_router(users.router, prefix="/users")],
    [app.include_router(scans.router, prefix="/analysis")], then
    [@app.get("/")]. *)
Definition routes : list (Method * string * Route) :=
  [(POST, "/users/register", RegisterRoute); (POST, "/users/token", TokenRoute);
   (DELETE, "/users/me", DeleteMeRoute); (GET, "/users/me", ReadMeRoute);
   (GET, "/analysis/history", HistoryRoute); (GET, "/", RootRoute)].

Definition lookup_route (m : Method) (p : string) : Route + Z :=
  match find (fun r => String.eqb (snd (fst r)) p && method_eqb (fst (fst r)) m) routes with
  | Some r => inl (snd r)
  | None => if existsb (fun r => String.eqb (snd (fst r)) p) routes then inr 405%Z else inr 404%Z
  end.

Definition error_response (s : Z) (detail : string) : Response :=
  {| status := s; reply := JDetail detail |}.

(** FastAPI's answer for a handler's result. *)
Definition to_response {A} (ok : A -> Reply) (r : exn MErr A) : Response :=
  match r with
  | Ok a => {| status := 200; reply := ok a |}
  | Raise (HTTPException s d) => error_response s d
  | Raise _ => error_response 500 "Internal Server Error"
  end.

Fixpoint co_map {A B} (f : exn MErr A -> exn MErr B) (p : Co A) : Co B :=
  match p with
  | Ret r => Ret (f r)
  | Yield k => Yield (fun db => let (p', db') := k db in (co_map f p', db'))
  end.

Definition respond {A} (ok : A -> Reply) (p : Co A) : Co Response :=
  co_map (fun r => Ok (to_response ok r)) p.

Section Handle.
Context {AU : Auth} {CU : Cursor} {GU : CurrentUser}.

(** [current_user: dict = Depends(get_current_user)] *)
Definition with_user (rq : Request) (k : doc -> Co Response) : Co Response :=
  await (read (get_current_user (rq_auth rq))) (fun r =>
  match r with
  | Ok cu => k cu
  | Raise e => Ret (Ok (to_response (fun _ : unit => JDetail "") (Raise e)))
  end).

Definition read_root : Response :=
  {| status := 200; reply := JMessage "message" "Welcome to OCR System Backend" |}.

Definition app_handle (rq : Request) : Co Response :=
  match lookup_route (rq_method rq) (rq_path rq) with
  | inr 405%Z => Ret (Ok (error_response 405 "Method Not Allowed"))
  | inr s => Ret (Ok (error_response s "Not Found"))
  | inl RootRoute => Ret (Ok read_root)
  | inl RegisterRoute =>
      match rq_body rq with
      | JsonUser u => respond JUser (register u)
      | _ => Ret (Ok (error_response 422 "Field required"))
      end
  | inl TokenRoute =>
      match rq_body rq with
      | Form u p => respond JToken (login_for_access_token u p)
      | _ => Ret (Ok (error_response 422 "Field required"))
      end
  | inl DeleteMeRoute => with_user rq (fun cu => respond (JMessage "msg") (delete_user cu))
  | inl ReadMeRoute => with_user rq (fun cu => respond JUser (read_users_me cu))
  | inl HistoryRoute => with_user rq (fun cu => respond JHistory (get_history cu))
  end.

(** One HTTP request, run to completion (at most four [await]s). *)
Definition send (rq : Request) (db : DB) : option (Response * DB) :=
  match run 4 (app_handle rq) db with
  | Some (Ok r, db') => Some (r, db')
  | _ => None
  end.

(** ** [src/test_backend.py] *)

(** How the script ends: all assertions pass, the assertion at a line
    fails, a response lacks the field the script reads, or no response. *)
Inductive Outcome := Passed | AssertFailed (line : nat) | ScriptError | NoResponse.

Definition expect (line : nat) (rq : Request) (code : Z) (db : DB)
    (k : Response -> DB -> Outcome * DB) : Outcome * DB :=
  match send rq db with
  | None => (NoResponse, db)
  | Some (r, db') => if Z.eqb (status r) code then k r db' else (AssertFailed line, db')
  end.

Definition get_req (p : string) (auth : option string) : Request :=
  {| rq_method := GET; rq_path := p; rq_auth := auth; rq_body := NoBody |}.

Definition test_backend (username email password : string) (db : DB) : Outcome * DB :=
  expect 15 (get_req "/" None) 200 db (fun _ db =>
  expect 32 {| rq_method := POST; rq_path := "/users/register"; rq_auth := None;
               rq_body := JsonUser {| uc_username := username; uc_email := email;
                                      uc_password := password |} |} 200 db (fun r db =>
  match reply r with
  | JUser _ =>
      expect 42 {| rq_method := POST; rq_path := "/users/token"; rq_auth := None;
                   rq_body := Form email password |} 200 db (fun r db =>
      match reply r with
      | JToken t =>
          let headers := Some (access_token t) in
          expect 50 (get_req "/users/me" headers) 200 db (fun r db =>
          match reply r with
          | JUser u =>
              if String.eqb (ur_email u) email then
                expect 58 {| rq_method := POST; rq_path := "/analysis/analyze"; rq_auth := headers;
                             rq_body := NoBody |} 422 db (fun _ db =>
                expect 64 {| rq_method := DELETE; rq_path := "/users/me"; rq_auth := headers;
                             rq_body := NoBody |} 200 db (fun _ db => (Passed, db)))
              else (AssertFailed 51, db)
          | _ => (ScriptError, db)
          end)
      | _ => (ScriptError, db)
      end)
  | _ => (ScriptError, db)
  end)).
End Handle.

(** ** Scenario inputs

    A [get_current_user] for the tokens of [plain_auth]: ["tok:" ++ email]
    names the user stored with that email, anything else is 401. *)
Definition token_email (t : string) : option string :=
  if String.prefix "tok:" t then Some (substring 4 (String.length t) t) else None.

Definition email_token_user : CurrentUser := {|
  get_current_user tok db :=
    match match tok with Some t => token_email t | None => None end with
    | Some e =>
        match find_one [("email", BStr e)] (users db) with
        | Some d => Ok d
        | None => Raise (HTTPException 401 "Could not validate credentials")
        end
    | None => Raise (HTTPException 401 "Not authenticated")
    end
|}.

(** ** Lemmas *)

Lemma run_more_fuel {A} n m (p : Co A) db x : run n p db = Some x -> (n <= m)%nat -> run m p db = Some x.
Proof.
  revert m p db. induction n as [|n IH]; intros m [r|k] db E Hle.
  - destruct m; exact E.
  - discriminate E.
  - destruct m; exact E.
  - destruct m as [|m]; [lia|]. simpl in *. destruct (k db). apply IH; [exact E | lia].
Qed.

Lemma run_co_map {A B} (f : exn MErr A -> exn MErr B) n p db r db' :
  run n p db = Some (r, db') -> run n (co_map f p) db = Some (f r, db').
Proof.
  revert p db. induction n as [|n IH]; intros [r0|k] db E.
  - now inv E.
  - discriminate E.
  - now inv E.
  - simpl in *. destruct (k db). now apply IH.
Qed.

Lemma send_respond {AU : Auth} {CU : Cursor} {GU : CurrentUser} {A} rq (ok : A -> Reply) p n db r db' :
  app_handle rq = respond ok p -> run n p db = Some (Ok r, db') -> (n <= 4)%nat ->
  send rq db = Some ({| status := 200; reply := ok r |}, db').
Proof.
  intros Hh Hr Hn. unfold send. rewrite Hh. unfold respond.
  rewrite (run_more_fuel _ _ _ _ _ (run_co_map _ _ _ _ _ _ Hr) Hn). reflexivity.
Qed.

Section Script.
Context {AU : Auth} {CU : Cursor} {GU : CurrentUser}.
Hypothesis verify_hash : forall p, verify_password p (get_password_hash p) = true.
(** The token issued for an email names the user stored with it. *)
Hypothesis token_resolves : forall e db d,
  find_one [("email", BStr e)] (users db) = Some d ->
  get_current_user (Some (create_access_token (BStr e))) db = Ok d.

(** [C20] The backend test script cannot pass: with a fresh email the
    health check, registration, login and [GET /users/me] succeed, but
    [POST /analysis/analyze] answers 404 (the route is commented out in
    scans.py) where line 58 asserts 422, so the assertion of line 58
    fails. *)
Theorem test_backend_fails_at_analyze username email password db :
  ids_below db -> find_one [("email", BStr email)] (users db) = None ->
  fst (test_backend username email password db) = AssertFailed 58.
Proof.
  intros Hid Hf. set (u := {| uc_username := username; uc_email := email; uc_password := password |}).
  change email with (uc_email u) in Hf.
  unfold test_backend, expect at 1. change (send (get_req "/" None) db) with (Some (read_root, db)).
  cbn [status read_root Z.eqb Pos.eqb].
  unfold expect at 1.
  erewrite (send_respond _ JUser (register u) 3 db);
    [| reflexivity | exact (register_fresh_run u db Hid Hf) | lia].
  cbn [status reply Z.eqb Pos.eqb].
  unfold expect at 1.
  erewrite (send_respond _ JToken (login_for_access_token (uc_email u) (uc_password u)) 1);
    [| reflexivity | exact (login_registered verify_hash u db Hf) | lia].
  cbn [status reply Z.eqb Pos.eqb access_token].
  unfold expect at 1. unfold send at 1, app_handle at 1. cbn [rq_method rq_path rq_auth get_req].
  change (lookup_route GET "/users/me") with (inl (B := Z) ReadMeRoute).
  unfold with_user, await, read. cbn [run rq_auth].
  rewrite (token_resolves _ (after_register u db) _ (find_new_user_email u db Hf)). cbn.
  change (String.eqb email email) with (String.eqb (uc_email u) (uc_email u)). rewrite String.eqb_refl.
  reflexivity.
Qed.
End Script.

Section ScriptWitness.
#[local] Existing Instances plain_auth insertion_cursor email_token_user.

Lemma token_email_app e : token_email ("tok:" ++ e) = Some e.
Proof.
  unfold token_email. rewrite (proj2 (prefix_app_iff "tok:" ("tok:" ++ e)) (ex_intro _ e eq_refl)).
  exact (f_equal Some (substring_drop "tok:" e)).
Qed.

Lemma test_backend_fails_at_analyze_witness :
  (forall p, verify_password p (get_password_hash p) = true) /\
  (forall e db d, find_one [("email", BStr e)] (users db) = Some d ->
     get_current_user (Some (create_access_token (BStr e))) db = Ok d) /\
  ids_below db0 /\ find_one [("email", BStr "test_1700000000@example.com")] (users db0) = None /\
  fst (test_backend "testuser" "test_1700000000@example.com" "securepassword123" db0) = AssertFailed 58.
Proof.
  assert (Hv : forall p, verify_password p (get_password_hash p) = true)
    by (intros p; apply String.eqb_refl).
  assert (Ht : forall e db d, find_one [("email", BStr e)] (users db) = Some d ->
     get_current_user (Some (create_access_token (BStr e))) db = Ok d).
  { intros e db d H. cbn [get_current_user email_token_user create_access_token plain_auth].
    rewrite token_email_app, H. reflexivity. }
  assert (Hf : find_one [("email", BStr "test_1700000000@example.com")] (users db0) = None)
    by reflexivity.
  split; [exact Hv | split; [exact Ht | split; [exact ids_below_db0 | split; [exact Hf|]]]].
  exact (test_backend_fails_at_analyze Hv Ht _ _ _ db0 ids_below_db0 Hf).
Defined.
End ScriptWitness.

End App.
