(* ===== verification/Scans.v ===== *)
(** * The analysis endpoint (src/backend/routers/scans.py, lines 12-65)

    [analyze_drawing] is the handler that joins the two halves of the
    repository: it writes the upload to a temporary file, runs
    [process_drawing_pipeline] on it, stores a [ScanHistoryModel] in the
    [history] collection and answers with the weight.  In the source the
    handler and its import of [analysis] (line 12) are commented out; the
    model is of the handler as written there, so that the consequences of
    re-enabling it can be stated (the route is not in [App.routes]).

    The state is split the way the code splits it: the file system ([FS],
    the [gmap] of [Pipeline]) is local to the request, the database is the
    [Mongo.DB] of the coroutine.  Everything up to the [await] of
    [insert_one] is synchronous: [analyze_try] computes it and returns the
    rest of the [try] block as a coroutine together with the file system
    at the [await].  [analyze_drawing] adds the [except] clause (every
    exception becomes [HTTPException(500, str(e))], [except_500]) and the
    [finally] clause (the upload is removed, [delete]); its coroutine
    finishes with an [Analyzed]: what the handler raises or returns, and
    the file system it leaves.

    [await get_database()] returns the global handle without suspending,
    and [ObjectId()] for the model's [id] is drawn, as in [Users], from the
    counter of [DB] at the [await] of the insert.  pymongo's encoding of
    the weight and of the extracted dictionary is the interface
    [ScanEncoding]; [str(e)] of an exception other than an [HTTPException]
    is the section variable [other_str]. *)

From stdpp Require Import base gmap strings.
From Stdlib Require Import String List ZArith QArith Bool Lia Permutation PrimFloat Floats.
From S2P Require Import Prelude PyStr PyFloat PyValue Calculator Orchestrator Pipeline Bson Mongo Users History App.
Import ListNotations.
Import Calculator Orchestrator Bson Mongo Users History App.
Local Open Scope py_scope.

Module Scans.

(** The [UploadFile]: its name; its bytes are the [Upload] written to disk. *)
Record UploadFile := { uf_filename : string }.

(** pymongo's BSON values for [calculated_weight_kg] (a [float]) and for
    [extracted_data] (a [dict]). *)
Class ScanEncoding (F : Type) := {
  weight_q : PyNum F -> Q;
  data_doc : list (string * json F) -> doc
}.

(** [{"filename": ..., "calculated_weight_kg": ..., "extracted_data": ...,
    "message": "Analysis successful"}] (lines 53-58) *)
Record AnalyzeReply (F : Type) := {
  ar_filename : string;
  ar_weight : PyNum F;
  ar_data : json F;
  ar_message : string
}.
Arguments ar_filename {F}.
Arguments ar_weight {F}.
Arguments ar_data {F}.
Arguments ar_message {F}.

(** What the [try] block (lines 31-58) may raise. *)
Inductive TryExc :=
(** [raise HTTPException(status_code=..., detail=...)] inside the block *)
| THttp (status : Z) (detail : string)
(** an exception escaping [process_drawing_pipeline] *)
| TPipeline (e : PyExc)
(** [current_user["_id"]], [insert_one] *)
| TDb (e : MErr)
(** pydantic's [ValidationError] from [ScanHistoryModel(...)] *)
| TValidation.

(** [str(n)] of a non-negative [int], [fuel] digits at most. *)
Fixpoint dec_digits (fuel : nat) (n : Z) (acc : string) : string :=
  match fuel with
  | O => acc
  | S f =>
      let acc' := String.String (Ascii.ascii_of_nat (48 + Z.to_nat (n mod 10))) acc in
      if (n <? 10)%Z then acc' else dec_digits f (n / 10)%Z acc'
  end.

(** [str(HTTPException)]: Starlette's [f"{self.status_code}: {self.detail}"]. *)
Definition http_str (status : Z) (detail : string) : string :=
  String.append (dec_digits 10 status EmptyString) (String.append ": " detail).

(** A value passed to [PyObjectId]'s validator. *)
Definition any_of_bval (v : bval) : PyAny :=
  match v with
  | BOid o => AOid o
  | BStr s => AStr s
  | BNull => ANone
  | _ => AOther
  end.

Definition set_history (c : collection) (db : DB) : DB :=
  {| users := users db; history := c; next_oid := next_oid db |}.

(** [bool(s)] for an [Optional[str]]: the string when it is non-empty. *)
Definition str_truthy (k : option string) : option string :=
  match k with
  | Some s => if String.eqb s "" then None else Some s
  | None => None
  end.

(** [api_key or os.environ.get("GOOGLE_API_KEY")] and [if not final_api_key]:
    the key, when it is truthy. *)
Definition final_api_key (api_key env_key : option string) : option string :=
  match str_truthy api_key with
  | Some k => Some k
  | None => str_truthy env_key
  end.

(** [temp_filename = f"temp_{file.filename}"] *)
Definition temp_filename (file : UploadFile) : string := String.append "temp_" (uf_filename file).

Section Analyze.
Context {F : Type} `{PyFloat F} {VS : VisionService} {JL : JsonLoads F} {PC : PdfConverter}
  {SE : ScanEncoding F}.
(** [str(e)] of the exceptions that are not [HTTPException]s *)
Variable other_str : TryExc -> string.

Definition exc_str (e : TryExc) : string :=
  match e with
  | THttp s d => http_str s d
  | _ => other_str e
  end.

(** [ScanHistoryModel(user_id=current_user["_id"], filename=...,
    calculated_weight_kg=weight, extracted_data=..., timestamp=...)], waiting
    for the [ObjectId()] of its [id] (lines 44-50). *)
Definition history_entry (current_user : doc) (filename : string) (weight : PyNum F)
    (extracted_data : option (json F)) (timestamp : string)
  : exn TryExc (ObjectId -> ScanHistoryModel) :=
  match doc_index "_id" current_user with
  | Raise e => Raise (TDb e)
  | Ok uid =>
      match validate_object_id (any_of_bval uid), extracted_data with
      | Ok u, Some (JObj kvs) =>
          Ok (fun id => {| sh_id := id; sh_user_id := u; sh_filename := filename;
                           sh_calculated_weight_kg := weight_q weight;
                           sh_extracted_data := data_doc kvs; sh_timestamp := timestamp |})
      | _, _ => Raise TValidation
      end
  end.

(** [await db.history.insert_one(history_entry.model_dump(by_alias=True))] *)
Definition insert_scan (entry : ObjectId -> ScanHistoryModel) (db : DB) : exn MErr bval * DB :=
  let (model_id, db1) := fresh_oid db in
  match insert_one (scan_dump (entry model_id)) (history db1) db1 with
  | (Ok (id, c), db2) => (Ok id, set_history c db2)
  | (Raise e, db2) => (Raise e, db2)
  end.

(** The [try] block (lines 31-58): the coroutine from the [await] on, and
    the file system at the [await]. *)
Definition analyze_try (filename temp_filename : string) (api_key env_key : option string)
    (current_user : doc) (timestamp : string) (fs : FS)
  : Co (exn TryExc (AnalyzeReply F)) * FS :=
  match final_api_key api_key env_key with
  | None => (Ret (Ok (Raise (THttp 400 "API Key required (upload or env var)"))), fs)
  | Some key =>
      let (r, fs1) := process_drawing_pipeline fs temp_filename (Some key) in
      (match r with
       | Raise e => Ret (Ok (Raise (TPipeline e)))
       | Ok (None, _) => Ret (Ok (Raise (THttp 500 "Analysis failed to extract data")))
       | Ok (Some weight, extracted_data) =>
           match history_entry current_user filename weight extracted_data timestamp with
           | Raise e => Ret (Ok (Raise e))
           | Ok entry =>
               await (insert_scan entry) (fun inserted =>
               match inserted with
               | Raise e => Ret (Ok (Raise (TDb e)))
               | Ok _ =>
                   Ret (Ok (Ok {| ar_filename := filename; ar_weight := weight;
                                  ar_data := match extracted_data with Some d => d | None => JNull end;
                                  ar_message := "Analysis successful" |}))
               end)
           end
       end, fs1)
  end.

(** [except Exception as e: raise HTTPException(status_code=500, detail=str(e))] *)
Definition except_500 (r : exn TryExc (AnalyzeReply F)) : exn MErr (AnalyzeReply F) :=
  match r with
  | Ok a => Ok a
  | Raise e => Raise (HTTPException 500 (exc_str e))
  end.

(** The handler's outcome and the file system it leaves. *)
Record Analyzed := { outcome : exn MErr (AnalyzeReply F); disk : FS }.

(** [analyze_drawing] (lines 17-65) *)
Definition analyze_drawing (file : UploadFile) (api_key : option string) (current_user : doc)
    (env_key : option string) (timestamp : string) (fs : FS) : Co Analyzed :=
  let fs0 := <[temp_filename file := Upload]> fs in
  let (body, fs1) := analyze_try (uf_filename file) (temp_filename file) api_key env_key
                                 current_user timestamp fs0 in
  co_map (fun r =>
    Ok {| outcome := match r with Ok r' => except_500 r' | Raise e => Raise e end;
          disk := delete (temp_filename file) fs1 |}) body.
End Analyze.

(** Every scan record's ["_id"] is an [ObjectId] drawn before, stored as
    itself or as its string form. *)
Definition scan_ids_below (db : DB) : Prop :=
  (0 <= next_oid db)%Z /\ forall d, In d (history db) ->
    exists o, (doc_get "_id" d = Some (BOid o) \/ doc_get "_id" d = Some (BStr (oid_str o))) /\
              (0 <= o < next_oid db)%Z.

(** ** Scenario inputs

    An encoding for binary64 that writes a finite [float] as its exact
    rational and the scalar fields of the dictionary as themselves (the
    scenarios have no nested values); [alice_doc] uploads ["drawing.png"]
    or ["drawing.pdf"] with the form key ["key"], on [History.legacy_db]
    (her one record stored under the string form of her id). *)
Definition float_q (x : float) : Q :=
  match Prim2SF x with
  | S754_finite s m e =>
      let n := if s then Zneg m else Zpos m in
      match e with
      | Zpos p => inject_Z (n * 2 ^ Zpos p)
      | Z0 => inject_Z n
      | Zneg p => Qmake n (Pos.pow 2 p)
      end
  | _ => 0
  end.

Definition scalar_bval (v : json float) : bval :=
  match v with
  | JNull => BNull
  | JBool b => BBool b
  | JInt z => BNum (inject_Z z)
  | JFloat x => BNum (float_q x)
  | JStr s => BStr s
  | JList _ | JObj _ => BNull
  end.

Definition float_encoding : ScanEncoding float := {|
  weight_q w := match w with PInt z => inject_Z z | PFloat x => float_q x end;
  data_doc kvs := map (fun kv => (fst kv, scalar_bval (snd kv))) kvs
|}.

Definition no_str (e : TryExc) : string := "error".
Definition png_upload : UploadFile := {| uf_filename := "drawing.png" |}.
Definition pdf_upload : UploadFile := {| uf_filename := "drawing.pdf" |}.
Definition ts0 : string := "2025-04-01T12:00:00+00:00".
Definition rect_kvs : list (string * json float) :=
  match rect_scenario with JObj kvs => kvs | _ => [] end.

(** The PNG scenario's run, its outcome and the database it leaves. *)
Definition png_run : option (exn MErr (@Analyzed float) * DB) :=
  run 1 (analyze_drawing (VS := e2e_service) (JL := e2e_jl) (PC := one_page) (SE := float_encoding)
           no_str png_upload (Some "key") alice_doc None ts0 ∅) legacy_db.
Definition png_analyzed : @Analyzed float :=
  match png_run with Some (Ok a, _) => a | _ => {| outcome := Raise TypeError; disk := ∅ |} end.
Definition png_reply : AnalyzeReply float :=
  match outcome png_analyzed with
  | Ok r => r
  | Raise _ => {| ar_filename := ""; ar_weight := PInt 0; ar_data := JNull; ar_message := "" |}
  end.
Definition png_db : DB := match png_run with Some (_, db) => db | None => legacy_db end.

(** The disk of the PDF scenario once the pipeline has written page 1. *)
Definition pdf_disk : FS :=
  <[temp_path (temp_filename pdf_upload) := Jpeg (temp_filename pdf_upload)]>
    (<[temp_filename pdf_upload := Upload]> ∅).

(** ** Lemmas *)

Lemma oid_str_parse o : parse_hex (oid_str o) 0 = Some (o mod 2 ^ 96)%Z.
Proof. unfold oid_str. rewrite parse_hex_of. reflexivity. Qed.

Lemma oid_str_inj o1 o2 : oid_wf o1 -> oid_wf o2 -> oid_str o1 = oid_str o2 -> o1 = o2.
Proof.
  intros H1 H2 E. pose proof (oid_str_parse o1) as P1. rewrite E, oid_str_parse in P1.
  injection P1 as P1. rewrite !Z.mod_small in P1 by assumption. congruence.
Qed.

(** The string id of the next [ObjectId] is not taken. *)
Lemma scan_id_fresh db :
  scan_ids_below db -> (next_oid db < 2 ^ 96)%Z ->
  find_one [("_id", BStr (oid_str (next_oid db)))] (history db) = None.
Proof.
  intros [_ Hid] Hlt. apply find_one_none_intro. intros d Hd. rewrite matches_single.
  destruct (field_eq _ _ d) eqn:E; [|reflexivity]. apply field_eq_str in E.
  destruct (Hid d Hd) as (o & [Hg|Hg] & Ho); rewrite Hg in E; [discriminate E|].
  assert (E' : oid_str o = oid_str (next_oid db)) by congruence.
  apply oid_str_inj in E'; unfold oid_wf; lia.
Qed.

Lemma scan_dump_id h : doc_get "_id" (scan_dump h) = Some (BStr (oid_str (sh_id h))).
Proof. reflexivity. Qed.

Lemma insert_scan_fresh entry db :
  sh_id (entry (next_oid db)) = next_oid db ->
  find_one [("_id", BStr (oid_str (next_oid db)))] (history db) = None ->
  insert_scan entry db =
  (Ok (BStr (oid_str (next_oid db))),
   {| users := users db; history := history db ++ [scan_dump (entry (next_oid db))];
      next_oid := next_oid db + 1 |}%Z).
Proof. intros Hi Hf. unfold insert_scan, insert_one, fresh_oid. cbn -[find_one oid_str]. rewrite Hi, Hf. reflexivity. Qed.

Lemma insert_scan_cases entry db r db' :
  insert_scan entry db = (r, db') ->
  users db' = users db /\ next_oid db' = (next_oid db + 1)%Z /\
  ((exists id, r = Ok id /\ history db' = history db ++ [scan_dump (entry (next_oid db))]) \/
   (exists e, r = Raise e /\ history db' = history db)).
Proof.
  unfold insert_scan, insert_one, fresh_oid. cbn -[find_one oid_str].
  destruct (find_one _ _); intros E; inv E; cbn; eauto 7.
Qed.

Section AnalyzeProofs.
Context {F : Type} `{PyFloat F} {VS : VisionService} {JL : JsonLoads F} {PC : PdfConverter}
  {SE : ScanEncoding F}.
Variable other_str : TryExc -> string.

(** What the [try] block passes to the database when its model validates. *)
Definition entry_of (u : ObjectId) (filename : string) (w : PyNum F) (kvs : list (string * json F))
    (ts : string) (id : ObjectId) : ScanHistoryModel :=
  {| sh_id := id; sh_user_id := u; sh_filename := filename; sh_calculated_weight_kg := weight_q w;
     sh_extracted_data := data_doc kvs; sh_timestamp := ts |}.

Lemma history_entry_ok cu fn w ed ts entry :
  history_entry cu fn w ed ts = Ok entry ->
  exists uid u kvs, doc_get "_id" cu = Some uid /\ validate_object_id (any_of_bval uid) = Ok u /\
    ed = Some (JObj kvs) /\ entry = entry_of u fn w kvs ts.
Proof.
  unfold history_entry, doc_index. destruct (doc_get "_id" cu) as [uid|] eqn:Hg; [|discriminate].
  destruct (validate_object_id _) as [u|] eqn:Hv; [|discriminate].
  destruct ed as [j|]; [destruct j|]; try discriminate. intros E. inv E.
  exists uid, u, kvs. auto.
Qed.

(** The [try] block either finishes before the [await], raising, or
    reaches the insert with a validated model. *)
Lemma analyze_try_cases fn tf api env cu ts fs body fs1 :
  analyze_try fn tf api env cu ts fs = (body, fs1) ->
  (exists e, body = Ret (Ok (Raise e))) \/
  exists w ed entry, history_entry cu fn w ed ts = Ok entry /\
    body = await (insert_scan entry) (fun inserted =>
             match inserted with
             | Raise e => Ret (Ok (Raise (TDb e)))
             | Ok _ => Ret (Ok (Ok {| ar_filename := fn; ar_weight := w;
                                      ar_data := match ed with Some d => d | None => JNull end;
                                      ar_message := "Analysis successful" |}))
             end).
Proof.
  unfold analyze_try. destruct (final_api_key api env); [|intros E; inv E; eauto].
  destruct (process_drawing_pipeline fs tf _) as [[[[w|] ed]|e] fs'];
    [|intros E; inv E; eauto..].
  destruct (history_entry cu fn w ed ts) eqn:He; intros E; inv E; [right; eauto 6 | eauto].
Qed.

Lemma scan_ids_below_insert entry db x db' :
  scan_ids_below db -> sh_id (entry (next_oid db)) = next_oid db ->
  insert_scan entry db = (x, db') -> scan_ids_below db'.
Proof.
  intros [H0 Hid] Hi E.
  apply insert_scan_cases in E as (_ & Hn & [(id & _ & Hh)|(e & _ & Hh)]);
    (split; [lia|]); rewrite Hh, Hn; intros d Hd.
  - apply in_app_or in Hd as [Hd|[<-|[]]].
    + destruct (Hid d Hd) as (o & Ho & Hb). exists o. split; [exact Ho | lia].
    + exists (next_oid db). split; [right; now rewrite scan_dump_id, Hi | lia].
  - destruct (Hid d Hd) as (o & Ho & Hb). exists o. split; [exact Ho | lia].
Qed.

(** A finished run either raised before the [await], leaving the
    database alone, or went through the insert of a validated model. *)
Lemma analyze_run_cases n file api cu env ts fs db r db' :
  run n (analyze_drawing other_str file api cu env ts fs) db = Some (r, db') ->
  (exists e fs1, r = Ok {| outcome := except_500 other_str (Raise e); disk := fs1 |} /\ db' = db) \/
  exists w ed entry x fs1, history_entry cu (uf_filename file) w ed ts = Ok entry /\
    insert_scan entry db = (x, db') /\
    r = Ok {| outcome := except_500 other_str
                           match x with
                           | Raise e => Raise (TDb e)
                           | Ok _ => Ok {| ar_filename := uf_filename file; ar_weight := w;
                                           ar_data := match ed with Some d => d | None => JNull end;
                                           ar_message := "Analysis successful" |}
                           end;
              disk := fs1 |}.
Proof.
  unfold analyze_drawing.
  destruct (analyze_try _ _ _ _ _ _ _) as [body fs1] eqn:Et.
  apply analyze_try_cases in Et as [(e & ->)|(w & ed & entry & He & ->)]; intros Hr.
  - destruct n; cbn in Hr; inv Hr; left; eauto.
  - destruct n as [|n]; [discriminate|]. cbn [co_map await run] in Hr.
    destruct (insert_scan entry db) as [x db1] eqn:Ei.
    destruct x, n; cbn in Hr; inv Hr;
      right; do 5 eexists; (split; [exact He | split; [exact Ei | reflexivity]]).
Qed.

Lemma except_500_raise e (a : AnalyzeReply F) : except_500 other_str (Raise e) <> Ok a.
Proof. destruct e; discriminate. Qed.

Lemma history_entry_id cu fn w ed ts entry o :
  history_entry cu fn w ed ts = Ok entry -> sh_id (entry o) = o.
Proof. intros He. apply history_entry_ok in He as (? & ? & ? & _ & _ & _ & ->). reflexivity. Qed.

(** A run that answers normally went through a successful insert. *)
Lemma analyze_ok_inv n file api cu env ts fs db a db' reply :
  run n (analyze_drawing other_str file api cu env ts fs) db = Some (Ok a, db') ->
  outcome a = Ok reply ->
  exists entry x, history_entry cu (uf_filename file) (ar_weight reply) (Some (ar_data reply)) ts = Ok entry /\
    insert_scan entry db = (Ok x, db').
Proof.
  intros Hr Ho. apply analyze_run_cases in Hr as [(e & fs1 & E & _)|(w & ed & entry & x & fs1 & He & Ei & E)].
  { injection E as E. subst a. exact (False_ind _ (except_500_raise _ _ Ho)). }
  injection E as E. subst a. destruct x as [x|e]; [|exact (False_ind _ (except_500_raise _ _ Ho))].
  injection Ho as Ho. subst reply. exists entry, x. split; [|exact Ei].
  pose proof He as He'. apply history_entry_ok in He' as (_ & _ & kvs & _ & _ & -> & _). exact He.
Qed.

(** [C24] Invariant: running [analyze_drawing] (for any fuel, on every path)
    keeps every scan record's id an earlier [ObjectId] and leaves the
    users alone. *)
Theorem analyze_preserves_scan_ids n file api cu env ts fs db r db' :
  scan_ids_below db -> run n (analyze_drawing other_str file api cu env ts fs) db = Some (r, db') ->
  scan_ids_below db' /\ users db' = users db.
Proof.
  intros Hi Hr.
  apply analyze_run_cases in Hr as [(_ & _ & _ & ->)|(w & ed & entry & x & fs1 & He & Ei & _)]; [auto|].
  split; [exact (scan_ids_below_insert _ _ _ _ Hi (history_entry_id _ _ _ _ _ _ _ He) Ei)
         | exact (proj1 (insert_scan_cases _ _ _ _ Ei))].
Qed.

(** [C5] Error: without an API key in the form or the environment the
    [HTTPException(400)] raised in the [try] block is caught by
    [except Exception] and re-raised as a 500 whose detail is its [str];
    the handler never awaits, the database is unchanged, and the upload
    (with whatever was at its path) is gone. *)
Theorem analyze_missing_key_500 file api cu env ts fs db :
  final_api_key api env = None ->
  run 0 (analyze_drawing other_str file api cu env ts fs) db =
  Some (Ok {| outcome := Raise (HTTPException 500 "400: API Key required (upload or env var)");
              disk := delete (temp_filename file) fs |}, db).
Proof.
  intros Hk. unfold analyze_drawing, analyze_try. rewrite Hk. cbn [co_map run].
  rewrite delete_insert_eq. reflexivity.
Qed.

(** [C21] A successful pipeline run on the upload stores exactly one scan
    record, the dump of the [ScanHistoryModel] with a fresh id, the user's
    id, the file name, the weight, the dictionary and the timestamp, and
    answers with the weight and the dictionary; the upload is removed. *)
Theorem analyze_records_scan file api cu env ts fs db key w kvs fs1 u :
  final_api_key api env = Some key ->
  process_drawing_pipeline (<[temp_filename file := Upload]> fs) (temp_filename file) (Some key)
    = (Ok (Some w, Some (JObj kvs)), fs1) ->
  doc_get "_id" cu = Some (BOid u) -> scan_ids_below db -> (next_oid db < 2 ^ 96)%Z ->
  run 1 (analyze_drawing other_str file api cu env ts fs) db =
  Some (Ok {| outcome := Ok {| ar_filename := uf_filename file; ar_weight := w; ar_data := JObj kvs;
                               ar_message := "Analysis successful" |};
              disk := delete (temp_filename file) fs1 |},
        {| users := users db;
           history := history db ++ [scan_dump (entry_of u (uf_filename file) w kvs ts (next_oid db))];
           next_oid := next_oid db + 1 |}%Z).
Proof.
  intros Hk Hp Hu Hid Hlt. unfold analyze_drawing, analyze_try. rewrite Hk, Hp.
  unfold history_entry, doc_index. rewrite Hu. cbn [co_map await run validate_object_id any_of_bval].
  rewrite insert_scan_fresh by (reflexivity || now apply scan_id_fresh). reflexivity.
Qed.
(** [C12] Error composed with the pipeline's leak: when the calculator
    raises on the first page of an uploaded PDF, the handler answers 500,
    and its [finally] removes only the upload: the JPEG the pipeline wrote
    stays on disk. *)
Theorem analyze_pdf_error_leaks_jpeg file api cu env ts fs db key n e :
  final_api_key api env = Some key ->
  str_endswith (str_lower (temp_filename file)) ".pdf" = true ->
  convert_from_path (temp_filename file) = Pages (S n) ->
  save_ok (temp_path (temp_filename file)) = true ->
  temp_path (temp_filename file) <> temp_filename file ->
  let fs1 := <[temp_path (temp_filename file) := Jpeg (temp_filename file)]>
               (<[temp_filename file := Upload]> fs) in
  let d := fst (extract_dimensions_with_gemini (image_open fs1) (temp_path (temp_filename file)) (Some key)) in
  truthy d = true -> calculate_from_dimensions init d = Raise e ->
  run 0 (analyze_drawing other_str file api cu env ts fs) db =
    Some (Ok {| outcome := Raise (HTTPException 500 (other_str (TPipeline e)));
                disk := delete (temp_filename file) fs1 |}, db) /\
  delete (temp_filename file) fs1 !! temp_path (temp_filename file) = Some (Jpeg (temp_filename file)).
Proof.
  intros Hk Hpdf Hc Hs Hne fs1 d Ht He.
  assert (Hp : process_drawing_pipeline (<[temp_filename file := Upload]> fs) (temp_filename file) (Some key)
               = (Raise e, fs1)).
  { unfold process_drawing_pipeline. rewrite Hpdf, Hc, Hs. unfold run_images. simpl.
    fold fs1. fold d. rewrite Ht. simpl. rewrite He. reflexivity. }
  split.
  - unfold analyze_drawing, analyze_try. rewrite Hk, Hp. reflexivity.
  - rewrite lookup_delete_ne by congruence. apply lookup_insert_eq.
Qed.

Section Readback.
Context {CU : Cursor} (Hsort : SortContract sort_desc).

Lemma add_ids_ok l :
  (forall d, In d l -> exists i s, doc_get "_id" d = Some i /\ py_str i = Ok s) ->
  exists r, add_ids l = Ok r.
Proof.
  induction l as [|d l IH]; intros Hl; [now exists []|].
  destruct (Hl d (or_introl eq_refl)) as (i & s & Hg & Hs).
  destruct IH as [r Hr]; [intros; apply Hl; now right|].
  cbn [add_ids]. unfold add_id, doc_index. rewrite Hg, exn_bind_ok, Hs, exn_bind_ok, Hr. eauto.
Qed.

Lemma scan_ids_printable db d :
  scan_ids_below db -> In d (history db) -> exists i s, doc_get "_id" d = Some i /\ py_str i = Ok s.
Proof. intros [_ Hid] Hd. destruct (Hid d Hd) as (o & [Hg|Hg] & _); rewrite Hg; eauto. Qed.

(** [C31] Round trip with [get_history]: for a user none of whose records
    carries the [ObjectId] itself and who has fewer than 100 records under
    the string form, the record a successful analysis stores is the one
    record added to [history], carries the string form of the user's id,
    and is read back by [get_history] (through its fallback query). *)
Theorem analyze_then_history n file api cu env ts fs db a db' reply u :
  doc_get "_id" cu = Some (BOid u) -> scan_ids_below db ->
  List.filter (matches [("user_id", BOid u)]) (history db) = [] ->
  (List.length (List.filter (matches [("user_id", BStr (oid_str u))]) (history db)) < 100)%nat ->
  run n (analyze_drawing other_str file api cu env ts fs) db = Some (Ok a, db') -> outcome a = Ok reply ->
  exists d res, history db' = history db ++ [d] /\ doc_get "user_id" d = Some (BStr (oid_str u)) /\
    run 2 (get_history cu) db' = Some (Ok res, db') /\ exists r, In r res /\ returned_as d r.
Proof.
  intros Hu Hi Hno Hlt Hr Ho.
  destruct (analyze_ok_inv _ _ _ _ _ _ _ _ _ _ _ Hr Ho) as (entry & x & He & Ei).
  pose proof (scan_ids_below_insert _ _ _ _ Hi (history_entry_id _ _ _ _ _ _ _ He) Ei) as Hi'.
  apply insert_scan_cases in Ei as (_ & _ & [(id & _ & Hh)|(e & E & _)]); [|discriminate E].
  apply history_entry_ok in He as (uid & u' & kvs & Hg & Hv & _ & ->).
  rewrite Hu in Hg. injection Hg as <-. injection Hv as <-.
  set (d := scan_dump (entry_of u _ _ kvs ts (next_oid db))) in Hh.
  assert (Hd : matches [("user_id", BStr (oid_str u))] d = true)
    by (rewrite matches_single; apply field_eq_str; reflexivity).
  assert (F1 : find_sort_list [("user_id", BOid u)] "timestamp" 100 (history db') = []).
  { apply (find_sort_list_nil Hsort); [lia|]. rewrite Hh, filter_app, Hno. reflexivity. }
  set (l := find_sort_list [("user_id", BStr (oid_str u))] "timestamp" 100 (history db')).
  destruct (add_ids_ok l) as [res Hres].
  { intros d' Hd'. apply (find_sort_list_in Hsort) in Hd' as [Hd' _]. exact (scan_ids_printable _ _ Hi' Hd'). }
  exists d, res. split; [exact Hh | split; [reflexivity | split]].
  - unfold get_history, doc_index. rewrite Hu. cbn [await run find_history read]. rewrite F1.
    cbn [py_str run await find_history read]. fold l. now rewrite Hres.
  - apply add_ids_spec in Hres. apply (Forall2_in_l _ _ _ d Hres).
    assert (Hle : (List.length (List.filter (matches [("user_id", BStr (oid_str u))]) (history db'))
                   <= 100)%nat)
      by (rewrite Hh, filter_app, length_app; cbn [List.filter]; rewrite Hd; cbn [List.length]; lia).
    apply (Permutation_in _ (Permutation_sym (find_sort_list_perm Hsort _ _ _ _ Hle))).
    apply filter_In. split; [rewrite Hh; apply in_or_app; right; now left | exact Hd].
Qed.
End Readback.
End AnalyzeProofs.

Section ScansWitnesses.
#[local] Existing Instances e2e_service e2e_jl one_page float_encoding insertion_cursor.
Local Open Scope float_scope.

Lemma scan_ids_legacy : scan_ids_below legacy_db.
Proof.
  split; [cbn; lia|]. intros d [<-|[]]. exists 21%Z. split; [left; reflexivity | cbn; lia].
Qed.

Lemma analyze_records_scan_witness :
  run 1 (analyze_drawing no_str png_upload (Some "key") alice_doc None ts0 ∅) legacy_db =
  Some (Ok {| outcome := Ok {| ar_filename := "drawing.png"; ar_weight := PFloat 0.085;
                               ar_data := JObj rect_kvs; ar_message := "Analysis successful" |};
              disk := delete (temp_filename png_upload) (<[temp_filename png_upload := Upload]> ∅) |},
        {| users := users legacy_db;
           history := history legacy_db ++
                        [scan_dump (entry_of 3%Z "drawing.png" (PFloat 0.085) rect_kvs ts0 (next_oid legacy_db))];
           next_oid := (next_oid legacy_db + 1)%Z |}).
Proof.
  refine (analyze_records_scan no_str png_upload (Some "key") alice_doc None ts0 ∅ legacy_db "key"
            (PFloat 0.085) rect_kvs (<[temp_filename png_upload := Upload]> ∅) 3%Z _ _ _ _ _);
    [reflexivity | vm_compute; reflexivity | reflexivity | exact scan_ids_legacy | reflexivity].
Defined.

Lemma analyze_missing_key_500_witness :
  run 0 (analyze_drawing no_str png_upload (Some "") alice_doc None ts0 ∅) legacy_db =
  Some (Ok {| outcome := Raise (HTTPException 500 "400: API Key required (upload or env var)");
              disk := delete (temp_filename png_upload) ∅ |}, legacy_db).
Proof. apply analyze_missing_key_500. reflexivity. Defined.

Lemma analyze_preserves_scan_ids_witness : scan_ids_below png_db /\ users png_db = users legacy_db.
Proof.
  apply (analyze_preserves_scan_ids no_str 1 png_upload (Some "key") alice_doc None ts0 ∅ legacy_db
           (Ok png_analyzed) png_db scan_ids_legacy).
  vm_compute. reflexivity.
Defined.

Lemma analyze_pdf_error_leaks_jpeg_witness :
  run 0 (analyze_drawing (JL := bad_jl) no_str pdf_upload (Some "key") alice_doc None ts0 ∅) legacy_db =
    Some (Ok {| outcome := Raise (HTTPException 500 (no_str (TPipeline (PyValue.KeyError "outer_width"))));
                disk := delete (temp_filename pdf_upload) pdf_disk |}, legacy_db) /\
  delete (temp_filename pdf_upload) pdf_disk !! temp_path (temp_filename pdf_upload)
    = Some (Jpeg (temp_filename pdf_upload)).
Proof.
  refine (analyze_pdf_error_leaks_jpeg (JL := bad_jl) no_str pdf_upload (Some "key") alice_doc None ts0 ∅
            legacy_db "key" 0%nat (PyValue.KeyError "outer_width") _ _ _ _ _ _ _);
    [reflexivity | vm_compute; reflexivity | reflexivity | reflexivity
    | apply String.eqb_neq; vm_compute; reflexivity | vm_compute; reflexivity | vm_compute; reflexivity].
Defined.

Lemma analyze_then_history_witness :
  exists d res, history png_db = history legacy_db ++ [d] /\
    doc_get "user_id" d = Some (BStr (oid_str 3%Z)) /\
    run 2 (get_history alice_doc) png_db = Some (Ok res, png_db) /\
    exists r, In r res /\ returned_as d r.
Proof.
  refine (analyze_then_history no_str insertion_sort_contract 1 png_upload (Some "key") alice_doc None ts0 ∅
            legacy_db png_analyzed png_db png_reply 3%Z _ scan_ids_legacy _ _ _ _);
    [reflexivity | vm_compute; reflexivity | vm_compute; lia | vm_compute; reflexivity | vm_compute; reflexivity].
Defined.
End ScansWitnesses.

End Scans.
