(* ===== verification/Integration.v ===== *)
(** * The import check (src/verify_integration.py)

    The script appends the working directory to [sys.path], imports
    [backend.core.analysis] and prints what it finds: a success line, the
    names of [dir(analysis)] that do not start with ["__"], and whether
    [process_drawing_pipeline] is among them; an exception of the import
    prints an error line and the traceback.  Whether the import succeeds
    depends on the working directory and on the installed packages
    ([google-genai], [Pillow]), which are the input [ImportResult]; the
    module's namespace when it does is [analysis_namespace]: the bindings
    of the top level of analysis.py (lines 1-6, 9, 64 and 142; the
    [__main__] block does not run on import) and the attributes every
    module has.  [dir()] returns the names sorted. *)

From Stdlib Require Import List String Ascii Bool Permutation.
From S2P Require Import Prelude.
Import ListNotations.
Local Open Scope string_scope.

Module Integration.

(** [from backend.core import analysis]: the module's attributes, or the
    message of the exception. *)
Inductive ImportResult := Imported (attrs : list string) | ImportFailed (msg : string).

(** The lines the script prints. *)
Inductive Line :=
| LImported
| LAvailable (items : list string)
| LFound
| LMissing
| LError (msg : string)
| LTraceback.

(** The attributes of the imported module. *)
Definition analysis_namespace : list string :=
  ["__builtins__"; "__cached__"; "__doc__"; "__file__"; "__loader__"; "__name__";
   "__package__"; "__spec__";
   "os"; "json"; "math"; "genai"; "Image"; "Path";
   "DrawnSteelCalculator"; "extract_dimensions_with_gemini"; "process_drawing_pipeline"].

Definition str_ltb (a b : string) : bool :=
  match String.compare a b with Lt => true | _ => false end.

Fixpoint insert_sorted (x : string) (l : list string) : list string :=
  match l with
  | [] => [x]
  | y :: r => if str_ltb y x then y :: insert_sorted x r else x :: y :: r
  end.

(** [dir(module)]: the attribute names, sorted. *)
Definition dir (attrs : list string) : list string := fold_right insert_sorted [] attrs.

(** [verify_integration.py], lines 7-18 *)
Definition verify_integration (r : ImportResult) : list Line :=
  match r with
  | Imported attrs =>
      [LImported;
       LAvailable (filter (fun item => negb (String.prefix "__" item)) (dir attrs));
       if existsb (String.eqb "process_drawing_pipeline") attrs then LFound else LMissing]
  | ImportFailed msg => [LError msg; LTraceback]
  end.

(** ** Lemmas *)

Lemma insert_sorted_perm x l : Permutation (insert_sorted x l) (x :: l).
Proof.
  induction l as [|y l IH]; simpl; [reflexivity|].
  destruct (str_ltb y x); [|reflexivity].
  eapply Permutation_trans; [apply perm_skip, IH | apply perm_swap].
Qed.

(** The items printed are exactly the public names of the module. *)
Lemma dir_perm attrs : Permutation (dir attrs) attrs.
Proof.
  induction attrs as [|a attrs IH]; simpl; [reflexivity|].
  eapply Permutation_trans; [apply insert_sorted_perm | now apply perm_skip].
Qed.

(** On import, the script reports the pipeline available and lists the
    nine public names of analysis.py in [dir()]'s order. *)
Lemma verify_integration_imported :
  verify_integration (Imported analysis_namespace) =
  [LImported;
   LAvailable ["DrawnSteelCalculator"; "Image"; "Path"; "extract_dimensions_with_gemini";
               "genai"; "json"; "math"; "os"; "process_drawing_pipeline"];
   LFound].
Proof. vm_compute. reflexivity. Qed.

End Integration.
