(* ===== verification/Cors.v ===== *)
(** * The CORS middleware of the application (src/backend/main.py, lines 12-18)

    [app.add_middleware(CORSMiddleware, allow_origins=["*"],
    allow_credentials=True, allow_methods=["*"], allow_headers=["*"])]
    wraps [App.app_handle] in Starlette's [CORSMiddleware].  The
    middleware is written once for any configuration ([CorsConfig], the
    arguments of its constructor) and instantiated with [main_cors]:
    - a request without an [Origin] header goes to the application
      unchanged;
    - a preflight ([OPTIONS] with [Access-Control-Request-Method]) is
      answered by the middleware itself, before routing
      ([preflight_response]);
    - any other request goes to the application, and the middleware adds
      its headers to the response ([simple_response]).

    The request headers the middleware reads are [CorsHeaders]; response
    headers are an association list, updated like a [dict]
    ([hset]: a key keeps its place, a new key goes last).  An exception
    that escapes a handler is answered 500 inside [App.app_handle]; in
    Starlette that response is built by the outer [ServerErrorMiddleware],
    outside the CORS middleware, so it carries no CORS headers; the
    theorems below do not depend on it. *)

From Stdlib Require Import List String Ascii ZArith Bool.
From S2P Require Import Prelude PyStr Bson Mongo Users History App Scans Integration.
Import ListNotations Mongo Users History App Scans Integration.
Local Open Scope string_scope.

Module Cors.

(** The constructor's arguments ([max_age] keeps its default, 600). *)
Record CorsConfig := {
  allow_origins : list string;
  allow_methods : list string;
  allow_headers : list string;
  allow_credentials : bool;
  max_age : Z
}.

(** main.py, lines 12-18 *)
Definition main_cors : CorsConfig := {|
  allow_origins := ["*"]; allow_methods := ["*"]; allow_headers := ["*"];
  allow_credentials := true; max_age := 600%Z |}.

Definition ALL_METHODS : list string := ["DELETE"; "GET"; "HEAD"; "OPTIONS"; "PATCH"; "POST"; "PUT"].
Definition SAFELISTED_HEADERS : list string := ["Accept"; "Accept-Language"; "Content-Language"; "Content-Type"].

(** The request headers the middleware reads. *)
Record CorsHeaders := {
  h_origin : option string;
  h_cookie : bool;
  h_acr_method : option string;
  h_acr_headers : option string
}.

Abbreviation Headers := (list (string * string)).

(** A response of the wrapped application: the application's reply or
    the middleware's plain text. *)
Inductive Body := AppBody (r : Reply) | Text (s : string).

Record HResponse := { h_status : Z; h_body : Body; h_headers : Headers }.

(** [headers[k] = v] *)
Fixpoint hset (k v : string) (h : Headers) : Headers :=
  match h with
  | [] => [(k, v)]
  | (k', v') :: r => if String.eqb k k' then (k, v) :: r else (k', v') :: hset k v r
  end.

Fixpoint hget (k : string) (h : Headers) : option string :=
  match h with
  | [] => None
  | (k', v) :: r => if String.eqb k k' then Some v else hget k r
  end.

Definition mem (x : string) (l : list string) : bool := existsb (String.eqb x) l.

(** [s.split(",")] *)
Fixpoint split_comma (s : string) : list string :=
  match s with
  | EmptyString => [EmptyString]
  | String c r =>
      match split_comma r with
      | [] => [String c EmptyString]
      | w :: ws => if Ascii.eqb c ","%char then EmptyString :: w :: ws else String c w :: ws
      end
  end.

Section Config.
Variable c : CorsConfig.

(** [__init__] *)
Definition methods : list string := if mem "*" (allow_methods c) then ALL_METHODS else allow_methods c.
Definition allow_all_origins : bool := mem "*" (allow_origins c).
Definition allow_all_headers : bool := mem "*" (allow_headers c).
Definition explicit_allow_origin : bool := negb allow_all_origins || allow_credentials c.
(** [sorted(SAFELISTED_HEADERS | set(allow_headers))] *)
Definition sorted_allow_headers : list string :=
  dir (nodup string_dec (SAFELISTED_HEADERS ++ allow_headers c)).
Definition lower_allow_headers : list string := map str_lower sorted_allow_headers.

Definition simple_headers : Headers :=
  ((if allow_all_origins then [("Access-Control-Allow-Origin", "*")] else []) ++
  (if allow_credentials c then [("Access-Control-Allow-Credentials", "true")] else []))%list.

Definition preflight_headers : Headers :=
  ((if explicit_allow_origin then [("Vary", "Origin")] else [("Access-Control-Allow-Origin", "*")]) ++
  [("Access-Control-Allow-Methods", String.concat ", " methods);
   ("Access-Control-Max-Age", dec_digits 10 (max_age c) EmptyString)] ++
  (if negb (Nat.eqb (List.length sorted_allow_headers) 0) && negb allow_all_headers
   then [("Access-Control-Allow-Headers", String.concat ", " sorted_allow_headers)] else []) ++
  (if allow_credentials c then [("Access-Control-Allow-Credentials", "true")] else []))%list.

Definition is_allowed_origin (origin : string) : bool := allow_all_origins || mem origin (allow_origins c).

(** [preflight_response] *)
Definition preflight_response (origin requested_method : string) (requested_headers : option string)
  : HResponse :=
  let '(headers, f_origin) :=
    if is_allowed_origin origin then
      ((if explicit_allow_origin then hset "Access-Control-Allow-Origin" origin preflight_headers
        else preflight_headers), [])
    else (preflight_headers, ["origin"]) in
  let f_method := if mem requested_method methods then [] else ["method"] in
  let '(headers, f_headers) :=
    match requested_headers with
    | Some rh =>
        if allow_all_headers then (hset "Access-Control-Allow-Headers" rh headers, [])
        else if forallb (fun h => mem (str_strip h) lower_allow_headers) (map str_lower (split_comma rh))
        then (headers, []) else (headers, ["headers"])
    | None => (headers, [])
    end in
  match (f_origin ++ f_method ++ f_headers)%list with
  | [] => {| h_status := 200; h_body := Text "OK"; h_headers := headers |}
  | failures =>
      {| h_status := 400; h_body := Text ("Disallowed CORS " ++ String.concat ", " failures);
         h_headers := headers |}
  end.

(** [headers.add_vary_header("Origin")] *)
Definition add_vary_origin (h : Headers) : Headers :=
  match hget "Vary" h with
  | Some v => hset "Vary" (v ++ ", Origin") h
  | None => hset "Vary" "Origin" h
  end.

(** The headers [simple_response] puts on the application's response. *)
Definition simple_response_headers (origin : string) (has_cookie : bool) : Headers :=
  let h := simple_headers in
  if allow_all_origins && has_cookie then add_vary_origin (hset "Access-Control-Allow-Origin" origin h)
  else if negb allow_all_origins && is_allowed_origin origin
  then add_vary_origin (hset "Access-Control-Allow-Origin" origin h)
  else h.

Definition with_headers (hd : Headers) (r : exn MErr Response) : exn MErr HResponse :=
  match r with
  | Ok r => Ok {| h_status := status r; h_body := AppBody (reply r); h_headers := hd |}
  | Raise e => Raise e
  end.

(** [CORSMiddleware.__call__] around the application *)
Definition cors_app {AU : Auth} {CU : Cursor} {GU : CurrentUser} (rq : Request) (h : CorsHeaders)
  : Co HResponse :=
  match h_origin h with
  | None => co_map (with_headers []) (app_handle rq)
  | Some origin =>
      match rq_method rq, h_acr_method h with
      | OPTIONS, Some m => Ret (Ok (preflight_response origin m (h_acr_headers h)))
      | _, _ => co_map (with_headers (simple_response_headers origin (h_cookie h))) (app_handle rq)
      end
  end.
End Config.

(** ** Lemmas *)

Lemma mem_In x l : In x l -> mem x l = true.
Proof. intros H. apply existsb_exists. exists x. split; [exact H | apply String.eqb_refl]. Qed.

Section CorsProofs.
Context {AU : Auth} {CU : Cursor} {GU : CurrentUser}.

(** [C3] With main.py's configuration every origin is granted credentialed
    access: a preflight from any origin, for any path (routed or not) and
    any standard method, is answered 200 by the middleware without reaching
    the application, echoing the origin with
    [Access-Control-Allow-Credentials: true]; and a request that carries
    cookies gets the same two headers on the application's response.
    ([allow_origins=["*"]] would suggest a wildcard, which browsers refuse
    with credentials; Starlette echoes the origin instead.) *)
Theorem cors_any_origin_credentialed rq origin m rh cookie db :
  rq_method rq = OPTIONS -> In m ALL_METHODS ->
  (exists r, run 0 (cors_app main_cors rq {| h_origin := Some origin; h_cookie := cookie;
                                             h_acr_method := Some m; h_acr_headers := rh |}) db
             = Some (Ok r, db) /\
     h_status r = 200%Z /\ hget "Access-Control-Allow-Origin" (h_headers r) = Some origin /\
     hget "Access-Control-Allow-Credentials" (h_headers r) = Some "true") /\
  hget "Access-Control-Allow-Origin" (simple_response_headers main_cors origin true) = Some origin /\
  hget "Access-Control-Allow-Credentials" (simple_response_headers main_cors origin true) = Some "true".
Proof.
  intros Hm Hin. split; [|split; reflexivity].
  unfold cors_app. cbn [h_origin h_acr_method h_acr_headers]. rewrite Hm.
  unfold preflight_response. rewrite (mem_In m (methods main_cors) Hin).
  destruct rh; eexists; (split; [reflexivity|]); cbn; auto.
Qed.

End CorsProofs.

Section CorsWitnesses.
#[local] Existing Instances plain_auth insertion_cursor email_token_user.

Lemma cors_any_origin_credentialed_witness :
  (exists r, run 0 (cors_app main_cors
                      {| rq_method := OPTIONS; rq_path := "/analysis/analyze"; rq_auth := None;
                         rq_body := NoBody |}
                      {| h_origin := Some "https://evil.example"; h_cookie := false;
                         h_acr_method := Some "POST"; h_acr_headers := Some "authorization" |}) db0
             = Some (Ok r, db0) /\
     h_status r = 200%Z /\ hget "Access-Control-Allow-Origin" (h_headers r) = Some "https://evil.example" /\
     hget "Access-Control-Allow-Credentials" (h_headers r) = Some "true") /\
  hget "Access-Control-Allow-Origin" (simple_response_headers main_cors "https://evil.example" true)
    = Some "https://evil.example" /\
  hget "Access-Control-Allow-Credentials" (simple_response_headers main_cors "https://evil.example" true)
    = Some "true".
Proof. apply cors_any_origin_credentialed; [reflexivity | simpl; tauto]. Defined.

End CorsWitnesses.

End Cors.
